(** * The MTP responder of esp32s3-tusb-mtp over LittleFS

    A shallow embedding of [main/src/monolith/usb_mtp_impl.c.h]: the handle
    table, the session controller, the object handlers and the chunked
    transfer engine, assembled into a machine that serves requests, followed
    by the properties of the specification that were checked against them.

    Conventions of the embedding.
    - [uint32_t] and [size_t] (32 bits on the ESP32-S3) are [Z] with the
      wrap-around written as [to_uint32]; [int] is [Z] through [to_int32].
    - A [char] array holding a C string is a [string]: the characters before
      the first NUL.  [name[0] == 0] is therefore [name = ""].
    - The static variables of the translation unit are the fields of
      [mtp_state]; the mounted LittleFS volume is the field [disk], read and
      changed only through the [FileSystem] interface.
    - Dereferencing [nullptr], calling stdio on a null [FILE*] and writing
      outside [handles[0..31]] have no defined behaviour in C: the embedding
      returns [Undefined] there.  The only unbounded loop (the [fread] loop
      of [fs_get_object]) runs on fuel and returns [OutOfFuel] when it is
      exhausted. *)

From Stdlib Require Import ZArith Lia Sorted.
From Stdlib.Strings Require Import Byte.
From stdpp Require Import base list strings.

Local Open Scope Z_scope.

(** ** Machine integers *)

Definition to_uint32 (z : Z) : Z := z mod 4294967296.

Definition to_int32 (z : Z) : Z := (z + 2147483648) mod 4294967296 - 2147483648.

(** [tu_min32] of TinyUSB: [(x < y) ? x : y]. *)
Definition tu_min32 (x y : Z) : Z := if x <? y then x else y.

(** ** Outcomes of C code *)

Inductive outcome (A : Type) : Type :=
| Done (a : A)
| Undefined
| OutOfFuel.

Arguments Done {A} a.
Arguments Undefined {A}.
Arguments OutOfFuel {A}.

#[global] Instance outcome_ret : MRet outcome := fun A a => Done a.

#[global] Instance outcome_bind : MBind outcome := fun A B k m =>
  match m with
  | Done a => k a
  | Undefined => Undefined
  | OutOfFuel => OutOfFuel
  end.

(** ** C strings in bounded buffers *)

Definition strtake (n : nat) (s : string) : string := String.substring 0 n s.

(** [strncpy (dst, src, n)]: the first [n] characters of [src].  When [src]
    has [n] characters or more the C array is left without a terminating
    NUL, and C code reading it as a string runs on into the bytes that
    follow the array.  The embedding keeps the [n] characters, the content
    of the array: it renders what the C code reads back only for a [src]
    of fewer than [n] characters, and the statements about names read back
    as strings are made for such names ([names_terminated]). *)
Definition strncpy (src : string) (n : nat) : string := strtake n src.

(** [strlcpy (dst, src, size)]: at most [size - 1] characters, always
    terminated. *)
Definition strlcpy (src : string) (size : nat) : string := strtake (size - 1) src.

(** [strlcat (dst, src, size)]: appends while the result fits in [size - 1]
    characters; a [dst] already filling the buffer is left alone. *)
Definition strlcat (dst src : string) (size : nat) : string :=
  if decide (String.length dst < size)%nat
  then dst +:+ strtake (size - 1 - String.length dst) src
  else dst.

(** ** Constants of the responder *)

Definition MTP_FILENAME_LENGTH : nat := 63.
Definition MTP_HANDLE_TABLE_SIZE : Z := 32.
Definition FS_INVALID_HANDLE : Z := 4294967295.
Definition SUPPORTED_STORAGE_ID : Z := 65537.
Definition PATH_BUF_LEN : nat := 200.

(** [errno] values used as negative return codes. *)
Definition ENOENT : Z := 2.
Definition EINVAL : Z := 22.

(** Response codes, association types and the operation codes of the two
    session operations: the enumerators of TinyUSB's [class/mtp/mtp.h], which
    carry the values of the PIMA 15740 tables. *)
Definition MTP_RESP_UNDEFINED : Z := 8192.
Definition MTP_RESP_OK : Z := 8193.
Definition MTP_RESP_GENERAL_ERROR : Z := 8194.
Definition MTP_RESP_SESSION_NOT_OPEN : Z := 8195.
Definition MTP_RESP_OPERATION_NOT_SUPPORTED : Z := 8197.
Definition MTP_RESP_PARAMETER_NOT_SUPPORTED : Z := 8198.
Definition MTP_RESP_INVALID_STORAGE_ID : Z := 8200.
Definition MTP_RESP_INVALID_OBJECT_HANDLE : Z := 8201.
Definition MTP_RESP_STORE_FULL : Z := 8204.
Definition MTP_RESP_INVALID_PARENT_OBJECT : Z := 8218.
Definition MTP_RESP_INVALID_PARAMETER : Z := 8221.
Definition MTP_RESP_SESSION_ALREADY_OPEN : Z := 8222.

Definition MTP_ASSOCIATION_UNDEFINED : Z := 0.
Definition MTP_ASSOCIATION_GENERIC_FOLDER : Z := 1.

Definition MTP_OP_OPEN_SESSION : Z := 4098.
Definition MTP_OP_CLOSE_SESSION : Z := 4099.

Inductive mtp_phase : Type :=
| MTP_PHASE_COMMAND
| MTP_PHASE_DATA
| MTP_PHASE_RESPONSE
| MTP_PHASE_ERROR.

#[global] Instance mtp_phase_eq_dec : EqDecision mtp_phase.
Proof. solve_decision. Defined.

(** ** The handle table *)

Record fs_handletable_entry_t : Type := {
  handle : Z;
  parent_handle : Z;
  is_dir : bool;
  name : string;
}.

#[global] Instance fs_handletable_entry_eq_dec : EqDecision fs_handletable_entry_t.
Proof. solve_decision. Defined.

Record fs_handletable : Type := {
  handles : list fs_handletable_entry_t;
  handles_used : Z;
}.

(** A zero-initialised slot and the zero-initialised static table. *)
Definition empty_entry : fs_handletable_entry_t :=
  {| handle := 0; parent_handle := 0; is_dir := false; name := "" |}.

Definition initial_table : fs_handletable :=
  {| handles := replicate (Z.to_nat MTP_HANDLE_TABLE_SIZE) empty_entry;
     handles_used := 0 |}.

(** [entry->name[0] != 0]. *)
Definition entry_live (e : fs_handletable_entry_t) : bool :=
  negb (String.eqb (name e) "").

(** [static fs_handle_t fs_assign_new_handle(void)]: [++handle_self_inc] on a
    [uint32_t].  Returns the new handle and the new counter. *)
Definition fs_assign_new_handle (handle_self_inc : Z) : Z * Z :=
  let h := to_uint32 (handle_self_inc + 1) in (h, h).

(** [fs_get_handle_entry]: the first slot whose [handle] field matches,
    whether the slot is in use or not; [None] is [nullptr]. *)
Definition fs_get_handle_entry (tbl : fs_handletable) (h : Z)
  : option (nat * fs_handletable_entry_t) :=
  list_find (fun e => handle e = h) (handles tbl).

(** [fs_handletable_find_empty_entry]: the first slot with an empty name;
    [None] is [FS_INVALID_HANDLE]. *)
Definition fs_handletable_find_empty_entry (tbl : fs_handletable)
  : option (nat * fs_handletable_entry_t) :=
  list_find (fun e => name e = "") (handles tbl).

(** [fs_handle_valid]: some slot carries the handle and is in use. *)
Definition fs_handle_valid (tbl : fs_handletable) (h : Z) : bool :=
  existsb (fun e => bool_decide (handle e = h) && entry_live e) (handles tbl).

(** [fs_path_from_handle]: [Done None] is the [false] return. *)
Definition fs_path_from_handle (tbl : fs_handletable) (h : Z) (buf_len : nat)
  : outcome (option string) :=
  if negb (fs_handle_valid tbl h) then Done None
  else
    match fs_get_handle_entry tbl h with
    | None => Undefined
    | Some (_, entry) =>
        let path0 := strlcpy "/littlefs/" buf_len in
        if decide (parent_handle entry ≠ 0) then
          match fs_get_handle_entry tbl (parent_handle entry) with
          | None => Undefined
          | Some (_, parent_entry) =>
              let path1 := strlcat path0 (name parent_entry) buf_len in
              let path2 := strlcat path1 "/" buf_len in
              Done (Some (strlcat path2 (name entry) buf_len))
          end
        else Done (Some (strlcat path0 (name entry) buf_len))
    end.

(** [fs_path_create]: the return code and the path written to [path_out]. *)
Definition fs_path_create (tbl : fs_handletable) (parent : Z) (nm : string)
    (buf_len : nat) : Z * string :=
  if decide (parent ≠ 0) then
    match fs_get_handle_entry tbl parent with
    | None => (- ENOENT, "")
    | Some (_, parent_entry) =>
        let path0 := strlcpy "/littlefs/" buf_len in
        let path1 := strlcat path0 (name parent_entry) buf_len in
        let path2 := strlcat path1 "/" buf_len in
        (0, strlcat path2 nm buf_len)
    end
  else (0, strlcat (strlcpy "/littlefs/" buf_len) nm buf_len).

(** [entry->name[0] = 0]. *)
Definition clear_name (entry : fs_handletable_entry_t) : fs_handletable_entry_t :=
  {| handle := handle entry;
     parent_handle := parent_handle entry;
     is_dir := is_dir entry;
     name := "" |}.

(** [fs_delete_handle]: clears the first in-use slot carrying the handle and
    decrements [handles_used]. *)
Definition fs_delete_handle (tbl : fs_handletable) (h : Z) : Z * fs_handletable :=
  match list_find (fun e => handle e = h ∧ name e ≠ "") (handles tbl) with
  | Some (ii, entry) =>
      (0, {| handles := <[ii := clear_name entry]> (handles tbl);
             handles_used := to_uint32 (handles_used tbl - 1) |})
  | None => (- ENOENT, tbl)
  end.

(** ** The collaborators *)

Inductive d_type_t : Type := DT_UNKNOWN | DT_REG | DT_DIR.

#[global] Instance d_type_eq_dec : EqDecision d_type_t.
Proof. solve_decision. Defined.

Record dirent : Type := { d_name : string; d_type : d_type_t }.

(** The two fields of [struct stat] that the responder reads:
    [st_mode & S_IFDIR] as a boolean, and [st_size]. *)
Record stat_t : Type := { st_is_dir : bool; st_size : Z }.

(** The POSIX and LittleFS calls made on the mounted volume.
    - [opendir]: [None] is a null [DIR*]; otherwise the entries that the
      successive [readdir] calls return, in order.
    - [stat]: [None] is the return value -1.
    - [fopen_r]: [fopen (path, "r")]; [None] is a null stream, otherwise the
      bytes of the file.
    - [fopen_w]: [fopen (path, "w")]; [None] is a null stream, otherwise the
      volume with the file created or truncated.
    - [fwrite]: the volume after a successful [fwrite] on a stream opened
      for writing: the bytes are in the file at the position of the stream.
      What the call does on a stream of either mode is [fwrite_stream].
    - [esp_littlefs_info]: capacity and used bytes. *)
Class FileSystem (fs : Type) : Type := {
  opendir : fs → string → option (list dirent);
  stat : fs → string → option stat_t;
  fopen_r : fs → string → option (list byte);
  fopen_w : fs → string → option fs;
  fwrite : fs → string → Z → list byte → fs;
  unlink : fs → string → fs;
  mkdir : fs → string → fs;
  esp_littlefs_info : fs → Z * Z;
}.

(** What the responder takes from TinyUSB and from the UTF converter:
    [sizeof (mtp_container_header_t)], the endpoint buffer size, and
    [utf16_to_utf8 (units, capacity)] read back as a C string. *)
Class Platform : Type := {
  mtp_container_header_size : Z;
  CFG_TUD_MTP_EP_BUFSIZE : Z;
  utf16_to_utf8 : list Z → nat → string;
}.

(** An open [FILE*]: the path it was opened on, its mode and its position. *)
Record FILE : Type := { f_path : string; f_write : bool; f_pos : Z }.

#[global] Instance FILE_eq_dec : EqDecision FILE.
Proof. solve_decision. Defined.

(** The run-time fields of the global [storage_info]. *)
Record storage_info_t : Type := {
  max_capacity_in_bytes : Z;
  free_space_in_bytes : Z;
  free_space_in_objects : Z;
}.

(** ** The state of the translation unit *)

Record mtp_state (fs : Type) : Type := {
  handle_table : fs_handletable;
  handle_self_inc : Z;
  is_session_opened : bool;
  current_file : option FILE;
  current_handle : Z;
  current_file_size : Z;
  storage_info : storage_info_t;
  disk : fs;
}.

Arguments handle_table {fs} _.
Arguments handle_self_inc {fs} _.
Arguments is_session_opened {fs} _.
Arguments current_file {fs} _.
Arguments current_handle {fs} _.
Arguments current_file_size {fs} _.
Arguments storage_info {fs} _.
Arguments disk {fs} _.

Definition initial_state {fs : Type} (d : fs) : mtp_state fs :=
  {| handle_table := initial_table;
     handle_self_inc := 0;
     is_session_opened := false;
     current_file := None;
     current_handle := FS_INVALID_HANDLE;
     current_file_size := 0;
     storage_info := {| max_capacity_in_bytes := 0;
                        free_space_in_bytes := 0;
                        free_space_in_objects := 0 |};
     disk := d |}.

Definition set_handle_table {fs} (st : mtp_state fs) (tbl : fs_handletable) : mtp_state fs :=
  {| handle_table := tbl;
     handle_self_inc := handle_self_inc st;
     is_session_opened := is_session_opened st;
     current_file := current_file st;
     current_handle := current_handle st;
     current_file_size := current_file_size st;
     storage_info := storage_info st;
     disk := disk st |}.

Definition set_handle_self_inc {fs} (st : mtp_state fs) (inc : Z) : mtp_state fs :=
  {| handle_table := handle_table st;
     handle_self_inc := inc;
     is_session_opened := is_session_opened st;
     current_file := current_file st;
     current_handle := current_handle st;
     current_file_size := current_file_size st;
     storage_info := storage_info st;
     disk := disk st |}.

Definition set_is_session_opened {fs} (st : mtp_state fs) (b : bool) : mtp_state fs :=
  {| handle_table := handle_table st;
     handle_self_inc := handle_self_inc st;
     is_session_opened := b;
     current_file := current_file st;
     current_handle := current_handle st;
     current_file_size := current_file_size st;
     storage_info := storage_info st;
     disk := disk st |}.

Definition set_current_file {fs} (st : mtp_state fs) (f : option FILE) : mtp_state fs :=
  {| handle_table := handle_table st;
     handle_self_inc := handle_self_inc st;
     is_session_opened := is_session_opened st;
     current_file := f;
     current_handle := current_handle st;
     current_file_size := current_file_size st;
     storage_info := storage_info st;
     disk := disk st |}.

Definition set_current_handle {fs} (st : mtp_state fs) (h : Z) : mtp_state fs :=
  {| handle_table := handle_table st;
     handle_self_inc := handle_self_inc st;
     is_session_opened := is_session_opened st;
     current_file := current_file st;
     current_handle := h;
     current_file_size := current_file_size st;
     storage_info := storage_info st;
     disk := disk st |}.

Definition set_current_file_size {fs} (st : mtp_state fs) (n : Z) : mtp_state fs :=
  {| handle_table := handle_table st;
     handle_self_inc := handle_self_inc st;
     is_session_opened := is_session_opened st;
     current_file := current_file st;
     current_handle := current_handle st;
     current_file_size := n;
     storage_info := storage_info st;
     disk := disk st |}.

Definition set_storage_info {fs} (st : mtp_state fs) (si : storage_info_t) : mtp_state fs :=
  {| handle_table := handle_table st;
     handle_self_inc := handle_self_inc st;
     is_session_opened := is_session_opened st;
     current_file := current_file st;
     current_handle := current_handle st;
     current_file_size := current_file_size st;
     storage_info := si;
     disk := disk st |}.

Definition set_disk {fs} (st : mtp_state fs) (d : fs) : mtp_state fs :=
  {| handle_table := handle_table st;
     handle_self_inc := handle_self_inc st;
     is_session_opened := is_session_opened st;
     current_file := current_file st;
     current_handle := current_handle st;
     current_file_size := current_file_size st;
     storage_info := storage_info st;
     disk := d |}.

(** ** Rebuilding the handle table at session open *)

(** A store into [handle_table->handles[ii]]. *)
Definition write_slot (hs : list fs_handletable_entry_t) (ii : Z)
    (f : fs_handletable_entry_t → fs_handletable_entry_t)
  : outcome (list fs_handletable_entry_t) :=
  if decide (0 ≤ ii < MTP_HANDLE_TABLE_SIZE)
  then Done (alter f (Z.to_nat ii) hs)
  else Undefined.

(** The variables that [fs_handletable_regenerate] carries through its two
    loops: the slots, the allocator counter and the [int ii]. *)
Record walk : Type := {
  w_handles : list fs_handletable_entry_t;
  w_inc : Z;
  w_ii : Z;
}.

(** How a loop is left: by running out of entries, or by [goto cleanup]. *)
Inductive walk_exit : Type := WalkNext | WalkCleanup.

(** The inner loop over the entries of one sub-directory.  It stores the
    name, the parent handle and the directory flag; the [handle] field of
    the slot is not written. *)
Fixpoint regenerate_subdir (parent : Z) (items : list dirent) (w : walk)
  : outcome (walk_exit * walk) :=
  match items with
  | [] => Done (WalkNext, w)
  | subdiritem :: rest =>
      match write_slot (w_handles w) (w_ii w)
              (fun e => {| handle := handle e;
                           parent_handle := to_uint32 parent;
                           is_dir := bool_decide (d_type subdiritem = DT_DIR);
                           name := strncpy (d_name subdiritem) MTP_FILENAME_LENGTH |}) with
      | Done hs =>
          let '(h, inc) := fs_assign_new_handle (w_inc w) in
          let w' := {| w_handles := hs; w_inc := inc; w_ii := to_int32 h |} in
          if decide (w_ii w' >= MTP_HANDLE_TABLE_SIZE) then Done (WalkCleanup, w')
          else regenerate_subdir parent rest w'
      | Undefined => Undefined
      | OutOfFuel => OutOfFuel
      end
  end.

(** The outer loop over the entries of the root.  It stores the name, parent
    0 and the handle [ii], takes the next handle, and for a directory sets
    the directory flag of slot [ii] (the slot after the directory's own) and
    walks the sub-directory with that [ii] as parent handle. *)
Fixpoint regenerate_root {fs} `{FileSystem fs} (d : fs) (items : list dirent) (w : walk)
  : outcome (walk_exit * walk) :=
  match items with
  | [] => Done (WalkNext, w)
  | rootitem :: rest =>
      match write_slot (w_handles w) (w_ii w)
              (fun e => {| handle := to_uint32 (w_ii w);
                           parent_handle := 0;
                           is_dir := is_dir e;
                           name := strncpy (d_name rootitem) MTP_FILENAME_LENGTH |}) with
      | Done hs =>
          let '(h, inc) := fs_assign_new_handle (w_inc w) in
          let w1 := {| w_handles := hs; w_inc := inc; w_ii := to_int32 h |} in
          if decide (w_ii w1 >= MTP_HANDLE_TABLE_SIZE) then Done (WalkCleanup, w1)
          else if decide (d_type rootitem = DT_DIR) then
            let parent := w_ii w1 in
            match write_slot hs parent
                    (fun e => {| handle := handle e;
                                 parent_handle := parent_handle e;
                                 is_dir := true;
                                 name := name e |}) with
            | Done hs2 =>
                let w2 := {| w_handles := hs2; w_inc := inc; w_ii := w_ii w1 |} in
                if decide (PATH_BUF_LEN ≤ 10 + String.length (d_name rootitem))%nat
                then Undefined
                else
                  match opendir d ("/littlefs/" +:+ d_name rootitem) with
                  | None => regenerate_root d rest w2
                  | Some subitems =>
                      match regenerate_subdir parent subitems w2 with
                      | Done (WalkNext, w3) => regenerate_root d rest w3
                      | Done (WalkCleanup, w3) => Done (WalkCleanup, w3)
                      | Undefined => Undefined
                      | OutOfFuel => OutOfFuel
                      end
                  end
            | Undefined => Undefined
            | OutOfFuel => OutOfFuel
            end
          else regenerate_root d rest w1
      | Undefined => Undefined
      | OutOfFuel => OutOfFuel
      end
  end.

(** [fs_handletable_regenerate]: slots not reached by the walk keep what they
    held; [handles_used] receives the final [ii]; when the root cannot be
    opened only the allocator has moved. *)
Definition fs_handletable_regenerate {fs} `{FileSystem fs} (st : mtp_state fs)
  : outcome (mtp_state fs) :=
  let '(h, inc) := fs_assign_new_handle (handle_self_inc st) in
  match opendir (disk st) "/littlefs" with
  | None => Done (set_handle_self_inc st inc)
  | Some items =>
      '(_, w) ← regenerate_root (disk st) items
                  {| w_handles := handles (handle_table st); w_inc := inc; w_ii := to_int32 h |};
      Done (set_handle_self_inc
              (set_handle_table st {| handles := w_handles w;
                                      handles_used := to_uint32 (w_ii w) |})
              (w_inc w))
  end.

(** ** Files behind handles *)

(** [fs_stat_handle]: a failing return code, or the [stat] buffer together
    with the pointer stored in [*handletable_entry]. *)
Inductive stat_handle_result : Type :=
| StatHandleFail (retval : Z)
| StatHandleOk (sb : stat_t) (entry : option (nat * fs_handletable_entry_t)).

Definition fs_stat_handle {fs} `{FileSystem fs} (tbl : fs_handletable) (d : fs) (h : Z)
  : outcome stat_handle_result :=
  p ← fs_path_from_handle tbl h PATH_BUF_LEN;
  match p with
  | None => Done (StatHandleFail (- EINVAL))
  | Some path_buf =>
      match stat d path_buf with
      | None => Done (StatHandleFail (-1))
      | Some sb => Done (StatHandleOk sb (fs_get_handle_entry tbl h))
      end
  end.

(** [fs_open_handle]: reuses the open stream when it belongs to the handle;
    otherwise resolves the path and opens it.  In read mode the size is
    taken with [fseek]/[ftell], which has no defined behaviour on the null
    stream of a failed [fopen]. *)
Definition fs_open_handle {fs} `{FileSystem fs} (st : mtp_state fs) (h : Z) (mode_w : bool)
  : outcome (option FILE * mtp_state fs) :=
  if bool_decide (current_file st ≠ None) && bool_decide (current_handle st = h)
  then Done (current_file st, st)
  else
    p ← fs_path_from_handle (handle_table st) h PATH_BUF_LEN;
    match p with
    | None => Done (None, st)
    | Some path_buf =>
        let st1 := set_current_handle st h in
        if mode_w then
          match fopen_w (disk st) path_buf with
          | None => Done (None, set_current_file st1 None)
          | Some d' =>
              let f := {| f_path := path_buf; f_write := true; f_pos := 0 |} in
              Done (Some f, set_disk (set_current_file st1 (Some f)) d')
          end
        else
          match fopen_r (disk st) path_buf with
          | None => Undefined
          | Some content =>
              let f := {| f_path := path_buf; f_write := false; f_pos := 0 |} in
              Done (Some f,
                    set_current_file_size (set_current_file st1 (Some f))
                      (to_uint32 (Z.of_nat (length content))))
          end
    end.

(** [fs_can_create_file]: the counter must differ from the table size and
    [capacity_bytes - used_bytes] (in [size_t]) must not be below [size]. *)
Definition fs_can_create_file {fs} `{FileSystem fs} (tbl : fs_handletable) (d : fs) (size : Z)
  : bool :=
  if decide (handles_used tbl = MTP_HANDLE_TABLE_SIZE) then false
  else
    let '(capacity_bytes, used_bytes) := esp_littlefs_info d in
    if decide (to_uint32 (capacity_bytes - used_bytes) < size) then false
    else true.

(** [fs_create_file]: the returned handle and the new state.  The handle is
    taken from the allocator before [fopen], and [current_file] receives the
    result of [fopen] even when it is null. *)
Definition fs_create_file {fs} `{FileSystem fs} (st : mtp_state fs) (parent : Z) (nm : string)
  : Z * mtp_state fs :=
  let '(retval, pathbuf) := fs_path_create (handle_table st) parent nm PATH_BUF_LEN in
  if decide (retval ≠ 0) then (FS_INVALID_HANDLE, st)
  else
    match fs_handletable_find_empty_entry (handle_table st) with
    | None => (FS_INVALID_HANDLE, st)
    | Some (handle_slot, slot_entry) =>
        let '(h, inc) := fs_assign_new_handle (handle_self_inc st) in
        let st1 := set_handle_self_inc st inc in
        match fopen_w (disk st) pathbuf with
        | None => (FS_INVALID_HANDLE, set_current_file st1 None)
        | Some d' =>
            let f := {| f_path := pathbuf; f_write := true; f_pos := 0 |} in
            let entry := {| handle := h;
                            parent_handle := parent;
                            is_dir := is_dir slot_entry;
                            name := strlcpy nm MTP_FILENAME_LENGTH |} in
            let tbl := {| handles := <[handle_slot := entry]> (handles (handle_table st));
                          handles_used := to_uint32 (handles_used (handle_table st) + 1) |} in
            (h, set_handle_table
                  (set_current_handle (set_current_file (set_disk st1 d') (Some f)) h)
                  tbl)
        end
    end.

(** [fs_close_handle]: does nothing on a mismatch; [fclose] of a null stream
    has no defined behaviour. *)
Definition fs_close_handle {fs} (st : mtp_state fs) (h : Z) (file : option FILE)
  : outcome (mtp_state fs) :=
  if decide (current_file st ≠ file ∨ current_handle st ≠ h) then Done st
  else
    match file with
    | None => Undefined
    | Some _ => Done (set_current_file (set_current_handle st FS_INVALID_HANDLE) None)
    end.

(** [fread (ptr, 1, n, file)] on a stream opened for reading: the bytes
    between the position and the end of the file, at most [n] of them. *)
Definition fread {fs} `{FileSystem fs} (d : fs) (f : FILE) (n : Z) : list byte * FILE :=
  let content := default [] (fopen_r d (f_path f)) in
  let got := take (Z.to_nat n) (drop (Z.to_nat (f_pos f)) content) in
  (got, {| f_path := f_path f; f_write := f_write f;
           f_pos := f_pos f + Z.of_nat (length got) |}).

Definition fseek_set (f : FILE) (offset : Z) : FILE :=
  {| f_path := f_path f; f_write := f_write f; f_pos := offset |}.

(** The loop [while (remaining_len) { bytes_read = fread (...); ... }]. *)
Fixpoint fread_loop {fs} `{FileSystem fs} (fuel : nat) (d : fs) (f : FILE)
    (remaining_len : Z) (buf : list byte) : outcome (list byte * FILE) :=
  if decide (remaining_len = 0) then Done (buf, f)
  else
    match fuel with
    | O => OutOfFuel
    | S fuel' =>
        let '(got, f') := fread d f remaining_len in
        fread_loop fuel' d f'
          (to_uint32 (remaining_len - Z.of_nat (length got))) (buf ++ got)
    end.

(** ** Requests and replies *)

(** The fields of [mtp_object_info_header_t] that the responder reads. *)
Record mtp_object_info_header_t : Type := {
  oi_storage_id : Z;
  oi_parent_object : Z;
  oi_association_type : Z;
  oi_object_compressed_size : Z;
}.

(** [tud_mtp_cb_data_t] as the handlers read it: the command code and its
    first three parameters, the phase, the running byte count, the byte
    count [payload_bytes] of the payload buffer (its capacity when the
    responder sends, the bytes received when it receives), and the payload:
    as the dataset of a SendObjectInfo data phase (the object-info header
    and the UTF-16 units of the file name) and as the raw bytes of a
    SendObject data phase. *)
Record tud_mtp_cb_data_t : Type := {
  cmd_code : Z;
  param0 : Z;
  param1 : Z;
  param2 : Z;
  phase : mtp_phase;
  total_xferred_bytes : Z;
  payload_bytes : Z;
  payload_obj_info : mtp_object_info_header_t;
  payload_filename : list Z;
  payload_data : list byte;
}.

(** What a handler submits to the transport before returning. *)
Inductive io_action : Type :=
| NoIO
| DataReceive
| DataSendStorageInfo (si : storage_info_t)
| DataSendHandles (hs : list Z)
| DataSendObjectInfo (parent : Z) (association : Z) (size : Z) (nm : string)
| DataSendObject (total_len : Z) (bytes : list byte)
| DataSendChunk (bytes : list byte).

Record reply (fs : Type) : Type := {
  r_code : Z;
  r_io : io_action;
  r_state : mtp_state fs;
}.

Arguments r_code {fs} _.
Arguments r_io {fs} _.
Arguments r_state {fs} _.

Definition respond {fs} (code : Z) (io : io_action) (st : mtp_state fs) : reply fs :=
  {| r_code := code; r_io := io; r_state := st |}.

(** The tail of [tud_mtp_command_received_cb] and [tud_mtp_data_xfer_cb]: a
    return value above [MTP_RESP_UNDEFINED] is written to the reply header
    (as [uint16_t]) and sent as the response; any other value sends
    nothing. *)
Definition response_sent (resp_code : Z) : option Z :=
  if decide (resp_code > MTP_RESP_UNDEFINED) then Some (resp_code mod 65536) else None.

(** ** The handlers *)

(** [fs_open_close_session], registered for OpenSession and CloseSession:
    any code other than OpenSession takes the close branch.  CloseSession
    resets the allocator and leaves the table as it is. *)
Definition fs_open_close_session {fs} `{FileSystem fs} (cb : tud_mtp_cb_data_t)
    (st : mtp_state fs) : outcome (reply fs) :=
  if decide (cmd_code cb = MTP_OP_OPEN_SESSION) then
    if is_session_opened st then Done (respond MTP_RESP_SESSION_ALREADY_OPEN NoIO st)
    else
      st' ← fs_handletable_regenerate (set_is_session_opened st true);
      Done (respond MTP_RESP_OK NoIO st')
  else
    if negb (is_session_opened st) then Done (respond MTP_RESP_SESSION_NOT_OPEN NoIO st)
    else Done (respond MTP_RESP_OK NoIO
                 (set_handle_self_inc (set_is_session_opened st false) 0)).

(** [TU_VERIFY (SUPPORTED_STORAGE_ID == storage_id, -1)] guards the body. *)
Definition fs_get_storage_info {fs} `{FileSystem fs} (cb : tud_mtp_cb_data_t)
    (st : mtp_state fs) : reply fs :=
  let storage_id := param0 cb in
  if decide (SUPPORTED_STORAGE_ID = storage_id) then
    let '(capacity_bytes, used_bytes) := esp_littlefs_info (disk st) in
    let si := {| max_capacity_in_bytes := capacity_bytes;
                 free_space_in_bytes := to_uint32 (capacity_bytes - used_bytes);
                 free_space_in_objects :=
                   to_uint32 (MTP_HANDLE_TABLE_SIZE - handles_used (handle_table st)) |} in
    respond 0 (DataSendStorageInfo si) (set_storage_info st si)
  else respond (-1) NoIO st.

(** [fs_get_object_handles]: the handles of the in-use slots whose parent is
    the requested one, in slot order. *)
Definition fs_get_object_handles {fs} (cb : tud_mtp_cb_data_t) (st : mtp_state fs)
  : reply fs :=
  let storage_id := param0 cb in
  let parent := param2 cb in
  if decide (storage_id ≠ 4294967295 ∧ storage_id ≠ SUPPORTED_STORAGE_ID)
  then respond MTP_RESP_INVALID_STORAGE_ID NoIO st
  else
    let h := if decide (parent = 4294967295) then 0 else parent in
    let found :=
      filter (fun e => parent_handle e = h ∧ name e ≠ "") (handles (handle_table st)) in
    respond 0 (DataSendHandles (handle <$> found)) st.

(** [fs_get_object_info]: the dataset is reduced to the fields taken from
    the entry and from [stat]; the name is sent as stored (its UTF-16 form
    is the converter's business). *)
Definition fs_get_object_info {fs} `{FileSystem fs} (cb : tud_mtp_cb_data_t)
    (st : mtp_state fs) : outcome (reply fs) :=
  let obj_handle := param0 cb in
  r ← fs_stat_handle (handle_table st) (disk st) obj_handle;
  match r with
  | StatHandleFail _ => Done (respond MTP_RESP_INVALID_OBJECT_HANDLE NoIO st)
  | StatHandleOk sb None => Undefined
  | StatHandleOk sb (Some (_, entry)) =>
      Done (respond 0
              (DataSendObjectInfo (parent_handle entry)
                 (if is_dir entry then MTP_ASSOCIATION_GENERIC_FOLDER
                  else MTP_ASSOCIATION_UNDEFINED)
                 (st_size sb) (name entry))
              st)
  end.

(** The offset and the chunk length of a GetObject data phase. *)
Definition get_object_offset `{Platform} (cb : tud_mtp_cb_data_t) : Z :=
  to_uint32 (total_xferred_bytes cb - mtp_container_header_size).

Definition get_object_xact_len `{Platform} {fs} (cb : tud_mtp_cb_data_t) (st : mtp_state fs)
  : Z :=
  tu_min32 (to_uint32 (current_file_size st - get_object_offset cb)) (payload_bytes cb).

(** [fs_get_object].  In the command phase [mtp_container_add_raw] of
    TinyUSB announces the whole size and copies what fits after the header;
    in a data phase the chunk is read at the offset and the stream is closed
    once the end of the file is reached. *)
Definition fs_get_object {fs} `{FileSystem fs} `{Platform} (fuel : nat)
    (cb : tud_mtp_cb_data_t) (st : mtp_state fs) : outcome (reply fs) :=
  let obj_handle := param0 cb in
  '(f, st1) ← fs_open_handle st obj_handle false;
  match f with
  | None => Done (respond MTP_RESP_INVALID_OBJECT_HANDLE NoIO st1)
  | Some file =>
      match phase cb with
      | MTP_PHASE_COMMAND =>
          let want := if decide (CFG_TUD_MTP_EP_BUFSIZE < current_file_size st1)
                      then CFG_TUD_MTP_EP_BUFSIZE else current_file_size st1 in
          let '(first_time_buffer, file') := fread (disk st1) file want in
          let added := tu_min32 (current_file_size st1)
                         (CFG_TUD_MTP_EP_BUFSIZE - mtp_container_header_size) in
          Done (respond 0
                  (DataSendObject (current_file_size st1)
                     (take (Z.to_nat added) first_time_buffer))
                  (set_current_file st1 (Some file')))
      | MTP_PHASE_DATA =>
          let offset := get_object_offset cb in
          let xact_len := get_object_xact_len cb st1 in
          '(io, st2) ←
            (if decide (xact_len > 0) then
               '(payload, file') ←
                 fread_loop fuel (disk st1) (fseek_set file offset) xact_len [];
               Done (DataSendChunk payload, set_current_file st1 (Some file'))
             else Done (NoIO, st1));
          if decide (to_uint32 (offset + xact_len) >= current_file_size st2) then
            st3 ← fs_close_handle st2 obj_handle (current_file st2);
            Done (respond 0 io st3)
          else Done (respond 0 io st2)
      | _ => Done (respond 0 NoIO st1)
      end
  end.

(** The parent named by an object-info dataset: [0xFFFFFFFF] is the root. *)
Definition object_info_parent (obj_info : mtp_object_info_header_t) : Z :=
  if decide (oi_parent_object obj_info = 4294967295) then 0
  else oi_parent_object obj_info.

(** [fs_send_object_info].  The value returned by [fs_create_file] is not
    looked at; the return value of [mkdir] is not looked at either. *)
Definition fs_send_object_info {fs} `{FileSystem fs} `{Platform}
    (cb : tud_mtp_cb_data_t) (st : mtp_state fs) : outcome (reply fs) :=
  let storage_id := param0 cb in
  if negb (is_session_opened st) then Done (respond MTP_RESP_SESSION_NOT_OPEN NoIO st)
  else if decide (storage_id ≠ 4294967295 ∧ storage_id ≠ SUPPORTED_STORAGE_ID)
  then Done (respond MTP_RESP_INVALID_STORAGE_ID NoIO st)
  else
    match phase cb with
    | MTP_PHASE_COMMAND => Done (respond 0 DataReceive st)
    | MTP_PHASE_DATA =>
        let obj_info := payload_obj_info cb in
        if decide (oi_storage_id obj_info ≠ 0 ∧ oi_storage_id obj_info ≠ SUPPORTED_STORAGE_ID)
        then Done (respond MTP_RESP_INVALID_STORAGE_ID NoIO st)
        else
          let parent := object_info_parent obj_info in
          parent_ok ←
            (if decide (parent ≠ 0) then
               r ← fs_stat_handle (handle_table st) (disk st) parent;
               match r with
               | StatHandleFail _ => Done false
               | StatHandleOk sb _ => Done (st_is_dir sb)
               end
             else Done true);
          if negb parent_ok then Done (respond MTP_RESP_INVALID_PARENT_OBJECT NoIO st)
          else if decide (oi_association_type obj_info = MTP_ASSOCIATION_UNDEFINED) then
            if negb (fs_can_create_file (handle_table st) (disk st)
                       (oi_object_compressed_size obj_info))
            then Done (respond MTP_RESP_STORE_FULL NoIO st)
            else
              let filename := utf16_to_utf8 (payload_filename cb) MTP_FILENAME_LENGTH in
              let '(_, st1) := fs_create_file st parent filename in
              Done (respond 0 NoIO
                      (set_current_file_size st1 (oi_object_compressed_size obj_info)))
          else if decide (oi_association_type obj_info = MTP_ASSOCIATION_GENERIC_FOLDER) then
            if decide (parent ≠ 0) then Done (respond MTP_RESP_INVALID_PARENT_OBJECT NoIO st)
            else
              let dir_name := utf16_to_utf8 (payload_filename cb) (100 - 10 - 1) in
              Done (respond 0 NoIO
                      (set_disk st (mkdir (disk st) ("/littlefs/" +:+ dir_name))))
          else Done (respond MTP_RESP_INVALID_PARAMETER NoIO st)
    | _ => Done (respond 0 NoIO st)
    end.

(** [fs_delete_object]: the kind of the object is the one [stat] reports,
    not the [is_dir] flag of the entry. *)
Definition fs_delete_object {fs} `{FileSystem fs} (cb : tud_mtp_cb_data_t)
    (st : mtp_state fs) : outcome (reply fs) :=
  let obj_handle := param0 cb in
  if negb (is_session_opened st) then Done (respond MTP_RESP_SESSION_NOT_OPEN NoIO st)
  else
    p ← fs_path_from_handle (handle_table st) obj_handle PATH_BUF_LEN;
    match p with
    | None => Done (respond MTP_RESP_INVALID_OBJECT_HANDLE NoIO st)
    | Some pathbuf =>
        r ← fs_stat_handle (handle_table st) (disk st) obj_handle;
        match r with
        | StatHandleFail _ => Done (respond MTP_RESP_GENERAL_ERROR NoIO st)
        | StatHandleOk sb _ =>
            if st_is_dir sb then Done (respond MTP_RESP_OPERATION_NOT_SUPPORTED NoIO st)
            else
              let d' := unlink (disk st) pathbuf in
              let '(_, tbl') := fs_delete_handle (handle_table st) obj_handle in
              Done (respond MTP_RESP_OK NoIO (set_handle_table (set_disk st d') tbl'))
        end
    end.

(** [fwrite (ptr, 1, n, file)] on the current stream.  On a stream opened
    for writing the bytes go to the file at the position of the stream, which
    advances by their number; on a stream opened for reading the call fails,
    and the file and the position stay as they are. *)
Definition fwrite_stream {fs} `{FileSystem fs} (d : fs) (file : FILE) (bytes : list byte)
  : fs * FILE :=
  if f_write file then
    (fwrite d (f_path file) (f_pos file) bytes,
     {| f_path := f_path file; f_write := f_write file;
        f_pos := f_pos file + Z.of_nat (length bytes) |})
  else (d, file).

(** [fs_send_object]: hands each received chunk to [fwrite] on the current
    stream (the one opened by SendObjectInfo, or a stream left open by
    GetObject), asks for more while the announced size is not reached, then
    closes the stream.  The value returned by [fwrite] is not looked at. *)
Definition fs_send_object {fs} `{FileSystem fs} `{Platform} (cb : tud_mtp_cb_data_t)
    (st : mtp_state fs) : outcome (reply fs) :=
  match current_file st with
  | None => Done (respond MTP_RESP_INVALID_OBJECT_HANDLE NoIO st)
  | Some file =>
      if decide (current_handle st = FS_INVALID_HANDLE)
      then Done (respond MTP_RESP_INVALID_OBJECT_HANDLE NoIO st)
      else
        match phase cb with
        | MTP_PHASE_COMMAND => Done (respond 0 DataReceive st)
        | MTP_PHASE_DATA =>
            let chunk := take (Z.to_nat (payload_bytes cb)) (payload_data cb) in
            let '(d', file') := fwrite_stream (disk st) file chunk in
            let st1 := set_current_file (set_disk st d') (Some file') in
            if decide (to_uint32 (total_xferred_bytes cb - mtp_container_header_size)
                       < current_file_size st)
            then Done (respond 0 DataReceive st1)
            else
              st2 ← fs_close_handle st1 (current_handle st1) (current_file st1);
              Done (respond 0 NoIO st2)
        | _ => Done (respond 0 NoIO st)
        end
  end.

(** [tud_mtp_request_cancel_cb]: drops the file being worked on. *)
Definition tud_mtp_request_cancel_cb {fs} (st : mtp_state fs) : outcome (mtp_state fs) :=
  fs_close_handle st (current_handle st) (current_file st).

(** ** The responder as a machine *)

(** The callbacks that read or change the state, by the operation they
    serve. *)
Inductive request : Type :=
| OpenCloseSession (cb : tud_mtp_cb_data_t)
| GetStorageInfo (cb : tud_mtp_cb_data_t)
| GetObjectHandles (cb : tud_mtp_cb_data_t)
| GetObjectInfo (cb : tud_mtp_cb_data_t)
| GetObject (fuel : nat) (cb : tud_mtp_cb_data_t)
| SendObjectInfo (cb : tud_mtp_cb_data_t)
| SendObject (cb : tud_mtp_cb_data_t)
| DeleteObject (cb : tud_mtp_cb_data_t)
| Cancel.

Definition serve {fs} `{FileSystem fs} `{Platform} (rq : request) (st : mtp_state fs)
  : outcome (reply fs) :=
  match rq with
  | OpenCloseSession cb => fs_open_close_session cb st
  | GetStorageInfo cb => Done (fs_get_storage_info cb st)
  | GetObjectHandles cb => Done (fs_get_object_handles cb st)
  | GetObjectInfo cb => fs_get_object_info cb st
  | GetObject fuel cb => fs_get_object fuel cb st
  | SendObjectInfo cb => fs_send_object_info cb st
  | SendObject cb => fs_send_object cb st
  | DeleteObject cb => fs_delete_object cb st
  | Cancel => st' ← tud_mtp_request_cancel_cb st; Done (respond 0 NoIO st')
  end.

(** The states the responder can be in: the state at boot, on any volume,
    and every state a served request ends in. *)
Inductive reachable {fs} `{FileSystem fs} `{Platform} : mtp_state fs → Prop :=
| reachable_boot (d : fs) : reachable (initial_state d)
| reachable_serve (rq : request) (st : mtp_state fs) (r : reply fs) :
    reachable st → serve rq st = Done r → reachable (r_state r).

(** Serving a list of requests in order: the values returned and the final
    state. *)
Fixpoint run {fs} `{FileSystem fs} `{Platform} (rqs : list request) (st : mtp_state fs)
  : outcome (list Z * mtp_state fs) :=
  match rqs with
  | [] => Done ([], st)
  | rq :: rest =>
      match serve rq st with
      | Done r =>
          match run rest (r_state r) with
          | Done (codes, st') => Done (r_code r :: codes, st')
          | Undefined => Undefined
          | OutOfFuel => OutOfFuel
          end
      | Undefined => Undefined
      | OutOfFuel => OutOfFuel
      end
  end.

Definition run_codes {fs} `{FileSystem fs} `{Platform} (rqs : list request)
    (st : mtp_state fs) : option (list Z) :=
  match run rqs st with
  | Done (codes, _) => Some codes
  | Undefined | OutOfFuel => None
  end.

Definition run_state {fs} `{FileSystem fs} `{Platform} (rqs : list request)
    (st : mtp_state fs) : mtp_state fs :=
  match run rqs st with
  | Done (_, st') => st'
  | Undefined | OutOfFuel => st
  end.

(** ** Observations on states and tables used in the statements *)

(** Two states with the same session flag, allocator counter and table. *)
Definition same_control {fs} (st st' : mtp_state fs) : Prop :=
  is_session_opened st' = is_session_opened st
  ∧ handle_self_inc st' = handle_self_inc st
  ∧ handle_table st' = handle_table st.

(** What the object handlers may change: never the session flag, and
    neither the allocator nor the table while the session is closed. *)
Definition framed {fs} (st st' : mtp_state fs) : Prop :=
  is_session_opened st' = is_session_opened st
  ∧ (is_session_opened st = false → same_control st st').

(** While no session is open the allocator stands at 0. *)
Definition closed_counter_reset {fs} (st : mtp_state fs) : Prop :=
  is_session_opened st = false → handle_self_inc st = 0.

(** The in-use slots of a table. *)
Definition live_entries (tbl : fs_handletable) : list fs_handletable_entry_t :=
  filter (fun e => name e ≠ "") (handles tbl).

(** The invariant of the data model, as a test: every in-use slot with a
    non-zero parent handle has an in-use slot carrying that handle whose
    directory flag is set. *)
Definition parent_is_live_dir (tbl : fs_handletable) (e : fs_handletable_entry_t) : bool :=
  bool_decide (parent_handle e = 0)
  || existsb (fun p => bool_decide (handle p = parent_handle e) && entry_live p && is_dir p)
       (handles tbl).

Definition parents_are_live_dirs (tbl : fs_handletable) : bool :=
  forallb (parent_is_live_dir tbl) (live_entries tbl).

(** Every name fits the [char name[MTP_FILENAME_LENGTH]] array of its slot:
    at most 63 characters, the 63 of an array that [strncpy] left without a
    terminating NUL included. *)
Definition names_fit (tbl : fs_handletable) : bool :=
  forallb (fun e => (String.length (name e) <=? MTP_FILENAME_LENGTH)%nat) (handles tbl).

(** Every name is a terminated string inside the
    [char name[MTP_FILENAME_LENGTH]] array of its slot: at most 62
    characters before the NUL. *)
Definition names_terminated (tbl : fs_handletable) : bool :=
  forallb (fun e => (String.length (name e) <? MTP_FILENAME_LENGTH)%nat) (handles tbl).

(** The same shape of the slots, as a proposition. *)
Definition slots_ok (hs : list fs_handletable_entry_t) : Prop :=
  length hs = Z.to_nat MTP_HANDLE_TABLE_SIZE
  ∧ Forall (fun e => (String.length (name e) ≤ MTP_FILENAME_LENGTH)%nat) hs.

(** The shape of the C table: 32 slots, every name within its array. *)
Definition table_ok (tbl : fs_handletable) : Prop :=
  length (handles tbl) = Z.to_nat MTP_HANDLE_TABLE_SIZE ∧ names_fit tbl = true.

(** A path written as the names appended below the storage root. *)
Definition path_below_root (segments : list string) : string :=
  "/littlefs/" +:+ String.concat "/" segments.

(** The number of slashes (character 47) in a string. *)
Fixpoint slashes (s : string) : nat :=
  match s with
  | EmptyString => 0
  | String c s' => ((if Ascii.eqb c (Ascii.ascii_of_nat 47) then 1 else 0) + slashes s')%nat
  end.

(** A string without its first [n] characters. *)
Fixpoint strdrop (n : nat) (s : string) : string :=
  match n, s with
  | O, _ => s
  | S n', String _ s' => strdrop n' s'
  | S _, EmptyString => EmptyString
  end.

(** The number of segments that a path starting with the ten characters of
    the prefix /littlefs/ has below the storage root: one more than the
    slashes behind the prefix. *)
Definition segments_below_root (path : string) : nat := S (slashes (strdrop 10 path)).






(** ** A small volume to run the responder on

    A LittleFS volume reduced to what the calls of [FileSystem] observe: the
    nodes by full path, in directory order, and a capacity.  The handlers
    are evaluated on it in the examples. *)
Module Lfs.

Inductive node : Type := File (content : list byte) | Dir.

Record volume : Type := { capacity : Z; nodes : list (string * node) }.

Definition slash : Ascii.ascii := Ascii.ascii_of_nat 47.

Fixpoint strip_prefix (p s : string) : option string :=
  match p, s with
  | EmptyString, _ => Some s
  | String a p', String b s' => if Ascii.eqb a b then strip_prefix p' s' else None
  | String _ _, EmptyString => None
  end.

Fixpoint has_slash (s : string) : bool :=
  match s with
  | EmptyString => false
  | String c s' => Ascii.eqb c slash || has_slash s'
  end.

(** The name of [path] inside [dir], when [path] is directly below it. *)
Definition child_of (dir path : string) : option string :=
  match strip_prefix (dir +:+ "/") path with
  | Some n => if has_slash n || String.eqb n "" then None else Some n
  | None => None
  end.

(** The part of a path before its last slash. *)
Fixpoint dirname (s : string) : option string :=
  match s with
  | EmptyString => None
  | String c s' =>
      match dirname s' with
      | Some d => Some (String c d)
      | None => if Ascii.eqb c slash then Some EmptyString else None
      end
  end.

Definition lookup (v : volume) (path : string) : option node :=
  snd <$> (snd <$> list_find (fun pn => fst pn = path) (nodes v)).

Definition is_directory (v : volume) (path : string) : bool :=
  String.eqb path "/littlefs"
  || match lookup v path with Some Dir => true | _ => false end.

(** A path at which a node can be created: directly below a directory. *)
Definition creatable (v : volume) (path : string) : bool :=
  match dirname path with
  | Some dir => is_directory v dir && bool_decide (is_Some (child_of dir path))
  | None => false
  end.

Definition vol_opendir (v : volume) (path : string) : option (list dirent) :=
  if is_directory v path then
    Some (omap (fun pn =>
                  match child_of path (fst pn) with
                  | Some n => Some {| d_name := n;
                                      d_type := match snd pn with
                                                | Dir => DT_DIR
                                                | File _ => DT_REG
                                                end |}
                  | None => None
                  end) (nodes v))
  else None.

Definition vol_stat (v : volume) (path : string) : option stat_t :=
  match lookup v path with
  | Some (File c) => Some {| st_is_dir := false; st_size := Z.of_nat (length c) |}
  | Some Dir => Some {| st_is_dir := true; st_size := 0 |}
  | None => None
  end.

Definition vol_fopen_r (v : volume) (path : string) : option (list byte) :=
  match lookup v path with
  | Some (File c) => Some c
  | _ => None
  end.

Definition vol_fopen_w (v : volume) (path : string) : option volume :=
  match lookup v path with
  | Some Dir => None
  | Some (File _) =>
      Some {| capacity := capacity v;
              nodes := (fun pn => if bool_decide (fst pn = path)
                                  then (path, File []) else pn) <$> nodes v |}
  | None =>
      if creatable v path
      then Some {| capacity := capacity v; nodes := nodes v ++ [(path, File [])] |}
      else None
  end.

Definition vol_fwrite (v : volume) (path : string) (pos : Z) (bytes : list byte) : volume :=
  {| capacity := capacity v;
     nodes := (fun pn =>
                 match pn with
                 | (p, File c) =>
                     if bool_decide (p = path)
                     then (p, File (take (Z.to_nat pos) c ++ bytes
                                    ++ drop (Z.to_nat pos + length bytes) c))
                     else pn
                 | (_, Dir) => pn
                 end) <$> nodes v |}.

Definition vol_unlink (v : volume) (path : string) : volume :=
  match lookup v path with
  | Some (File _) =>
      {| capacity := capacity v;
         nodes := filter (fun pn => fst pn ≠ path) (nodes v) |}
  | _ => v
  end.

Definition vol_mkdir (v : volume) (path : string) : volume :=
  match lookup v path with
  | Some _ => v
  | None =>
      if creatable v path
      then {| capacity := capacity v; nodes := nodes v ++ [(path, Dir)] |}
      else v
  end.

Definition vol_used (v : volume) : Z :=
  foldr (fun pn acc => match snd pn with
                       | File c => Z.of_nat (length c) + acc
                       | Dir => acc
                       end) 0 (nodes v).

#[global] Instance volume_fs : FileSystem volume := {|
  opendir := vol_opendir;
  stat := vol_stat;
  fopen_r := vol_fopen_r;
  fopen_w := vol_fopen_w;
  fwrite := vol_fwrite;
  unlink := vol_unlink;
  mkdir := vol_mkdir;
  esp_littlefs_info := fun v => (capacity v, vol_used v);
|}.

(** A converter for names in the ASCII range: the units up to the first
    zero, cut at the capacity. *)
Fixpoint ascii_units (units : list Z) : string :=
  match units with
  | [] => EmptyString
  | u :: rest =>
      if decide (u = 0) then EmptyString
      else String (Ascii.ascii_of_nat (Z.to_nat u)) (ascii_units rest)
  end.

Fixpoint units_of (s : string) : list Z :=
  match s with
  | EmptyString => [0]
  | String c s' => Z.of_nat (Ascii.nat_of_ascii c) :: units_of s'
  end.

(** A 12-byte container header and 512-byte endpoint buffers. *)
Definition board : Platform := {|
  mtp_container_header_size := 12;
  CFG_TUD_MTP_EP_BUFSIZE := 512;
  utf16_to_utf8 := fun units cap => strtake cap (ascii_units units);
|}.

End Lfs.

(** ** Concrete requests and volumes *)

Definition no_object_info : mtp_object_info_header_t :=
  {| oi_storage_id := 0; oi_parent_object := 0;
     oi_association_type := 0; oi_object_compressed_size := 0 |}.

(** A request in the command phase with the given code and parameters. *)
Definition command (code p0 p1 p2 : Z) : tud_mtp_cb_data_t :=
  {| cmd_code := code; param0 := p0; param1 := p1; param2 := p2;
     phase := MTP_PHASE_COMMAND; total_xferred_bytes := 0; payload_bytes := 500;
     payload_obj_info := no_object_info; payload_filename := [];
     payload_data := [] |}.

Definition open_session : tud_mtp_cb_data_t := command MTP_OP_OPEN_SESSION 1 0 0.
Definition close_session : tud_mtp_cb_data_t := command MTP_OP_CLOSE_SESSION 0 0 0.
Definition delete_object (h : Z) : tud_mtp_cb_data_t := command 4107 h 0 0.
Definition get_object_info (h : Z) : tud_mtp_cb_data_t := command 4104 h 0 0.
Definition get_storage_info (sid : Z) : tud_mtp_cb_data_t := command 4101 sid 0 0.
Definition get_object_handles (sid parent : Z) : tud_mtp_cb_data_t :=
  command 4103 sid 0 parent.

(** The data phase of SendObjectInfo carrying an object-info dataset. *)
Definition send_object_info_data (parent association size : Z) (nm : string)
  : tud_mtp_cb_data_t :=
  {| cmd_code := 4108; param0 := SUPPORTED_STORAGE_ID; param1 := parent; param2 := 0;
     phase := MTP_PHASE_DATA; total_xferred_bytes := 0; payload_bytes := 500;
     payload_obj_info := {| oi_storage_id := SUPPORTED_STORAGE_ID;
                            oi_parent_object := parent;
                            oi_association_type := association;
                            oi_object_compressed_size := size |};
     payload_filename := Lfs.units_of nm;
     payload_data := [] |}.


Definition vol_empty : Lfs.volume := {| Lfs.capacity := 4096; Lfs.nodes := [] |}.

Definition vol_two_files : Lfs.volume :=
  {| Lfs.capacity := 4096;
     Lfs.nodes := [("/littlefs/a", Lfs.File [x01; x02; x03]);
                   ("/littlefs/b", Lfs.File [x04; x05])] |}.

Definition vol_three_files : Lfs.volume :=
  {| Lfs.capacity := 4096;
     Lfs.nodes := [("/littlefs/a", Lfs.File [x01; x02; x03]);
                   ("/littlefs/b", Lfs.File [x04; x05]);
                   ("/littlefs/c", Lfs.File [x06])] |}.

Definition vol_dir_with_file : Lfs.volume :=
  {| Lfs.capacity := 4096;
     Lfs.nodes := [("/littlefs/d", Lfs.Dir);
                   ("/littlefs/d/f", Lfs.File [x01])] |}.

(** ** Sessions on these volumes *)

(** The responder booted on a volume, with the board's constants, serving a
    list of requests: the values returned, and the state reached. *)
Definition session_codes (v : Lfs.volume) (rqs : list request) : option (list Z) :=
  run_codes (H0 := Lfs.board) rqs (initial_state v).

Definition session_state (v : Lfs.volume) (rqs : list request) : mtp_state Lfs.volume :=
  run_state (H0 := Lfs.board) rqs (initial_state v).

(** The value a handler returns, when it returns. *)
Definition code_after {fs} (m : outcome (reply fs)) : option Z :=
  match m with
  | Done r => Some (r_code r)
  | Undefined | OutOfFuel => None
  end.

(** OpenSession on the freshly booted responder. *)
Definition just_open : list request := [OpenCloseSession open_session].

(** The host opens a session, deletes the objects 1 and 2, closes the
    session and opens a new one. *)
Definition reopen_after_deletes : list request :=
  [OpenCloseSession open_session;
   DeleteObject (delete_object 1);
   DeleteObject (delete_object 2);
   OpenCloseSession close_session;
   OpenCloseSession open_session].

(** In that second session the host deletes object 1. *)
Definition reopen_then_delete : list request :=
  reopen_after_deletes ++ [DeleteObject (delete_object 1)].

(** The host opens a session and creates the folder docs below the root. *)
Definition create_folder : list request :=
  [OpenCloseSession open_session;
   SendObjectInfo (send_object_info_data 4294967295 MTP_ASSOCIATION_GENERIC_FOLDER 0 "docs")].

(** The host then closes the session and opens a new one. *)
Definition create_folder_then_reopen : list request :=
  create_folder ++ [OpenCloseSession close_session; OpenCloseSession open_session].

(** The host opens a session and starts GetObject on object 1 (command
    phase). *)
Definition start_transfer : list request :=
  [OpenCloseSession open_session; GetObject 1 (command 4105 1 0 0)].

(** ** The rest of the translation unit *)

(** Operation codes of the dispatch table, a device property code, a data
    type and an access mode: enumerators of TinyUSB's [class/mtp/mtp.h] with
    the values of the PIMA 15740 and MTP tables. *)
Definition MTP_OP_GET_DEVICE_INFO : Z := 4097.
Definition MTP_OP_GET_STORAGE_IDS : Z := 4100.
Definition MTP_OP_GET_STORAGE_INFO : Z := 4101.
Definition MTP_OP_GET_OBJECT_HANDLES : Z := 4103.
Definition MTP_OP_GET_OBJECT_INFO : Z := 4104.
Definition MTP_OP_GET_OBJECT : Z := 4105.
Definition MTP_OP_DELETE_OBJECT : Z := 4107.
Definition MTP_OP_SEND_OBJECT_INFO : Z := 4108.
Definition MTP_OP_SEND_OBJECT : Z := 4109.
Definition MTP_OP_GET_DEVICE_PROP_DESC : Z := 4116.
Definition MTP_OP_GET_DEVICE_PROP_VALUE : Z := 4117.
Definition MTP_DEV_PROP_DEVICE_FRIENDLY_NAME : Z := 54274.
Definition MTP_DATA_TYPE_STR : Z := 65535.
Definition MTP_MODE_GET : Z := 0.

Definition DEV_INFO_MANUFACTURER : string := "TinyUSB".
Definition DEV_INFO_MODEL : string := "MTP Example".
Definition DEV_INFO_VERSION : string := "1.0".
Definition DEV_PROP_FRIENDLY_NAME : string := "TinyUSB MTP".

(** [const char *hexLut = "0123456789ABCDEF"], as character codes. *)
Definition hexLut : list Z :=
  [48; 49; 50; 51; 52; 53; 54; 55; 56; 57; 65; 66; 67; 68; 69; 70].

(** The two units written for one octet: [hexLut[(b >> 4) & 0xF]] and
    [hexLut[b & 0xF]]. *)
Definition mac_octet_units (b : Z) : list Z :=
  [nth (Z.to_nat (Z.land (Z.shiftr b 4) 15)) hexLut 0;
   nth (Z.to_nat (Z.land b 15)) hexLut 0].

(** [utilGetMacAddressNoDelimiterUtf16le]: the twelve units written to
    [outBuffer], for the six octets that [esp_base_mac_addr_get] produced.
    Iteration [ii] reads [macAddrBin[5 - ii]]. *)
Definition utilGetMacAddressNoDelimiterUtf16le (macAddrBin : list Z) : list Z :=
  flat_map (fun ii : nat => mac_octet_units (nth (5 - ii) macAddrBin 0)) (seq 0 6).

(** A zero-terminated UTF-16 string in a buffer: the units before the first
    zero. *)
Fixpoint utf16_cstring (buf : list Z) : list Z :=
  match buf with
  | [] => []
  | u :: rest => if decide (u = 0) then [] else u :: utf16_cstring rest
  end.

(** The datasets of the three handlers that only describe the device. *)
Inductive info_dataset : Type :=
| DeviceInfoStrings (manufacturer model version : string) (serial : list Z)
| StorageIds (ids : list Z)
| DevicePropDesc (code datatype get_set : Z) (factory current : string) (form : Z)
| DevicePropValue (value : string).

(** [fs_get_device_info]: the three strings and the serial number.  The
    buffer [serial_utf16] holds the twelve units of the MAC address followed
    by what the stack held ([rest]); index [tu_min32 (12, MAX_SERIAL_NCHARS)]
    is set to zero before the buffer is read as a string. *)
Definition fs_get_device_info (macAddrBin : list Z) (rest : list Z) : Z * info_dataset :=
  let serial_utf16 := utilGetMacAddressNoDelimiterUtf16le macAddrBin ++ rest in
  let terminated := <[Z.to_nat (tu_min32 12 32) := 0]> serial_utf16 in
  (0, DeviceInfoStrings DEV_INFO_MANUFACTURER DEV_INFO_MODEL DEV_INFO_VERSION
        (utf16_cstring terminated)).

Definition fs_get_storage_ids : Z * info_dataset := (0, StorageIds [SUPPORTED_STORAGE_ID]).

(** [fs_get_device_properties]: the property code is [params[0]] cast to
    [uint16_t]; [None] means that nothing is sent. *)
Definition fs_get_device_properties (cb : tud_mtp_cb_data_t) : Z * option info_dataset :=
  let dev_prop_code := param0 cb mod 65536 in
  if decide (cmd_code cb = MTP_OP_GET_DEVICE_PROP_DESC) then
    if decide (dev_prop_code = MTP_DEV_PROP_DEVICE_FRIENDLY_NAME) then
      (0, Some (DevicePropDesc dev_prop_code MTP_DATA_TYPE_STR MTP_MODE_GET
                  DEV_PROP_FRIENDLY_NAME DEV_PROP_FRIENDLY_NAME 0))
    else (MTP_RESP_PARAMETER_NOT_SUPPORTED, None)
  else
    if decide (dev_prop_code = MTP_DEV_PROP_DEVICE_FRIENDLY_NAME) then
      (0, Some (DevicePropValue DEV_PROP_FRIENDLY_NAME))
    else (MTP_RESP_PARAMETER_NOT_SUPPORTED, None).

(** [xfer_result_t] of TinyUSB. *)
Inductive xfer_result_t : Type :=
| XFER_RESULT_SUCCESS
| XFER_RESULT_FAILED
| XFER_RESULT_STALLED
| XFER_RESULT_TIMEOUT
| XFER_RESULT_INVALID.

#[global] Instance xfer_result_eq_dec : EqDecision xfer_result_t.
Proof. solve_decision. Defined.

(** [tud_mtp_data_complete_cb]: the code and the parameters of the response
    it sends.  After SendObjectInfo the entry is looked up with
    [fs_get_handle_entry] on [current_handle]. *)
Definition tud_mtp_data_complete_cb {fs} (cb : tud_mtp_cb_data_t)
    (xfer_result : xfer_result_t) (st : mtp_state fs) : Z * list Z :=
  if decide (cmd_code cb = MTP_OP_SEND_OBJECT_INFO) then
    match fs_get_handle_entry (handle_table st) (current_handle st) with
    | None => (MTP_RESP_INVALID_OBJECT_HANDLE, [])
    | Some (_, entry) =>
        (MTP_RESP_OK, [SUPPORTED_STORAGE_ID; parent_handle entry; current_handle st])
    end
  else
    (if decide (xfer_result = XFER_RESULT_SUCCESS) then MTP_RESP_OK
     else MTP_RESP_GENERAL_ERROR, []).

(** The handlers of [fs_op_handler_dict]. *)
Inductive fs_op_handler_t : Type :=
| handler_get_device_info
| handler_open_close_session
| handler_get_storage_ids
| handler_get_storage_info
| handler_get_device_properties
| handler_get_object_handles
| handler_get_object_info
| handler_get_object
| handler_delete_object
| handler_send_object_info
| handler_send_object.

Definition fs_op_handler_dict : list (Z * fs_op_handler_t) :=
  [(MTP_OP_GET_DEVICE_INFO, handler_get_device_info);
   (MTP_OP_OPEN_SESSION, handler_open_close_session);
   (MTP_OP_CLOSE_SESSION, handler_open_close_session);
   (MTP_OP_GET_STORAGE_IDS, handler_get_storage_ids);
   (MTP_OP_GET_STORAGE_INFO, handler_get_storage_info);
   (MTP_OP_GET_DEVICE_PROP_DESC, handler_get_device_properties);
   (MTP_OP_GET_DEVICE_PROP_VALUE, handler_get_device_properties);
   (MTP_OP_GET_OBJECT_HANDLES, handler_get_object_handles);
   (MTP_OP_GET_OBJECT_INFO, handler_get_object_info);
   (MTP_OP_GET_OBJECT, handler_get_object);
   (MTP_OP_DELETE_OBJECT, handler_delete_object);
   (MTP_OP_SEND_OBJECT_INFO, handler_send_object_info);
   (MTP_OP_SEND_OBJECT, handler_send_object)].

(** The loop over [fs_op_handler_dict] with its [break]: the handler of the
    first entry carrying the code, [None] for [handler == NULL]. *)
Definition find_handler (code : Z) : option fs_op_handler_t :=
  match list_find (fun entry : Z * fs_op_handler_t => entry.1 = code) fs_op_handler_dict with
  | Some (_, (_, handler)) => Some handler
  | None => None
  end.

(** What a callback handed to the transport as data. *)
Inductive data_submitted : Type :=
| HandlerIO (io : io_action)
| InfoData (d : option info_dataset).

(** [handler (cb_data)]: the returned value, the data submitted and the new
    state.  [mac] and [stack] are what [fs_get_device_info] finds in the MAC
    address and in its uninitialised buffer. *)
Definition call_handler {fs} `{FileSystem fs} `{Platform} (mac stack : list Z) (fuel : nat)
    (handler : fs_op_handler_t) (cb : tud_mtp_cb_data_t) (st : mtp_state fs)
  : outcome (Z * data_submitted * mtp_state fs) :=
  let of_reply (m : outcome (reply fs)) : outcome (Z * data_submitted * mtp_state fs) :=
    r ← m; Done (r_code r, HandlerIO (r_io r), r_state r) in
  match handler with
  | handler_get_device_info =>
      let '(code, d) := fs_get_device_info mac stack in Done (code, InfoData (Some d), st)
  | handler_open_close_session => of_reply (fs_open_close_session cb st)
  | handler_get_storage_ids =>
      let '(code, d) := fs_get_storage_ids in Done (code, InfoData (Some d), st)
  | handler_get_storage_info => of_reply (Done (fs_get_storage_info cb st))
  | handler_get_device_properties =>
      let '(code, d) := fs_get_device_properties cb in Done (code, InfoData d, st)
  | handler_get_object_handles => of_reply (Done (fs_get_object_handles cb st))
  | handler_get_object_info => of_reply (fs_get_object_info cb st)
  | handler_get_object => of_reply (fs_get_object fuel cb st)
  | handler_delete_object => of_reply (fs_delete_object cb st)
  | handler_send_object_info => of_reply (fs_send_object_info cb st)
  | handler_send_object => of_reply (fs_send_object cb st)
  end.

(** What [tud_mtp_command_received_cb] and [tud_mtp_data_xfer_cb] did: the
    value returned to TinyUSB, the data submitted by the handler, the
    response code sent by the callback itself, and the new state. *)
Record dispatched (fs : Type) : Type := {
  d_return : Z;
  d_data : data_submitted;
  d_response : option Z;
  d_state : mtp_state fs;
}.

Arguments d_return {fs} _.
Arguments d_data {fs} _.
Arguments d_response {fs} _.
Arguments d_state {fs} _.

(** [tud_mtp_command_received_cb]: without a handler the code
    OperationNotSupported is returned and nothing is sent. *)
Definition tud_mtp_command_received_cb {fs} `{FileSystem fs} `{Platform}
    (mac stack : list Z) (fuel : nat) (cb : tud_mtp_cb_data_t) (st : mtp_state fs)
  : outcome (dispatched fs) :=
  match find_handler (cmd_code cb) with
  | None =>
      Done {| d_return := MTP_RESP_OPERATION_NOT_SUPPORTED; d_data := HandlerIO NoIO;
              d_response := None; d_state := st |}
  | Some handler =>
      '(resp_code, data, st') ← call_handler mac stack fuel handler cb st;
      Done {| d_return := resp_code; d_data := data;
              d_response := response_sent resp_code; d_state := st' |}
  end.

(** [tud_mtp_data_xfer_cb]: the same dispatch, returning 0. *)
Definition tud_mtp_data_xfer_cb {fs} `{FileSystem fs} `{Platform}
    (mac stack : list Z) (fuel : nat) (cb : tud_mtp_cb_data_t) (st : mtp_state fs)
  : outcome (dispatched fs) :=
  match find_handler (cmd_code cb) with
  | None =>
      Done {| d_return := 0; d_data := HandlerIO NoIO;
              d_response := None; d_state := st |}
  | Some handler =>
      '(resp_code, data, st') ← call_handler mac stack fuel handler cb st;
      Done {| d_return := 0; d_data := data;
              d_response := response_sent resp_code; d_state := st' |}
  end.

(** ** More requests and sessions on the small volumes *)

(** The final data phase of SendObject for a file announced with [size]
    bytes: the bytes arrive in one chunk behind the 12-byte header. *)
Definition send_object_data (size : Z) (bytes : list byte) : tud_mtp_cb_data_t :=
  {| cmd_code := MTP_OP_SEND_OBJECT; param0 := 0; param1 := 0; param2 := 0;
     phase := MTP_PHASE_DATA; total_xferred_bytes := 12 + size;
     payload_bytes := Z.of_nat (length bytes);
     payload_obj_info := no_object_info; payload_filename := [];
     payload_data := bytes |}.

(** The host opens a session and announces the file c of four bytes below
    the root. *)
Definition announce_file : list request :=
  [OpenCloseSession open_session;
   SendObjectInfo (send_object_info_data 4294967295 MTP_ASSOCIATION_UNDEFINED 4 "c")].

(** A volume with 31 empty files f01 to f31 in the root. *)
Definition vol_31_files : Lfs.volume :=
  {| Lfs.capacity := 4096;
     Lfs.nodes := [("/littlefs/f01", Lfs.File []); ("/littlefs/f02", Lfs.File []);
                   ("/littlefs/f03", Lfs.File []); ("/littlefs/f04", Lfs.File []);
                   ("/littlefs/f05", Lfs.File []); ("/littlefs/f06", Lfs.File []);
                   ("/littlefs/f07", Lfs.File []); ("/littlefs/f08", Lfs.File []);
                   ("/littlefs/f09", Lfs.File []); ("/littlefs/f10", Lfs.File []);
                   ("/littlefs/f11", Lfs.File []); ("/littlefs/f12", Lfs.File []);
                   ("/littlefs/f13", Lfs.File []); ("/littlefs/f14", Lfs.File []);
                   ("/littlefs/f15", Lfs.File []); ("/littlefs/f16", Lfs.File []);
                   ("/littlefs/f17", Lfs.File []); ("/littlefs/f18", Lfs.File []);
                   ("/littlefs/f19", Lfs.File []); ("/littlefs/f20", Lfs.File []);
                   ("/littlefs/f21", Lfs.File []); ("/littlefs/f22", Lfs.File []);
                   ("/littlefs/f23", Lfs.File []); ("/littlefs/f24", Lfs.File []);
                   ("/littlefs/f25", Lfs.File []); ("/littlefs/f26", Lfs.File []);
                   ("/littlefs/f27", Lfs.File []); ("/littlefs/f28", Lfs.File []);
                   ("/littlefs/f29", Lfs.File []); ("/littlefs/f30", Lfs.File []);
                   ("/littlefs/f31", Lfs.File [])] |}.

(** On that volume the host opens a session (handles 1 to 31), deletes
    object 1, uploads the one-byte file x, deletes object 2, closes the
    session and opens a new one. *)
Definition fill_every_slot : list request :=
  [OpenCloseSession open_session;
   DeleteObject (delete_object 1);
   SendObjectInfo (send_object_info_data 4294967295 MTP_ASSOCIATION_UNDEFINED 1 "x");
   SendObject (send_object_data 1 [x03]);
   DeleteObject (delete_object 2);
   OpenCloseSession close_session;
   OpenCloseSession open_session].

(** A volume with the directory d holding the file c1, and the file z. *)
Definition vol_dir_and_file : Lfs.volume :=
  {| Lfs.capacity := 4096;
     Lfs.nodes := [("/littlefs/d", Lfs.Dir);
                   ("/littlefs/d/c1", Lfs.File [x01]);
                   ("/littlefs/z", Lfs.File [x02])] |}.

(** On that volume the host opens a session (d is object 1, z is object 3),
    uploads the one-byte file c2 into object 1, deletes object 3, closes the
    session and opens a new one. *)
Definition orphan_child : list request :=
  [OpenCloseSession open_session;
   SendObjectInfo (send_object_info_data 1 MTP_ASSOCIATION_UNDEFINED 1 "c2");
   SendObject (send_object_data 1 [x03]);
   DeleteObject (delete_object 3);
   OpenCloseSession close_session;
   OpenCloseSession open_session].

(** The host opens a session, creates the folders d and d/sub below the
    root, and announces the empty file d/sub/x below the root. *)
Definition nested_by_name : list request :=
  [OpenCloseSession open_session;
   SendObjectInfo (send_object_info_data 4294967295 MTP_ASSOCIATION_GENERIC_FOLDER 0 "d");
   SendObjectInfo (send_object_info_data 4294967295 MTP_ASSOCIATION_GENERIC_FOLDER 0 "d/sub");
   SendObjectInfo (send_object_info_data 4294967295 MTP_ASSOCIATION_UNDEFINED 0 "d/sub/x")].


(** MoveObject, an operation without a handler. *)
Definition move_object : tud_mtp_cb_data_t := command 4121 1 0 0.

(** The base MAC address 24:6F:28:AB:CD:EF and a buffer of stale units. *)
Definition sample_mac : list Z := [36; 111; 40; 171; 205; 239].
Definition stale_stack : list Z := replicate 21 65535.

(** What a call returned, with a default for the calls that do not
    return. *)
Definition returned {A : Type} (m : outcome A) (dflt : A) : A :=
  match m with
  | Done a => a
  | Undefined | OutOfFuel => dflt
  end.

(** ** Observations used in the statements about the remaining code *)

(** The walk of [fs_handletable_regenerate] stands before a store inside the
    table: [ii] equals the allocator counter and indexes one of the slots 1
    to 31. *)
Definition walk_in_table (w : walk) : Prop :=
  w_ii w = w_inc w ∧ 1 ≤ w_ii w < MTP_HANDLE_TABLE_SIZE.

(** What the outer loop of [fs_handletable_regenerate] leaves in slot [ii]
    for a root entry that is not a directory: the handle [ii], parent 0, the
    name, and the directory flag that the slot had. *)
Definition root_store (ii : Z) (item : dirent) (e : fs_handletable_entry_t)
  : fs_handletable_entry_t :=
  {| handle := ii;
     parent_handle := 0;
     is_dir := is_dir e;
     name := strncpy (d_name item) MTP_FILENAME_LENGTH |}.

(** What the inner loop leaves in a slot for an entry of a sub-directory
    walked under [parent]: the parent handle, the directory flag and the
    name; the [handle] field is the one the slot had. *)
Definition child_store (parent : Z) (item : dirent) (e : fs_handletable_entry_t)
  : fs_handletable_entry_t :=
  {| handle := handle e;
     parent_handle := parent;
     is_dir := bool_decide (d_type item = DT_DIR);
     name := strncpy (d_name item) MTP_FILENAME_LENGTH |}.

(** The value of a hexadecimal digit of [hexLut], and the octets that a
    string of such digits spells, two digits per octet. *)
Definition hex_value (u : Z) : option Z :=
  (fun found : nat * Z => Z.of_nat found.1) <$> list_find (fun c => c = u) hexLut.

Fixpoint octets_of_hex (units : list Z) : option (list Z) :=
  match units with
  | [] => Some []
  | hi :: lo :: rest =>
      match hex_value hi, hex_value lo, octets_of_hex rest with
      | Some h, Some l, Some octets => Some (16 * h + l :: octets)
      | _, _, _ => None
      end
  | _ => None
  end.

(** The values that the handlers of [fs_op_handler_dict] return. *)
Definition handler_return_values : list Z :=
  [0; -1; MTP_RESP_OK; MTP_RESP_GENERAL_ERROR; MTP_RESP_SESSION_NOT_OPEN;
   MTP_RESP_OPERATION_NOT_SUPPORTED; MTP_RESP_PARAMETER_NOT_SUPPORTED;
   MTP_RESP_INVALID_STORAGE_ID; MTP_RESP_INVALID_OBJECT_HANDLE; MTP_RESP_STORE_FULL;
   MTP_RESP_INVALID_PARENT_OBJECT; MTP_RESP_INVALID_PARAMETER;
   MTP_RESP_SESSION_ALREADY_OPEN].

(** The requests that only read. *)
Definition reads_only (rq : request) : bool :=
  match rq with
  | GetStorageInfo _ | GetObjectHandles _ | GetObjectInfo _ | GetObject _ _ => true
  | _ => false
  end.

(** Every branch of a handler is followed to its return statement. *)
Ltac follow_handler :=
  repeat match goal with
         | |- Done _ = Done _ → _ =>
             let Hrun := fresh "Hrun" in intros Hrun; injection Hrun as <-
         | |- Undefined = Done _ → _ => discriminate
         | |- OutOfFuel = Done _ → _ => discriminate
         | |- context [mbind _ ?m] => destruct m; cbn [mbind outcome_bind]
         | |- context [match ?x with _ => _ end] => destruct x
         end.

Ltac known_value :=
  cbn [r_code respond fst snd]; apply (bool_decide_unpack _); vm_compute; exact I.

(** A handler that returns with the state it was given keeps whatever [H]
    says of that state. *)
Ltac returns_unchanged H :=
  let Hrun := fresh "Hrun" in
  intros Hrun; injection Hrun as <-; exact H.

(** * Properties *)

(** ** Machine integers and strings *)

Lemma to_uint32_small (z : Z) : 0 ≤ z < 4294967296 → to_uint32 z = z.
Proof. intros Hz. unfold to_uint32. apply Z.mod_small. exact Hz. Qed.


Lemma tu_min32_min (x y : Z) : tu_min32 x y = Z.min x y.
Proof. unfold tu_min32. destruct (Z.ltb_spec x y); lia. Qed.

Lemma strtake_all (s : string) (n : nat) :
  (String.length s ≤ n)%nat → strtake n s = s.
Proof.
  unfold strtake. revert n.
  induction s as [|c s IH]; intros [|n] Hn; simpl in *; try reflexivity; try lia.
  f_equal. apply IH. lia.
Qed.

Lemma string_length_app (s t : string) :
  String.length (s +:+ t) = (String.length s + String.length t)%nat.
Proof.
  induction s as [|c s IH]; [reflexivity|].
  change (String c s +:+ t) with (String c (s +:+ t)).
  simpl. now rewrite IH.
Qed.

Lemma strlcat_fits (dst src : string) (size : nat) :
  (String.length dst + String.length src < size)%nat →
  strlcat dst src size = dst +:+ src.
Proof.
  intros Hfit. unfold strlcat.
  destruct (decide (String.length dst < size)%nat) as [_|Hno]; [|lia].
  rewrite strtake_all; [reflexivity | lia].
Qed.

Lemma string_app_assoc (s t u : string) : (s +:+ t) +:+ u = s +:+ (t +:+ u).
Proof.
  induction s as [|c s IH]; [reflexivity|].
  change ((String c s +:+ t) +:+ u) with (String c ((s +:+ t) +:+ u)).
  change (String c s +:+ (t +:+ u)) with (String c (s +:+ (t +:+ u))).
  now rewrite IH.
Qed.

(** ** The allocator *)






Section Responder.

Context {fs : Type} `{FileSystem fs} `{Platform}.

(** ** The GetObject engine *)




(** ** Lookups in the table *)

Lemma entry_live_true (e : fs_handletable_entry_t) :
  entry_live e = true ↔ name e ≠ "".
Proof.
  unfold entry_live. rewrite negb_true_iff. apply String.eqb_neq.
Qed.

Lemma fs_handle_valid_true (tbl : fs_handletable) (h : Z) :
  fs_handle_valid tbl h = true ↔
  ∃ e, e ∈ handles tbl ∧ handle e = h ∧ name e ≠ "".
Proof.
  unfold fs_handle_valid. rewrite existsb_exists. split.
  - intros (e & Hin & Htest). apply andb_true_iff in Htest as [Hh Hlive].
    exists e. split; [now apply list_elem_of_In|].
    split; [now apply bool_decide_eq_true in Hh | now apply entry_live_true].
  - intros (e & Hin & Hh & Hlive). exists e. split; [now apply list_elem_of_In|].
    apply andb_true_iff. split; [now apply bool_decide_eq_true | now apply entry_live_true].
Qed.

Lemma fs_handle_valid_entry (tbl : fs_handletable) (h : Z) :
  fs_handle_valid tbl h = true → is_Some (fs_get_handle_entry tbl h).
Proof.
  intros (e & Hin & Hh & _)%fs_handle_valid_true.
  unfold fs_get_handle_entry.
  exact (list_find_elem_of (fun e => handle e = h) _ e Hin Hh).
Qed.

Lemma fs_handle_valid_live_slot (tbl : fs_handletable) (h : Z) :
  fs_handle_valid tbl h = true →
  is_Some (list_find (fun e => handle e = h ∧ name e ≠ "") (handles tbl)).
Proof.
  intros (e & Hin & Hh & Hlive)%fs_handle_valid_true.
  exact (list_find_elem_of (fun e => handle e = h ∧ name e ≠ "") _ e Hin (conj Hh Hlive)).
Qed.

Lemma fs_path_from_handle_invalid (tbl : fs_handletable) (h : Z) (buf_len : nat) :
  fs_handle_valid tbl h = false → fs_path_from_handle tbl h buf_len = Done None.
Proof. intros Hv. unfold fs_path_from_handle. now rewrite Hv. Qed.

Lemma fs_path_from_handle_valid (tbl : fs_handletable) (h : Z) (buf_len : nat) (p : string) :
  fs_path_from_handle tbl h buf_len = Done (Some p) → fs_handle_valid tbl h = true.
Proof.
  unfold fs_path_from_handle.
  destruct (fs_handle_valid tbl h); [reflexivity | discriminate].
Qed.

Lemma fs_get_handle_entry_elem (tbl : fs_handletable) (h : Z) (i : nat)
    (e : fs_handletable_entry_t) :
  fs_get_handle_entry tbl h = Some (i, e) → e ∈ handles tbl.
Proof.
  intros Hfind. apply list_find_Some in Hfind as (Hi & _ & _).
  apply list_elem_of_lookup. eauto.
Qed.

Lemma path_top_level (nm : string) :
  (String.length nm ≤ MTP_FILENAME_LENGTH)%nat →
  strlcat (strlcpy "/littlefs/" PATH_BUF_LEN) nm PATH_BUF_LEN = path_below_root [nm].
Proof.
  intros Hnm. change (strlcpy "/littlefs/" PATH_BUF_LEN) with "/littlefs/".
  rewrite strlcat_fits; [reflexivity|].
  unfold MTP_FILENAME_LENGTH in Hnm. unfold PATH_BUF_LEN. simpl String.length. lia.
Qed.

Lemma path_second_level (pn nm : string) :
  (String.length pn ≤ MTP_FILENAME_LENGTH)%nat →
  (String.length nm ≤ MTP_FILENAME_LENGTH)%nat →
  strlcat (strlcat (strlcat (strlcpy "/littlefs/" PATH_BUF_LEN) pn PATH_BUF_LEN)
             "/" PATH_BUF_LEN) nm PATH_BUF_LEN
  = path_below_root [pn; nm].
Proof.
  intros Hpn Hnm. change (strlcpy "/littlefs/" PATH_BUF_LEN) with "/littlefs/".
  unfold MTP_FILENAME_LENGTH in *. unfold PATH_BUF_LEN.
  rewrite (strlcat_fits "/littlefs/" pn) by (simpl String.length; lia).
  rewrite (strlcat_fits _ "/")
    by (rewrite string_length_app; simpl String.length; lia).
  rewrite strlcat_fits
    by (rewrite !string_length_app; simpl String.length; lia).
  unfold path_below_root. cbn [String.concat].
  now rewrite !string_app_assoc.
Qed.

Lemma names_terminated_found (tbl : fs_handletable) (h : Z) (i : nat)
    (e : fs_handletable_entry_t) :
  names_terminated tbl = true → fs_get_handle_entry tbl h = Some (i, e) →
  (String.length (name e) ≤ MTP_FILENAME_LENGTH)%nat.
Proof.
  unfold names_terminated. rewrite forallb_forall. intros Hall Hfind.
  apply fs_get_handle_entry_elem in Hfind.
  apply list_elem_of_In, Hall, Nat.ltb_lt in Hfind. lia.
Qed.

Lemma slashes_app (s t : string) : slashes (s +:+ t) = (slashes s + slashes t)%nat.
Proof.
  induction s as [|c s IH]; [reflexivity|].
  change (String c s +:+ t) with (String c (s +:+ t)). cbn [slashes]. rewrite IH. lia.
Qed.

Lemma segments_below_root_names (segments : list string) :
  (1 ≤ length segments)%nat →
  segments_below_root (path_below_root segments)
  = (length segments + sum_list (slashes <$> segments))%nat.
Proof.
  intros Hlen. unfold segments_below_root, path_below_root.
  change (strdrop 10 ("/littlefs/" +:+ String.concat "/" segments))
    with (String.concat "/" segments).
  destruct segments as [|s rest]; [cbn in Hlen; lia|]. clear Hlen.
  revert s. induction rest as [|t rest IH]; intros s.
  - cbn. lia.
  - change (String.concat "/" (s :: t :: rest))
      with (s +:+ "/" +:+ String.concat "/" (t :: rest)).
    rewrite !slashes_app. specialize (IH t).
    cbn [length fmap list_fmap sum_list sum_list_with] in *.
    unfold id in *. change (slashes "/") with 1%nat. lia.
Qed.

(** C5 (amended).  On a table whose names are terminated strings (at most
    62 characters), [fs_path_from_handle] fails when no in-use slot carries
    the handle; handle 0 has no case of its own and falls under this rule.
    For a valid handle it reads the first slot carrying the handle: with
    parent 0 the path is root/name; with a parent handle carried by some
    slot it is root/parent.name/name.  Every path it produces is the root
    followed by one or two stored names, and its depth below the root is
    the number of these names plus the number of slashes inside them: at
    most 2 when the names contain no slash. *)
Theorem C5_resolve_path (tbl : fs_handletable) (h : Z) :
  names_terminated tbl = true →
  (fs_handle_valid tbl h = false →
     fs_path_from_handle tbl h PATH_BUF_LEN = Done None)
  ∧ (∀ i e, fs_handle_valid tbl h = true →
            fs_get_handle_entry tbl h = Some (i, e) →
            parent_handle e = 0 →
            fs_path_from_handle tbl h PATH_BUF_LEN
            = Done (Some (path_below_root [name e])))
  ∧ (∀ i e j p, fs_handle_valid tbl h = true →
                fs_get_handle_entry tbl h = Some (i, e) →
                parent_handle e ≠ 0 →
                fs_get_handle_entry tbl (parent_handle e) = Some (j, p) →
                fs_path_from_handle tbl h PATH_BUF_LEN
                = Done (Some (path_below_root [name p; name e])))
  ∧ (∀ path, fs_path_from_handle tbl h PATH_BUF_LEN = Done (Some path) →
             ∃ segments,
               (1 ≤ length segments ≤ 2)%nat
               ∧ Forall (fun s => ∃ e, e ∈ handles tbl ∧ name e = s) segments
               ∧ path = path_below_root segments
               ∧ segments_below_root path
                 = (length segments + sum_list (slashes <$> segments))%nat
               ∧ (Forall (fun s => slashes s = 0%nat) segments →
                  (segments_below_root path ≤ 2)%nat)).
Proof.
  intros Hfit.
  assert (Hdepth : ∀ segments, (1 ≤ length segments ≤ 2)%nat →
            segments_below_root (path_below_root segments)
            = (length segments + sum_list (slashes <$> segments))%nat
            ∧ (Forall (fun s => slashes s = 0%nat) segments →
               (segments_below_root (path_below_root segments) ≤ 2)%nat)).
  { intros segments Hlen.
    rewrite segments_below_root_names by lia. split; [reflexivity|].
    intros Hflat.
    assert (Hsum : sum_list (slashes <$> segments) = 0%nat).
    { clear Hlen. induction Hflat as [|s rest Hs _ IH]; [reflexivity|].
      cbn. rewrite Hs. exact IH. }
    lia. }
  split_and!.
  - apply fs_path_from_handle_invalid.
  - intros i e Hv Hfind Hparent. unfold fs_path_from_handle.
    rewrite Hv, Hfind. cbn [negb].
    destruct (decide (parent_handle e ≠ 0)) as [Hne|_]; [contradiction|].
    f_equal. f_equal. apply path_top_level. eapply names_terminated_found; eassumption.
  - intros i e j p Hv Hfind Hparent Hpfind. unfold fs_path_from_handle.
    rewrite Hv, Hfind. cbn [negb].
    destruct (decide (parent_handle e ≠ 0)) as [_|Hz]; [|contradiction].
    rewrite Hpfind. f_equal. f_equal.
    apply path_second_level; eapply names_terminated_found; eassumption.
  - intros path. unfold fs_path_from_handle.
    destruct (fs_handle_valid tbl h); cbn [negb]; [|discriminate].
    destruct (fs_get_handle_entry tbl h) as [[i e]|] eqn:Hfind; [|discriminate].
    destruct (decide (parent_handle e ≠ 0)) as [Hne|_].
    + destruct (fs_get_handle_entry tbl (parent_handle e)) as [[j p]|] eqn:Hpfind;
        [|discriminate].
      intros Hrun. injection Hrun as <-.
      rewrite path_second_level by (eapply names_terminated_found; eassumption).
      exists [name p; name e]. split; [simpl; lia|]. split.
      * repeat constructor; eexists; (split; [|reflexivity]);
          eapply fs_get_handle_entry_elem; eassumption.
      * split; [reflexivity|]. apply Hdepth. simpl; lia.
    + intros Hrun. injection Hrun as <-.
      rewrite path_top_level by (eapply names_terminated_found; eassumption).
      exists [name e]. split; [simpl; lia|]. split.
      * repeat constructor; eexists; (split; [|reflexivity]);
          eapply fs_get_handle_entry_elem; eassumption.
      * split; [reflexivity|]. apply Hdepth. simpl; lia.
Qed.

(** ** Storage information *)

(** C6 (amended).  GetStorageInfo with a storage id other than the
    supported one returns -1, for which the dispatcher sends no response
    code, and changes nothing.  With the
    supported id it returns 0 and sends a dataset whose
    free-space-in-objects field is the table size minus the counter
    [handles_used], computed in [uint32_t]. *)
Theorem C6_get_storage_info (cb : tud_mtp_cb_data_t) (st : mtp_state fs) :
  (param0 cb ≠ SUPPORTED_STORAGE_ID →
     fs_get_storage_info cb st = respond (-1) NoIO st
     ∧ response_sent (-1) = None)
  ∧ (param0 cb = SUPPORTED_STORAGE_ID →
     let r := fs_get_storage_info cb st in
     r_code r = 0
     ∧ r_io r = DataSendStorageInfo (storage_info (r_state r))
     ∧ free_space_in_objects (storage_info (r_state r))
       = to_uint32 (MTP_HANDLE_TABLE_SIZE - handles_used (handle_table st))
     ∧ (0 ≤ handles_used (handle_table st) ≤ MTP_HANDLE_TABLE_SIZE →
        free_space_in_objects (storage_info (r_state r))
        = MTP_HANDLE_TABLE_SIZE - handles_used (handle_table st))
     ∧ handle_table (r_state r) = handle_table st
     ∧ disk (r_state r) = disk st).
Proof.
  unfold fs_get_storage_info. split.
  - intros Hne. destruct (decide (SUPPORTED_STORAGE_ID = param0 cb)) as [Heq|_];
      [congruence|].
    split; reflexivity.
  - intros Heq. destruct (decide (SUPPORTED_STORAGE_ID = param0 cb)) as [_|Hne];
      [|congruence].
    destruct (esp_littlefs_info (disk st)) as [capacity_bytes used_bytes].
    cbn. split_and!; try reflexivity.
    intros Hused. apply to_uint32_small. unfold MTP_HANDLE_TABLE_SIZE in *. lia.
Qed.

(** ** Creating objects *)

Lemma guard_passes (A : Type) (x u v : Z) :
  (x = u ∨ x = v) → ∀ a b : A, (if decide (x ≠ u ∧ x ≠ v) then a else b) = b.
Proof.
  intros Hx a b. destruct (decide (x ≠ u ∧ x ≠ v)) as [[Hu Hv]|_]; [|reflexivity].
  destruct Hx; contradiction.
Qed.

Lemma fs_can_create_file_refuses (tbl : fs_handletable) (d : fs) (size : Z) :
  (handles_used tbl = MTP_HANDLE_TABLE_SIZE
   ∨ (0 ≤ (esp_littlefs_info d).2 ≤ (esp_littlefs_info d).1
      ∧ (esp_littlefs_info d).1 < 4294967296
      ∧ (esp_littlefs_info d).1 - (esp_littlefs_info d).2 < size)) →
  fs_can_create_file tbl d size = false.
Proof.
  unfold fs_can_create_file. intros Hfull.
  destruct (decide (handles_used tbl = MTP_HANDLE_TABLE_SIZE)) as [|Hroom];
    [reflexivity|].
  destruct Hfull as [Hcount|(Hused & Hcap & Hsize)]; [contradiction|].
  destruct (esp_littlefs_info d) as [capacity_bytes used_bytes]. simpl in *.
  rewrite to_uint32_small by lia.
  destruct (decide (capacity_bytes - used_bytes < size)); [reflexivity | contradiction].
Qed.

(** The capacity check of SendObjectInfo.  A data phase that passes the
    session, storage and parent checks and describes a plain file returns
    StoreFull when the declared size exceeds capacity minus used bytes, or
    when the counter [handles_used] has reached the table size; the state
    (table entries and counter, allocator, volume) is left as it was.  The
    counter is not the number of slots in use. *)
Lemma fs_send_object_info_refuses (cb : tud_mtp_cb_data_t) (st : mtp_state fs) :
  is_session_opened st = true →
  (param0 cb = 4294967295 ∨ param0 cb = SUPPORTED_STORAGE_ID) →
  phase cb = MTP_PHASE_DATA →
  (oi_storage_id (payload_obj_info cb) = 0
   ∨ oi_storage_id (payload_obj_info cb) = SUPPORTED_STORAGE_ID) →
  (object_info_parent (payload_obj_info cb) = 0
   ∨ ∃ sb entry,
       fs_stat_handle (handle_table st) (disk st)
         (object_info_parent (payload_obj_info cb)) = Done (StatHandleOk sb entry)
       ∧ st_is_dir sb = true) →
  oi_association_type (payload_obj_info cb) = MTP_ASSOCIATION_UNDEFINED →
  (handles_used (handle_table st) = MTP_HANDLE_TABLE_SIZE
   ∨ (0 ≤ (esp_littlefs_info (disk st)).2 ≤ (esp_littlefs_info (disk st)).1
      ∧ (esp_littlefs_info (disk st)).1 < 4294967296
      ∧ (esp_littlefs_info (disk st)).1 - (esp_littlefs_info (disk st)).2
        < oi_object_compressed_size (payload_obj_info cb))) →
  ∃ r : reply fs,
    fs_send_object_info cb st = Done r
    ∧ r_code r = MTP_RESP_STORE_FULL
    ∧ r_state r = st
    ∧ handles (handle_table (r_state r)) = handles (handle_table st)
    ∧ handles_used (handle_table (r_state r)) = handles_used (handle_table st)
    ∧ disk (r_state r) = disk st.
Proof.
  intros Hopen Hsid Hphase Hoid Hparent Hassoc Hfull.
  exists (respond MTP_RESP_STORE_FULL NoIO st).
  split; [|cbn; split_and!; reflexivity].
  unfold fs_send_object_info. rewrite Hopen. cbn [negb].
  destruct (decide (param0 cb ≠ 4294967295 ∧ param0 cb ≠ SUPPORTED_STORAGE_ID))
    as [[Ha Hb]|_]; [destruct Hsid; contradiction|].
  rewrite Hphase.
  destruct (decide (oi_storage_id (payload_obj_info cb) ≠ 0
                    ∧ oi_storage_id (payload_obj_info cb) ≠ SUPPORTED_STORAGE_ID))
    as [[Ha Hb]|_]; [destruct Hoid; contradiction|].
  assert (Hok : (if decide (object_info_parent (payload_obj_info cb) ≠ 0) then
                   r ← fs_stat_handle (handle_table st) (disk st)
                         (object_info_parent (payload_obj_info cb));
                   match r with
                   | StatHandleFail _ => Done false
                   | StatHandleOk sb _ => Done (st_is_dir sb)
                   end
                 else Done true) = Done true).
  { destruct (decide (object_info_parent (payload_obj_info cb) ≠ 0)) as [Hne|_];
      [|reflexivity].
    destruct Hparent as [Hzero|(sb & entry & Hstat & Hdir)]; [contradiction|].
    rewrite Hstat. cbn. now rewrite Hdir. }
  rewrite Hok. cbn [mbind outcome_bind negb].
  destruct (decide (oi_association_type (payload_obj_info cb) = MTP_ASSOCIATION_UNDEFINED))
    as [_|Hne]; [|contradiction].
  rewrite fs_can_create_file_refuses by exact Hfull. reflexivity.
Qed.

(** Folders.  A SendObjectInfo data phase that passes the session and
    storage checks and describes a folder: with a parent other than the
    root, when the resolution of the parent returns, it returns
    InvalidParentObject and leaves the state as it was; with the root as
    parent it calls [mkdir] on root/name and returns 0 whatever [mkdir]
    did, the handle table being left as it was. *)
Lemma fs_send_object_info_folder (cb : tud_mtp_cb_data_t) (st : mtp_state fs) :
  is_session_opened st = true →
  (param0 cb = 4294967295 ∨ param0 cb = SUPPORTED_STORAGE_ID) →
  phase cb = MTP_PHASE_DATA →
  (oi_storage_id (payload_obj_info cb) = 0
   ∨ oi_storage_id (payload_obj_info cb) = SUPPORTED_STORAGE_ID) →
  oi_association_type (payload_obj_info cb) = MTP_ASSOCIATION_GENERIC_FOLDER →
  let parent := object_info_parent (payload_obj_info cb) in
  (parent ≠ 0 →
     ∀ r0, fs_stat_handle (handle_table st) (disk st) parent = Done r0 →
           fs_send_object_info cb st
           = Done (respond MTP_RESP_INVALID_PARENT_OBJECT NoIO st))
  ∧ (parent = 0 →
     ∃ r : reply fs,
       fs_send_object_info cb st = Done r
       ∧ r_code r = 0
       ∧ disk (r_state r)
         = mkdir (disk st)
             ("/littlefs/" +:+ utf16_to_utf8 (payload_filename cb) (100 - 10 - 1))
       ∧ handle_table (r_state r) = handle_table st
       ∧ handle_self_inc (r_state r) = handle_self_inc st).
Proof.
  intros Hopen Hsid Hphase Hoid Hassoc parent.
  pose proof (guard_passes (outcome (reply fs)) (param0 cb) 4294967295
                SUPPORTED_STORAGE_ID Hsid) as Hhead.
  pose proof (guard_passes (outcome (reply fs)) (oi_storage_id (payload_obj_info cb)) 0
                SUPPORTED_STORAGE_ID Hoid) as Hhead2.
  assert (Hfolder : oi_association_type (payload_obj_info cb) ≠ MTP_ASSOCIATION_UNDEFINED).
  { rewrite Hassoc. discriminate. }
  split.
  - intros Hne r0 Hstat. unfold fs_send_object_info.
    rewrite Hopen. cbn [negb]. rewrite Hhead, Hphase, Hhead2.
    fold parent.
    destruct (decide (parent ≠ 0)) as [_|Hz]; [|contradiction].
    rewrite Hstat. cbn [mbind outcome_bind].
    destruct r0 as [retval|sb entry]; cbn [mbind outcome_bind negb]; [reflexivity|].
    destruct (st_is_dir sb); cbn [negb]; [|reflexivity].
    destruct (decide (oi_association_type (payload_obj_info cb) = MTP_ASSOCIATION_UNDEFINED))
      as [Heq|_]; [contradiction|].
    destruct (decide (oi_association_type (payload_obj_info cb)
                      = MTP_ASSOCIATION_GENERIC_FOLDER)) as [_|Hno]; [|contradiction].
    reflexivity.
  - intros Hroot. eexists. split.
    + unfold fs_send_object_info.
      rewrite Hopen. cbn [negb]. rewrite Hhead, Hphase, Hhead2.
      fold parent.
      destruct (decide (parent ≠ 0)) as [Hne|_]; [contradiction|].
      cbn [mbind outcome_bind negb].
      destruct (decide (oi_association_type (payload_obj_info cb)
                        = MTP_ASSOCIATION_UNDEFINED)) as [Heq|_]; [contradiction|].
      destruct (decide (oi_association_type (payload_obj_info cb)
                        = MTP_ASSOCIATION_GENERIC_FOLDER)) as [_|Hno]; [|contradiction].
      reflexivity.
    + cbn. split_and!; reflexivity.
Qed.

(** ** Deleting objects *)

Lemma fs_stat_handle_resolved (tbl : fs_handletable) (d : fs) (h : Z) (p : string) :
  fs_path_from_handle tbl h PATH_BUF_LEN = Done (Some p) →
  fs_stat_handle tbl d h
  = match stat d p with
    | None => Done (StatHandleFail (-1))
    | Some sb => Done (StatHandleOk sb (fs_get_handle_entry tbl h))
    end.
Proof. intros Hp. unfold fs_stat_handle. rewrite Hp. reflexivity. Qed.

(** C9 (amended).  In an open session DeleteObject returns
    InvalidObjectHandle when no in-use slot carries the handle; when the
    handle resolves to a path, it returns GeneralError if [stat] fails on
    that path and OperationNotSupported if [stat] reports a directory,
    the table and the volume being left as they were in both cases;
    otherwise it unlinks the path, clears the first in-use slot carrying
    the handle, decrements [handles_used] and returns OK. *)
Theorem C9_delete_object (cb : tud_mtp_cb_data_t) (st : mtp_state fs) :
  is_session_opened st = true →
  let h := param0 cb in
  let tbl := handle_table st in
  (fs_handle_valid tbl h = false →
     fs_delete_object cb st = Done (respond MTP_RESP_INVALID_OBJECT_HANDLE NoIO st))
  ∧ (∀ p, fs_path_from_handle tbl h PATH_BUF_LEN = Done (Some p) →
          stat (disk st) p = None →
          fs_delete_object cb st = Done (respond MTP_RESP_GENERAL_ERROR NoIO st))
  ∧ (∀ p sb, fs_path_from_handle tbl h PATH_BUF_LEN = Done (Some p) →
             stat (disk st) p = Some sb → st_is_dir sb = true →
             fs_delete_object cb st
             = Done (respond MTP_RESP_OPERATION_NOT_SUPPORTED NoIO st))
  ∧ (∀ p sb, fs_path_from_handle tbl h PATH_BUF_LEN = Done (Some p) →
             stat (disk st) p = Some sb → st_is_dir sb = false →
             ∃ i e,
               list_find (fun e => handle e = h ∧ name e ≠ "") (handles tbl) = Some (i, e)
               ∧ fs_delete_object cb st
                 = Done (respond MTP_RESP_OK NoIO
                           (set_handle_table (set_disk st (unlink (disk st) p))
                              {| handles := <[i := clear_name e]> (handles tbl);
                                 handles_used := to_uint32 (handles_used tbl - 1) |}))).
Proof.
  intros Hopen h tbl. split_and!.
  - intros Hinvalid. unfold fs_delete_object. rewrite Hopen. cbn [negb].
    fold h tbl. rewrite (fs_path_from_handle_invalid tbl h _ Hinvalid). reflexivity.
  - intros p Hp Hstat. unfold fs_delete_object. rewrite Hopen. cbn [negb].
    fold h tbl. rewrite Hp. cbn [mbind outcome_bind].
    rewrite (fs_stat_handle_resolved tbl (disk st) h p Hp), Hstat. reflexivity.
  - intros p sb Hp Hstat Hdir. unfold fs_delete_object. rewrite Hopen. cbn [negb].
    fold h tbl. rewrite Hp. cbn [mbind outcome_bind].
    rewrite (fs_stat_handle_resolved tbl (disk st) h p Hp), Hstat.
    cbn [mbind outcome_bind]. rewrite Hdir. reflexivity.
  - intros p sb Hp Hstat Hfile.
    pose proof (fs_path_from_handle_valid tbl h _ p Hp) as Hvalid.
    destruct (fs_handle_valid_live_slot tbl h Hvalid) as [[i e] Hslot].
    exists i, e. split; [exact Hslot|].
    unfold fs_delete_object. rewrite Hopen. cbn [negb].
    fold h tbl. rewrite Hp. cbn [mbind outcome_bind].
    rewrite (fs_stat_handle_resolved tbl (disk st) h p Hp), Hstat.
    cbn [mbind outcome_bind]. rewrite Hfile.
    unfold fs_delete_handle. rewrite Hslot. reflexivity.
Qed.

(** ** Listing objects *)

Lemma filter_none {A : Type} (P : A → Prop) `{∀ x, Decision (P x)} (l : list A) :
  (∀ x, x ∈ l → ¬ P x) → filter P l = [].
Proof.
  intros Hnone. destruct (filter P l) as [|x rest] eqn:Hf; [reflexivity|].
  assert (Hx : x ∈ filter P l) by (rewrite Hf; left).
  apply list_elem_of_filter in Hx as [HP Hin]. exfalso. exact (Hnone x Hin HP).
Qed.

Lemma parents_are_live_dirs_valid (tbl : fs_handletable) (e : fs_handletable_entry_t) :
  parents_are_live_dirs tbl = true →
  e ∈ handles tbl → name e ≠ "" → parent_handle e ≠ 0 →
  fs_handle_valid tbl (parent_handle e) = true.
Proof.
  unfold parents_are_live_dirs, live_entries. rewrite forallb_forall.
  intros Hinv Hin Hlive Hparent.
  assert (He : In e (filter (fun e => name e ≠ "") (handles tbl))).
  { apply list_elem_of_In, list_elem_of_filter. split; assumption. }
  specialize (Hinv e He). unfold parent_is_live_dir in Hinv.
  apply orb_true_iff in Hinv as [Hroot|Hfound].
  { apply bool_decide_eq_true in Hroot. contradiction. }
  apply existsb_exists in Hfound as (p & Hp & Htest).
  apply andb_true_iff in Htest as [Htest _].
  unfold fs_handle_valid. apply existsb_exists. exists p. split; assumption.
Qed.

(** Listings.  For a storage id that is the supported one or the
    all-storages value, GetObjectHandles returns 0 and sends the [handle]
    fields of the in-use slots whose parent handle is the requested one
    ([0xFFFFFFFF] read as 0), in slot order, leaving the state as it was;
    the session flag is not consulted and the parent is not looked up.  The
    list is empty when no in-use slot names that parent; on a table where
    every parent reference is an in-use directory slot this is the case for
    every non-zero parent that is not a valid handle. *)
Lemma fs_get_object_handles_lists (cb : tud_mtp_cb_data_t) (st : mtp_state fs) :
  (param0 cb = 4294967295 ∨ param0 cb = SUPPORTED_STORAGE_ID) →
  let h := if decide (param2 cb = 4294967295) then 0 else param2 cb in
  let tbl := handle_table st in
  let listed := handle <$> filter (fun e => parent_handle e = h ∧ name e ≠ "") (handles tbl) in
  fs_get_object_handles cb st = respond 0 (DataSendHandles listed) st
  ∧ (∀ b, fs_get_object_handles cb (set_is_session_opened st b)
          = respond 0 (DataSendHandles listed) (set_is_session_opened st b))
  ∧ ((∀ e, e ∈ handles tbl → name e ≠ "" → parent_handle e ≠ h) → listed = [])
  ∧ (h ≠ 0 → fs_handle_valid tbl h = false → parents_are_live_dirs tbl = true →
     listed = []).
Proof.
  intros Hsid h tbl listed.
  assert (Hrun : ∀ st' : mtp_state fs, handle_table st' = tbl →
            fs_get_object_handles cb st' = respond 0 (DataSendHandles listed) st').
  { intros st' Htbl. unfold fs_get_object_handles.
    rewrite (guard_passes _ _ _ _ Hsid). rewrite Htbl. reflexivity. }
  assert (Hnone : (∀ e, e ∈ handles tbl → name e ≠ "" → parent_handle e ≠ h) →
                  listed = []).
  { intros Hno. subst listed. rewrite filter_none; [reflexivity|].
    intros e Hin [Hp Hlive]. exact (Hno e Hin Hlive Hp). }
  split_and!.
  - apply Hrun. reflexivity.
  - intros b. apply Hrun. reflexivity.
  - exact Hnone.
  - intros Hh Hinvalid Hinv. apply Hnone. intros e Hin Hlive Hp.
    pose proof (parents_are_live_dirs_valid tbl e Hinv Hin Hlive) as Hvalid.
    rewrite Hp in Hvalid. specialize (Hvalid Hh). congruence.
Qed.

(** ** What CloseSession leaves behind *)

Lemma close_session_keeps_table (cb : tud_mtp_cb_data_t) (st : mtp_state fs) (r : reply fs) :
  cmd_code cb ≠ MTP_OP_OPEN_SESSION →
  fs_open_close_session cb st = Done r →
  handle_table (r_state r) = handle_table st ∧ disk (r_state r) = disk st.
Proof.
  intros Hcode. unfold fs_open_close_session.
  destruct (decide (cmd_code cb = MTP_OP_OPEN_SESSION)) as [Heq|_]; [contradiction|].
  destruct (negb (is_session_opened st)); intros Hrun; injection Hrun as <-;
    split; reflexivity.
Qed.

Lemma get_object_info_ignores_session (cb : tud_mtp_cb_data_t) (st : mtp_state fs) (b : bool) :
  code_after (fs_get_object_info cb (set_is_session_opened st b))
  = code_after (fs_get_object_info cb st).
Proof.
  unfold fs_get_object_info. cbn [handle_table disk set_is_session_opened].
  destruct (fs_stat_handle _ _ _) as [[retval|sb [[i e]|]]| |]; reflexivity.
Qed.

End Responder.

(** * The shape of the table is kept

    The lookups above scan the list of slots where the C code scans
    [handles[0..31]], and the path theorem asks for names that fit their
    arrays.  Both
    hold of the initial table and are kept by every handler that writes to
    the table. *)
Section TableShape.

Context {fs : Type} `{FileSystem fs} `{Platform}.

Lemma table_ok_slots (tbl : fs_handletable) : table_ok tbl ↔ slots_ok (handles tbl).
Proof.
  unfold table_ok, slots_ok, names_fit.
  rewrite forallb_forall, Forall_forall.
  split; intros [Hlen Hall]; (split; [exact Hlen|]); intros e He.
  - apply Nat.leb_le, Hall, list_elem_of_In, He.
  - apply Nat.leb_le, Hall, list_elem_of_In, He.
Qed.

Lemma strtake_length (n : nat) (s : string) : (String.length (strtake n s) ≤ n)%nat.
Proof.
  unfold strtake. revert n.
  induction s as [|c s IH]; intros [|n]; simpl; try lia.
  specialize (IH n). lia.
Qed.

Lemma initial_table_ok : table_ok initial_table.
Proof. split; reflexivity. Qed.

Lemma write_slot_ok (hs hs' : list fs_handletable_entry_t) (ii : Z)
    (f : fs_handletable_entry_t → fs_handletable_entry_t) :
  (∀ e, (String.length (name e) ≤ MTP_FILENAME_LENGTH)%nat →
        (String.length (name (f e)) ≤ MTP_FILENAME_LENGTH)%nat) →
  slots_ok hs → write_slot hs ii f = Done hs' → slots_ok hs'.
Proof.
  intros Hf [Hlen Hall]. unfold write_slot.
  destruct (decide (0 ≤ ii < MTP_HANDLE_TABLE_SIZE)); [|discriminate].
  intros Hw. injection Hw as <-. split.
  - now rewrite length_alter.
  - apply Forall_alter; [exact Hall|]. intros e _. apply Hf.
Qed.

Lemma regenerate_subdir_ok (parent : Z) (items : list dirent) (w w' : walk)
    (ex : walk_exit) :
  slots_ok (w_handles w) →
  regenerate_subdir parent items w = Done (ex, w') → slots_ok (w_handles w').
Proof.
  revert w. induction items as [|item rest IH]; intros w Hok; cbn [regenerate_subdir].
  - intros Hrun. injection Hrun as _ <-. exact Hok.
  - destruct (write_slot _ _ _) as [hs| |] eqn:Hw; try discriminate.
    apply write_slot_ok in Hw; [|intros e _; apply strtake_length|exact Hok].
    unfold fs_assign_new_handle.
    destruct (decide _).
    + intros Hrun. injection Hrun as _ <-. exact Hw.
    + apply IH. exact Hw.
Qed.

Lemma regenerate_root_ok (d : fs) (items : list dirent) (w w' : walk) (ex : walk_exit) :
  slots_ok (w_handles w) →
  regenerate_root d items w = Done (ex, w') → slots_ok (w_handles w').
Proof.
  revert w. induction items as [|item rest IH]; intros w Hok; cbn [regenerate_root].
  - intros Hrun. injection Hrun as _ <-. exact Hok.
  - destruct (write_slot (w_handles w) _ _) as [hs| |] eqn:Hw; try discriminate.
    apply write_slot_ok in Hw; [|intros e _; apply strtake_length|exact Hok].
    unfold fs_assign_new_handle. cbn [w_ii w_inc w_handles].
    destruct (decide (to_int32 _ >= _)).
    { intros Hrun. injection Hrun as _ <-. exact Hw. }
    destruct (decide (d_type item = DT_DIR)) as [Hdir|Hfile]; [|apply IH; exact Hw].
    destruct (write_slot hs _ _) as [hs2| |] eqn:Hw2; try discriminate.
    apply write_slot_ok in Hw2; [|intros e He; exact He|exact Hw].
    destruct (decide _); [discriminate|].
    destruct (opendir d _) as [subitems|]; [|apply IH; exact Hw2].
    destruct (regenerate_subdir _ subitems _) as [[[|] w3]| |] eqn:Hsub; try discriminate.
    + apply regenerate_subdir_ok in Hsub; [|exact Hw2]. apply IH. exact Hsub.
    + apply regenerate_subdir_ok in Hsub; [|exact Hw2].
      intros Hrun. injection Hrun as _ <-. exact Hsub.
Qed.

Lemma fs_handletable_regenerate_ok (st st' : mtp_state fs) :
  table_ok (handle_table st) →
  fs_handletable_regenerate st = Done st' → table_ok (handle_table st').
Proof.
  intros Hok. unfold fs_handletable_regenerate, fs_assign_new_handle.
  destruct (opendir (disk st) "/littlefs") as [items|].
  - destruct (regenerate_root _ items _) as [[ex w]| |] eqn:Hwalk; try discriminate.
    cbn [mbind outcome_bind]. intros Hrun. injection Hrun as <-.
    apply table_ok_slots. cbn.
    eapply regenerate_root_ok; [|exact Hwalk]. cbn. now apply table_ok_slots.
  - returns_unchanged Hok.
Qed.

Lemma fs_create_file_ok (st : mtp_state fs) (parent : Z) (nm : string) :
  table_ok (handle_table st) →
  table_ok (handle_table (fs_create_file st parent nm).2).
Proof.
  intros Hok. unfold fs_create_file.
  destruct (fs_path_create _ _ _ _) as [retval pathbuf].
  destruct (decide (retval ≠ 0)); [exact Hok|].
  destruct (fs_handletable_find_empty_entry _) as [[slot slot_entry]|]; [|exact Hok].
  unfold fs_assign_new_handle.
  destruct (fopen_w _ _) as [d'|]; [|exact Hok].
  cbn. apply table_ok_slots. cbn. apply table_ok_slots in Hok as [Hlen Hall]. split.
  - now rewrite length_insert.
  - apply Forall_insert; [exact Hall|]. cbn. unfold strlcpy.
    pose proof (strtake_length (MTP_FILENAME_LENGTH - 1) nm).
    unfold MTP_FILENAME_LENGTH in *. lia.
Qed.

Lemma fs_delete_handle_ok (tbl : fs_handletable) (h : Z) :
  table_ok tbl → table_ok (fs_delete_handle tbl h).2.
Proof.
  intros Hok. unfold fs_delete_handle.
  destruct (list_find _ _) as [[ii entry]|]; [|exact Hok].
  cbn. apply table_ok_slots. cbn. apply table_ok_slots in Hok as [Hlen Hall]. split.
  - now rewrite length_insert.
  - apply Forall_insert; [exact Hall|]. cbn. lia.
Qed.

Lemma fs_open_close_session_ok (cb : tud_mtp_cb_data_t) (st : mtp_state fs) (r : reply fs) :
  table_ok (handle_table st) →
  fs_open_close_session cb st = Done r → table_ok (handle_table (r_state r)).
Proof.
  intros Hok. unfold fs_open_close_session.
  destruct (decide _).
  - destruct (is_session_opened st).
    + returns_unchanged Hok.
    + destruct (fs_handletable_regenerate _) as [st'| |] eqn:Hregen; try discriminate.
      cbn [mbind outcome_bind]. intros Hrun. injection Hrun as <-.
      eapply fs_handletable_regenerate_ok; [|exact Hregen]. exact Hok.
  - destruct (negb _); returns_unchanged Hok.
Qed.

Lemma fs_delete_object_ok (cb : tud_mtp_cb_data_t) (st : mtp_state fs) (r : reply fs) :
  table_ok (handle_table st) →
  fs_delete_object cb st = Done r → table_ok (handle_table (r_state r)).
Proof.
  intros Hok. unfold fs_delete_object.
  destruct (negb _); [returns_unchanged Hok|].
  destruct (fs_path_from_handle _ _ _) as [[pathbuf|]| |]; cbn [mbind outcome_bind];
    try discriminate; [|returns_unchanged Hok].
  destruct (fs_stat_handle _ _ _) as [[retval|sb entry]| |]; cbn [mbind outcome_bind];
    try discriminate; [returns_unchanged Hok|].
  destruct (st_is_dir sb); [returns_unchanged Hok|].
  pose proof (fs_delete_handle_ok (handle_table st) (param0 cb) Hok) as Hdel.
  destruct (fs_delete_handle _ _) as [rc tbl']. intros Hrun. injection Hrun as <-.
  exact Hdel.
Qed.

Lemma fs_send_object_info_ok (cb : tud_mtp_cb_data_t) (st : mtp_state fs) (r : reply fs) :
  table_ok (handle_table st) →
  fs_send_object_info cb st = Done r → table_ok (handle_table (r_state r)).
Proof.
  intros Hok. unfold fs_send_object_info.
  destruct (negb _); [returns_unchanged Hok|].
  destruct (decide _); [returns_unchanged Hok|].
  destruct (phase cb); try (returns_unchanged Hok).
  destruct (decide _); [returns_unchanged Hok|].
  assert (Hcheck : ∃ m : outcome bool,
             (if decide (object_info_parent (payload_obj_info cb) ≠ 0) then
                r ← fs_stat_handle (handle_table st) (disk st)
                      (object_info_parent (payload_obj_info cb));
                match r with
                | StatHandleFail _ => Done false
                | StatHandleOk sb _ => Done (st_is_dir sb)
                end
              else Done true) = m) by (eexists; reflexivity).
  destruct Hcheck as [m ->].
  destruct m as [parent_ok| |]; cbn [mbind outcome_bind]; try discriminate.
  destruct (negb parent_ok); [returns_unchanged Hok|].
  destruct (decide _).
  - destruct (negb _); [returns_unchanged Hok|].
    pose proof (fs_create_file_ok st (object_info_parent (payload_obj_info cb))
                  (utf16_to_utf8 (payload_filename cb) MTP_FILENAME_LENGTH) Hok) as Hnew.
    destruct (fs_create_file _ _ _) as [hnew st1].
    intros Hrun. injection Hrun as <-. exact Hnew.
  - destruct (decide _); [|returns_unchanged Hok].
    destruct (decide _); returns_unchanged Hok.
Qed.

End TableShape.

(** * Invariants of the machine *)
Section Machine.

Context {fs : Type} `{FileSystem fs} `{Platform}.

Lemma same_control_refl (st : mtp_state fs) : same_control st st.
Proof. repeat split. Qed.

Lemma same_control_trans (st1 st2 st3 : mtp_state fs) :
  same_control st1 st2 → same_control st2 st3 → same_control st1 st3.
Proof. intros (Ha & Hb & Hc) (Ha' & Hb' & Hc'). repeat split; congruence. Qed.

Lemma same_control_framed (st st' : mtp_state fs) : same_control st st' → framed st st'.
Proof. intros Hsame. split; [apply Hsame | intros _; exact Hsame]. Qed.

Lemma fs_close_handle_control (st st' : mtp_state fs) (h : Z) (file : option FILE) :
  fs_close_handle st h file = Done st' → same_control st st'.
Proof.
  unfold fs_close_handle.
  destruct (decide _) as [_|_]; [intros Hrun; injection Hrun as <-; apply same_control_refl|].
  destruct file; [|discriminate].
  intros Hrun. injection Hrun as <-. repeat split.
Qed.

Lemma fs_open_handle_control (st st1 : mtp_state fs) (h : Z) (mode_w : bool)
    (f : option FILE) :
  fs_open_handle st h mode_w = Done (f, st1) → same_control st st1.
Proof.
  unfold fs_open_handle.
  destruct (_ && _); [intros Hrun; injection Hrun as _ <-; apply same_control_refl|].
  destruct (fs_path_from_handle _ _ _) as [[path_buf|]| |]; cbn [mbind outcome_bind];
    try discriminate; [|intros Hrun; injection Hrun as _ <-; apply same_control_refl].
  destruct mode_w.
  - destruct (fopen_w _ _); intros Hrun; injection Hrun as _ <-; repeat split.
  - destruct (fopen_r _ _); [|discriminate].
    intros Hrun; injection Hrun as _ <-; repeat split.
Qed.

Lemma fs_get_object_control (fuel : nat) (cb : tud_mtp_cb_data_t) (st : mtp_state fs)
    (r : reply fs) :
  fs_get_object fuel cb st = Done r → same_control st (r_state r).
Proof.
  unfold fs_get_object.
  destruct (fs_open_handle st (param0 cb) false) as [[f st1]| |] eqn:Hopen;
    cbn [mbind outcome_bind]; try discriminate.
  apply fs_open_handle_control in Hopen.
  destruct f as [file|]; [|intros Hrun; injection Hrun as <-; exact Hopen].
  destruct (phase cb); try (intros Hrun; injection Hrun as <-; exact Hopen).
  destruct (decide (get_object_xact_len cb st1 > 0)) as [_|_].
  - destruct (fread_loop _ _ _ _ _) as [[payload file']| |];
      cbn [mbind outcome_bind]; try discriminate.
    destruct (decide _) as [_|_]; [|intros Hrun; injection Hrun as <-; exact Hopen].
    destruct (fs_close_handle _ _ _) as [st3| |] eqn:Hclose;
      cbn [mbind outcome_bind]; try discriminate.
    apply fs_close_handle_control in Hclose.
    intros Hrun. injection Hrun as <-.
    eapply same_control_trans; [|exact Hclose]. exact Hopen.
  - cbn [mbind outcome_bind].
    destruct (decide _) as [_|_]; [|intros Hrun; injection Hrun as <-; exact Hopen].
    destruct (fs_close_handle _ _ _) as [st3| |] eqn:Hclose;
      cbn [mbind outcome_bind]; try discriminate.
    apply fs_close_handle_control in Hclose.
    intros Hrun. injection Hrun as <-.
    eapply same_control_trans; [exact Hopen | exact Hclose].
Qed.

Lemma fs_send_object_control (cb : tud_mtp_cb_data_t) (st : mtp_state fs) (r : reply fs) :
  fs_send_object cb st = Done r → same_control st (r_state r).
Proof.
  unfold fs_send_object.
  destruct (current_file st) as [file|];
    [|intros Hrun; injection Hrun as <-; apply same_control_refl].
  destruct (decide _) as [_|_];
    [intros Hrun; injection Hrun as <-; apply same_control_refl|].
  destruct (phase cb); try (intros Hrun; injection Hrun as <-; apply same_control_refl).
  destruct (fwrite_stream (disk st) file _) as [d' file'].
  destruct (decide _) as [_|_]; [intros Hrun; injection Hrun as <-; repeat split|].
  destruct (fs_close_handle _ _ _) as [st2| |] eqn:Hclose;
    cbn [mbind outcome_bind]; try discriminate.
  apply fs_close_handle_control in Hclose.
  intros Hrun. injection Hrun as <-.
  eapply same_control_trans; [|exact Hclose]. repeat split.
Qed.

Lemma fs_get_object_info_control (cb : tud_mtp_cb_data_t) (st : mtp_state fs) (r : reply fs) :
  fs_get_object_info cb st = Done r → r_state r = st.
Proof.
  unfold fs_get_object_info.
  destruct (fs_stat_handle _ _ _) as [[retval|sb [[i e]|]]| |]; cbn [mbind outcome_bind];
    try discriminate; intros Hrun; injection Hrun as <-; reflexivity.
Qed.

Lemma fs_get_storage_info_control (cb : tud_mtp_cb_data_t) (st : mtp_state fs) :
  same_control st (r_state (fs_get_storage_info cb st)).
Proof.
  unfold fs_get_storage_info. destruct (decide _) as [_|_]; [|apply same_control_refl].
  destruct (esp_littlefs_info _). repeat split.
Qed.

Lemma fs_get_object_handles_control (cb : tud_mtp_cb_data_t) (st : mtp_state fs) :
  r_state (fs_get_object_handles cb st) = st.
Proof. unfold fs_get_object_handles. destruct (decide _); reflexivity. Qed.

Lemma fs_handletable_regenerate_session (st st' : mtp_state fs) :
  fs_handletable_regenerate st = Done st' → is_session_opened st' = is_session_opened st.
Proof.
  unfold fs_handletable_regenerate, fs_assign_new_handle.
  destruct (opendir _ _) as [items|]; [|intros Hrun; injection Hrun as <-; reflexivity].
  destruct (regenerate_root _ _ _) as [[ex w]| |]; cbn [mbind outcome_bind];
    try discriminate.
  intros Hrun. injection Hrun as <-. reflexivity.
Qed.

Lemma fs_create_file_session (st : mtp_state fs) (parent : Z) (nm : string) :
  is_session_opened (fs_create_file st parent nm).2 = is_session_opened st.
Proof.
  unfold fs_create_file, fs_assign_new_handle.
  destruct (fs_path_create _ _ _ _) as [retval pathbuf].
  destruct (decide _) as [_|_]; [reflexivity|].
  destruct (fs_handletable_find_empty_entry _) as [[slot slot_entry]|]; [|reflexivity].
  destruct (fopen_w _ _); reflexivity.
Qed.

Lemma fs_send_object_info_framed (cb : tud_mtp_cb_data_t) (st : mtp_state fs) (r : reply fs) :
  fs_send_object_info cb st = Done r → framed st (r_state r).
Proof.
  unfold fs_send_object_info.
  destruct (is_session_opened st) eqn:Hopen; cbn [negb];
    [|intros Hrun; injection Hrun as <-; apply same_control_framed, same_control_refl].
  intros Hrun. split; [|rewrite Hopen; discriminate]. rewrite Hopen. revert Hrun.
  destruct (decide _) as [_|_]; [intros Hrun; injection Hrun as <-; exact Hopen|].
  destruct (phase cb); try (intros Hrun; injection Hrun as <-; exact Hopen).
  destruct (decide _) as [_|_]; [intros Hrun; injection Hrun as <-; exact Hopen|].
  assert (Hcheck : ∃ m : outcome bool,
             (if decide (object_info_parent (payload_obj_info cb) ≠ 0) then
                r ← fs_stat_handle (handle_table st) (disk st)
                      (object_info_parent (payload_obj_info cb));
                match r with
                | StatHandleFail _ => Done false
                | StatHandleOk sb _ => Done (st_is_dir sb)
                end
              else Done true) = m) by (eexists; reflexivity).
  destruct Hcheck as [m ->].
  destruct m as [parent_ok| |]; cbn [mbind outcome_bind]; try discriminate.
  destruct (negb parent_ok); [intros Hrun; injection Hrun as <-; exact Hopen|].
  destruct (decide _) as [_|_].
  - destruct (negb _); [intros Hrun; injection Hrun as <-; exact Hopen|].
    pose proof (fs_create_file_session st (object_info_parent (payload_obj_info cb))
                  (utf16_to_utf8 (payload_filename cb) MTP_FILENAME_LENGTH)) as Hnew.
    destruct (fs_create_file _ _ _) as [hnew st1].
    intros Hrun. injection Hrun as <-. cbn in *. congruence.
  - destruct (decide _) as [_|_]; [|intros Hrun; injection Hrun as <-; exact Hopen].
    destruct (decide _) as [_|_]; intros Hrun; injection Hrun as <-; exact Hopen.
Qed.

Lemma fs_delete_object_framed (cb : tud_mtp_cb_data_t) (st : mtp_state fs) (r : reply fs) :
  fs_delete_object cb st = Done r → framed st (r_state r).
Proof.
  unfold fs_delete_object.
  destruct (is_session_opened st) eqn:Hopen; cbn [negb];
    [|intros Hrun; injection Hrun as <-; apply same_control_framed, same_control_refl].
  intros Hrun. split; [|rewrite Hopen; discriminate]. rewrite Hopen. revert Hrun.
  destruct (fs_path_from_handle _ _ _) as [[pathbuf|]| |]; cbn [mbind outcome_bind];
    try discriminate; [|intros Hrun; injection Hrun as <-; exact Hopen].
  destruct (fs_stat_handle _ _ _) as [[retval|sb entry]| |]; cbn [mbind outcome_bind];
    try discriminate; [intros Hrun; injection Hrun as <-; exact Hopen|].
  destruct (st_is_dir sb); [intros Hrun; injection Hrun as <-; exact Hopen|].
  destruct (fs_delete_handle _ _) as [rc tbl']. intros Hrun. injection Hrun as <-.
  exact Hopen.
Qed.

(** Every handler keeps the shape of the table. *)
Lemma serve_table_ok (rq : request) (st : mtp_state fs) (r : reply fs) :
  table_ok (handle_table st) → serve rq st = Done r → table_ok (handle_table (r_state r)).
Proof.
  intros Hok. destruct rq as [cb|cb|cb|cb|fuel cb|cb|cb|cb|]; cbn [serve].
  - apply fs_open_close_session_ok, Hok.
  - intros Hrun. injection Hrun as <-.
    destruct (fs_get_storage_info_control cb st) as (_ & _ & ->). exact Hok.
  - intros Hrun. injection Hrun as <-. now rewrite fs_get_object_handles_control.
  - intros Hrun. apply fs_get_object_info_control in Hrun as ->. exact Hok.
  - intros Hrun. apply fs_get_object_control in Hrun as (_ & _ & ->). exact Hok.
  - apply fs_send_object_info_ok, Hok.
  - intros Hrun. apply fs_send_object_control in Hrun as (_ & _ & ->). exact Hok.
  - apply fs_delete_object_ok, Hok.
  - destruct (tud_mtp_request_cancel_cb st) as [st'| |] eqn:Hcancel;
      cbn [mbind outcome_bind]; try discriminate.
    apply fs_close_handle_control in Hcancel as (_ & _ & Htbl).
    intros Hrun. injection Hrun as <-. cbn. now rewrite Htbl.
Qed.

(** Every handler keeps the allocator at 0 while no session is open. *)
Lemma serve_closed_counter_reset (rq : request) (st : mtp_state fs) (r : reply fs) :
  closed_counter_reset st → serve rq st = Done r → closed_counter_reset (r_state r).
Proof.
  unfold closed_counter_reset. intros Hinv.
  assert (Hsame : ∀ st', same_control st st' →
            is_session_opened st' = false → handle_self_inc st' = 0).
  { intros st' (Hs & Hc & _) Hclosed. rewrite Hc. apply Hinv. congruence. }
  assert (Hframed : ∀ st', framed st st' →
            is_session_opened st' = false → handle_self_inc st' = 0).
  { intros st' [Hs Hrest] Hclosed. rewrite Hs in Hclosed.
    apply Hsame; [apply Hrest; exact Hclosed | congruence]. }
  destruct rq as [cb|cb|cb|cb|fuel cb|cb|cb|cb|]; cbn [serve].
  - unfold fs_open_close_session. destruct (decide _) as [_|_].
    + destruct (is_session_opened st) eqn:Hopen.
      * intros Hrun. injection Hrun as <-. cbn. congruence.
      * destruct (fs_handletable_regenerate _) as [st'| |] eqn:Hregen;
          cbn [mbind outcome_bind]; try discriminate.
        apply fs_handletable_regenerate_session in Hregen.
        intros Hrun. injection Hrun as <-. cbn in *. congruence.
    + destruct (is_session_opened st) eqn:Hopen; cbn [negb];
        intros Hrun; injection Hrun as <-; cbn; intros _;
        [reflexivity | apply Hinv; reflexivity].
  - intros Hrun. injection Hrun as <-. apply Hsame, fs_get_storage_info_control.
  - intros Hrun. injection Hrun as <-. rewrite fs_get_object_handles_control. exact Hinv.
  - intros Hrun. apply fs_get_object_info_control in Hrun as ->. exact Hinv.
  - intros Hrun. apply fs_get_object_control in Hrun. apply Hsame, Hrun.
  - intros Hrun. apply fs_send_object_info_framed in Hrun. apply Hframed, Hrun.
  - intros Hrun. apply fs_send_object_control in Hrun. apply Hsame, Hrun.
  - intros Hrun. apply fs_delete_object_framed in Hrun. apply Hframed, Hrun.
  - destruct (tud_mtp_request_cancel_cb st) as [st'| |] eqn:Hcancel;
      cbn [mbind outcome_bind]; try discriminate.
    apply fs_close_handle_control in Hcancel.
    intros Hrun. injection Hrun as <-. apply Hsame, Hcancel.
Qed.

(** In every reachable state the table has its 32 slots with names that fit,
    and the allocator stands at 0 unless a session is open. *)
Lemma reachable_invariants (st : mtp_state fs) :
  reachable st → table_ok (handle_table st) ∧ closed_counter_reset st.
Proof.
  induction 1 as [d|rq st r _ [IHtable IHcounter] Hserve].
  - split; [apply initial_table_ok | intros _; reflexivity].
  - split; [eapply serve_table_ok | eapply serve_closed_counter_reset]; eassumption.
Qed.


Lemma run_reachable (rqs : list request) (st st' : mtp_state fs) (codes : list Z) :
  reachable st → run rqs st = Done (codes, st') → reachable st'.
Proof.
  revert st codes. induction rqs as [|rq rest IH]; intros st codes Hreach; cbn [run].
  - intros Hrun. injection Hrun as _ <-. exact Hreach.
  - destruct (serve rq st) as [r| |] eqn:Hserve; try discriminate.
    destruct (run rest (r_state r)) as [[codes' st'']| |] eqn:Hrest; try discriminate.
    intros Hrun. injection Hrun as _ <-.
    eapply IH; [|exact Hrest]. eapply reachable_serve; eassumption.
Qed.

Lemma run_state_reachable (rqs : list request) (st : mtp_state fs) (codes : list Z) :
  reachable st → run_codes rqs st = Some codes → reachable (run_state rqs st).
Proof.
  unfold run_codes, run_state. intros Hreach.
  destruct (run rqs st) as [[codes' st']| |] eqn:Hrun; try discriminate.
  intros _. eapply run_reachable; eassumption.
Qed.

End Machine.

(** * Opening a session

    The walk of [fs_handletable_regenerate] starts from the allocator
    counter, which is 0 whenever no session is open. *)
Section SessionOpen.

Context {fs : Type} `{FileSystem fs} `{Platform}.

Lemma to_int32_small (z : Z) : -2147483648 ≤ z < 2147483648 → to_int32 z = z.
Proof. intros Hz. unfold to_int32. rewrite Z.mod_small; lia. Qed.

Lemma walk_in_table_next (w : walk) :
  walk_in_table w →
  to_uint32 (w_inc w + 1) = w_ii w + 1
  ∧ to_int32 (to_uint32 (w_inc w + 1)) = w_ii w + 1.
Proof.
  intros [Heq Hrange]. unfold MTP_HANDLE_TABLE_SIZE in Hrange. rewrite <- Heq.
  rewrite to_uint32_small by lia. split; [reflexivity|].
  apply to_int32_small. lia.
Qed.

Lemma write_slot_in_table (w : walk) (f : fs_handletable_entry_t → fs_handletable_entry_t) :
  walk_in_table w →
  write_slot (w_handles w) (w_ii w) f = Done (alter f (Z.to_nat (w_ii w)) (w_handles w)).
Proof.
  intros [_ Hrange]. unfold write_slot.
  destruct (decide _) as [_|Hout]; [reflexivity|].
  exfalso. apply Hout. lia.
Qed.

Lemma regenerate_subdir_in_table (parent : Z) (items : list dirent) (w : walk) :
  walk_in_table w →
  ∃ ex w', regenerate_subdir parent items w = Done (ex, w')
    ∧ w_ii w' = w_inc w'
    ∧ w_ii w ≤ w_ii w' ≤ MTP_HANDLE_TABLE_SIZE
    ∧ (ex = WalkNext → w_ii w' < MTP_HANDLE_TABLE_SIZE)
    ∧ (∀ i, (i < Z.to_nat (w_ii w))%nat → w_handles w' !! i = w_handles w !! i).
Proof.
  revert w. induction items as [|item rest IH]; intros w Hw; cbn [regenerate_subdir].
  - exists WalkNext, w. destruct Hw as [Heq Hrange]. split_and!; try done; lia.
  - rewrite write_slot_in_table by exact Hw.
    unfold fs_assign_new_handle. cbn [w_ii w_inc w_handles].
    destruct (walk_in_table_next w Hw) as [Hinc Hii]. rewrite Hii, Hinc.
    destruct Hw as [Heq Hrange].
    set (hs := alter _ (Z.to_nat (w_ii w)) (w_handles w)).
    assert (Hbefore : ∀ i, (i < Z.to_nat (w_ii w))%nat → hs !! i = w_handles w !! i)
      by (intros i Hi; apply list_lookup_alter_ne; lia).
    destruct (decide (w_ii w + 1 >= MTP_HANDLE_TABLE_SIZE)) as [Hfull|Hroom].
    + eexists WalkCleanup, _. split; [reflexivity|]. cbn [w_ii w_inc w_handles].
      split_and!; try done; lia.
    + destruct (IH {| w_handles := hs; w_inc := w_ii w + 1; w_ii := w_ii w + 1 |})
        as (ex & w' & Hrun & Heq' & Hle & Hnext & Hframe).
      { split; cbn [w_ii w_inc]; [reflexivity|lia]. }
      exists ex, w'. cbn [w_ii w_inc w_handles] in *.
      split; [exact Hrun|]. split_and!; try done; try lia.
      intros i Hi. rewrite Hframe by lia. apply Hbefore. exact Hi.
Qed.

Lemma regenerate_root_in_table (d : fs) (items : list dirent) (w : walk) :
  walk_in_table w →
  Forall (fun item => d_type item = DT_DIR →
                      (10 + String.length (d_name item) < PATH_BUF_LEN)%nat) items →
  ∃ ex w', regenerate_root d items w = Done (ex, w')
    ∧ w_ii w' = w_inc w'
    ∧ w_ii w ≤ w_ii w' ≤ MTP_HANDLE_TABLE_SIZE
    ∧ (∀ i, (i < Z.to_nat (w_ii w))%nat → w_handles w' !! i = w_handles w !! i).
Proof.
  revert w. induction items as [|item rest IH]; intros w Hw Hnames; cbn [regenerate_root].
  - exists WalkNext, w. destruct Hw as [Heq Hrange]. split_and!; try done; lia.
  - apply Forall_cons in Hnames as [Hname Hnames].
    rewrite write_slot_in_table by exact Hw.
    unfold fs_assign_new_handle. cbn [w_ii w_inc w_handles].
    destruct (walk_in_table_next w Hw) as [Hinc Hii]. rewrite Hii, Hinc.
    destruct Hw as [Heq Hrange].
    set (hs := alter _ (Z.to_nat (w_ii w)) (w_handles w)).
    assert (Hbefore : ∀ i, (i < Z.to_nat (w_ii w))%nat → hs !! i = w_handles w !! i)
      by (intros i Hi; apply list_lookup_alter_ne; lia).
    destruct (decide (w_ii w + 1 >= MTP_HANDLE_TABLE_SIZE)) as [Hfull|Hroom].
    { eexists WalkCleanup, _. split; [reflexivity|]. cbn [w_ii w_inc w_handles].
      split_and!; try done; lia. }
    assert (Hnext : ∀ hs', walk_in_table {| w_handles := hs'; w_inc := w_ii w + 1;
                                             w_ii := w_ii w + 1 |})
      by (intros hs'; split; cbn [w_ii w_inc]; [reflexivity|lia]).
    destruct (decide (d_type item = DT_DIR)) as [Hdir|Hfile].
    + rewrite (write_slot_in_table {| w_handles := hs; w_inc := w_ii w + 1;
                                      w_ii := w_ii w + 1 |}) by apply Hnext.
      cbn [w_ii w_inc w_handles].
      set (hs2 := alter _ (Z.to_nat (w_ii w + 1)) hs).
      assert (Hbefore' : ∀ i, (i < Z.to_nat (w_ii w))%nat → hs2 !! i = w_handles w !! i).
      { intros i Hi. unfold hs2. rewrite list_lookup_alter_ne by lia. now apply Hbefore. }
      destruct (decide (PATH_BUF_LEN ≤ 10 + String.length (d_name item))%nat) as [Hlong|_].
      { specialize (Hname Hdir). lia. }
      destruct (opendir d _) as [subitems|].
      * destruct (regenerate_subdir_in_table (w_ii w + 1) subitems
                    {| w_handles := hs2; w_inc := w_ii w + 1; w_ii := w_ii w + 1 |})
          as (ex & w3 & Hsub & Heq3 & Hle3 & Hnext3 & Hframe3); [apply Hnext|].
        rewrite Hsub. cbn [w_ii w_inc w_handles] in *. destruct ex.
        -- destruct (IH w3) as (ex & w' & Hrun & Heq' & Hle & Hframe).
           { split; [exact Heq3|]. specialize (Hnext3 eq_refl). lia. }
           { exact Hnames. }
           exists ex, w'. split; [exact Hrun|]. split_and!; try done; try lia.
           intros i Hi. rewrite Hframe, Hframe3 by lia. now apply Hbefore'.
        -- exists WalkCleanup, w3. split; [reflexivity|]. split_and!; try done; try lia.
           intros i Hi. rewrite Hframe3 by lia. now apply Hbefore'.
      * destruct (IH {| w_handles := hs2; w_inc := w_ii w + 1; w_ii := w_ii w + 1 |})
          as (ex & w' & Hrun & Heq' & Hle & Hframe); [apply Hnext|exact Hnames|].
        exists ex, w'. cbn [w_ii w_inc w_handles] in *.
        split; [exact Hrun|]. split_and!; try done; try lia.
        intros i Hi. rewrite Hframe by lia. now apply Hbefore'.
    + destruct (IH {| w_handles := hs; w_inc := w_ii w + 1; w_ii := w_ii w + 1 |})
        as (ex & w' & Hrun & Heq' & Hle & Hframe); [apply Hnext|exact Hnames|].
      exists ex, w'. cbn [w_ii w_inc w_handles] in *.
      split; [exact Hrun|]. split_and!; try done; try lia.
      intros i Hi. rewrite Hframe by lia. now apply Hbefore.
Qed.

(** X1.  OpenSession never leaves the table.  In every state the responder
    can reach with no session open, and on a volume whose root directories
    have names that fit [path_buf] behind the prefix, OpenSession returns OK
    with every store of the walk inside [handles[1..31]]: the call is
    defined, the table keeps its 32 slots, slot 0 is not written, the
    allocator ends between 1 and 32, and [handles_used] receives that same
    value.  When the root cannot be opened the session is opened all the
    same, over the table as it was and with the allocator at 1. *)
Theorem open_session_stays_in_table (cb : tud_mtp_cb_data_t) (st : mtp_state fs) :
  reachable st →
  cmd_code cb = MTP_OP_OPEN_SESSION →
  is_session_opened st = false →
  (∀ items, opendir (disk st) "/littlefs" = Some items →
     Forall (fun item => d_type item = DT_DIR →
                         (10 + String.length (d_name item) < PATH_BUF_LEN)%nat) items) →
  ∃ st', fs_open_close_session cb st = Done (respond MTP_RESP_OK NoIO st')
    ∧ is_session_opened st' = true
    ∧ disk st' = disk st
    ∧ length (handles (handle_table st')) = Z.to_nat MTP_HANDLE_TABLE_SIZE
    ∧ handles (handle_table st') !! 0%nat = handles (handle_table st) !! 0%nat
    ∧ 1 ≤ handle_self_inc st' ≤ MTP_HANDLE_TABLE_SIZE
    ∧ (opendir (disk st) "/littlefs" ≠ None →
       handles_used (handle_table st') = handle_self_inc st')
    ∧ (opendir (disk st) "/littlefs" = None →
       handle_table st' = handle_table st ∧ handle_self_inc st' = 1).
Proof.
  intros Hreach Hcode Hclosed Hnames.
  destruct (reachable_invariants st Hreach) as [[Hlen _] Hreset].
  specialize (Hreset Hclosed).
  unfold fs_open_close_session.
  destruct (decide _) as [_|Hne]; [|contradiction]. rewrite Hclosed.
  unfold fs_handletable_regenerate, fs_assign_new_handle.
  cbn [disk handle_self_inc handle_table set_is_session_opened].
  rewrite Hreset. change (to_uint32 (0 + 1)) with 1. change (to_int32 1) with 1.
  destruct (opendir (disk st) "/littlefs") as [items|] eqn:Hroot.
  - destruct (regenerate_root_in_table (disk st) items
                {| w_handles := handles (handle_table st); w_inc := 1; w_ii := 1 |})
      as (ex & w' & Hrun & Heq & Hle & Hframe).
    { split; cbn; [reflexivity|unfold MTP_HANDLE_TABLE_SIZE; lia]. }
    { apply Hnames. reflexivity. }
    rewrite Hrun. cbn [mbind outcome_bind].
    eexists. split; [reflexivity|].
    cbn [w_ii w_inc w_handles] in *. unfold MTP_HANDLE_TABLE_SIZE in *.
    split_and!; cbn; try done; try lia; try (apply Hframe; lia).
    + apply regenerate_root_ok in Hrun as [Hlen' _]; [exact Hlen'|].
      cbn. apply table_ok_slots. now destruct (reachable_invariants st Hreach).
    + intros _. rewrite <- Heq. apply to_uint32_small. lia.
  - cbn [mbind outcome_bind]. eexists. split; [reflexivity|].
    unfold MTP_HANDLE_TABLE_SIZE in *. split_and!; cbn; try done; lia.
Qed.

(** The walk over a root without directories, from slot [a]: one slot per
    entry, as far as the table reaches. *)
Lemma regenerate_root_flat (d : fs) (items : list dirent) (w : walk) (a : nat) :
  walk_in_table w → w_ii w = Z.of_nat a →
  Forall (fun item => d_type item ≠ DT_DIR) items →
  ∃ ex w', regenerate_root d items w = Done (ex, w')
    ∧ w_ii w' = Z.of_nat (a + Nat.min (length items) (32 - a))
    ∧ w_inc w' = w_ii w'
    ∧ (∀ k item, (k < Nat.min (length items) (32 - a))%nat → items !! k = Some item →
         w_handles w' !! (a + k)%nat
         = root_store (Z.of_nat (a + k)) item <$> w_handles w !! (a + k)%nat)
    ∧ (∀ i, (i < a ∨ a + Nat.min (length items) (32 - a) ≤ i)%nat →
         w_handles w' !! i = w_handles w !! i).
Proof.
  revert w a. induction items as [|item rest IH]; intros w a Hw Ha Hflat;
    cbn [regenerate_root].
  - exists WalkNext, w. destruct Hw as [Heq Hrange]. cbn [length].
    rewrite Nat.min_0_l, Nat.add_0_r. split_and!; first [done | intros; lia].
  - apply Forall_cons in Hflat as [Hfile Hflat].
    rewrite write_slot_in_table by exact Hw.
    unfold fs_assign_new_handle. cbn [w_ii w_inc w_handles].
    destruct (walk_in_table_next w Hw) as [Hinc Hii]. rewrite Hii, Hinc.
    destruct Hw as [Heq Hrange]. unfold MTP_HANDLE_TABLE_SIZE in *.
    rewrite (to_uint32_small (w_ii w)) by lia.
    change (fun e => {| handle := w_ii w; parent_handle := 0; is_dir := is_dir e;
                        name := strncpy (d_name item) MTP_FILENAME_LENGTH |})
      with (root_store (w_ii w) item).
    rewrite Ha, Nat2Z.id.
    destruct (decide (Z.of_nat a + 1 >= 32)) as [Hfull|Hroom].
    + eexists WalkCleanup, _. split; [reflexivity|]. cbn [w_ii w_inc w_handles length].
      assert (Hm : Nat.min (S (length rest)) (32 - a) = 1%nat) by lia. rewrite Hm.
      split_and!; try done; try lia.
      * intros k item' Hk Hitem. assert (k = 0%nat) as -> by lia.
        injection Hitem as <-. rewrite Nat.add_0_r. apply list_lookup_alter_eq.
      * intros i Hi. apply list_lookup_alter_ne. lia.
    + destruct (decide (d_type item = DT_DIR)) as [Hdir|_]; [contradiction|].
      destruct (IH {| w_handles := alter (root_store (Z.of_nat a) item) a (w_handles w);
                      w_inc := Z.of_nat a + 1; w_ii := Z.of_nat a + 1 |} (S a))
        as (ex & w' & Hrun & Hii' & Hinc' & Hnew & Hold).
      { unfold walk_in_table, MTP_HANDLE_TABLE_SIZE. cbn [w_ii w_inc]. lia. }
      { cbn [w_ii]. lia. }
      { exact Hflat. }
      exists ex, w'. cbn [w_ii w_inc w_handles length] in *.
      assert (Hm : Nat.min (S (length rest)) (32 - a)
                   = S (Nat.min (length rest) (32 - S a))) by lia.
      rewrite Hm. split; [exact Hrun|]. split_and!; try done.
      * rewrite Hii'. f_equal. lia.
      * intros [|k] item' Hk Hitem.
        -- injection Hitem as <-. rewrite Nat.add_0_r.
           rewrite Hold by lia. apply list_lookup_alter_eq.
        -- cbn in Hitem. replace (a + S k)%nat with (S a + k)%nat by lia.
           rewrite (Hnew k item') by (done || lia).
           now rewrite list_lookup_alter_ne by lia.
      * intros i Hi. rewrite Hold by lia. apply list_lookup_alter_ne. lia.
Qed.

(** X2.  OpenSession over a root without directories.  From any state the
    responder can reach with no session open, the walk gives the [k]-th
    entry of the root ([k] from 1, at most 31 of them) the slot and the
    handle [k], with parent 0 and its name; the directory flag of the slot
    is left as it was.  Slot 0 and the slots after the last entry keep all
    they held, names included.  [handles_used] and the allocator end at the
    number of stored entries plus one. *)
Theorem open_session_flat_root (cb : tud_mtp_cb_data_t) (st : mtp_state fs)
    (items : list dirent) :
  reachable st →
  cmd_code cb = MTP_OP_OPEN_SESSION →
  is_session_opened st = false →
  opendir (disk st) "/littlefs" = Some items →
  Forall (fun item => d_type item ≠ DT_DIR) items →
  ∃ st', fs_open_close_session cb st = Done (respond MTP_RESP_OK NoIO st')
    ∧ handles_used (handle_table st') = Z.of_nat (Nat.min (length items) 31) + 1
    ∧ handle_self_inc st' = Z.of_nat (Nat.min (length items) 31) + 1
    ∧ (∀ k item, (k < 31)%nat → items !! k = Some item →
         handles (handle_table st') !! S k
         = root_store (Z.of_nat (S k)) item <$> handles (handle_table st) !! S k)
    ∧ (∀ i, (i = 0 ∨ Nat.min (length items) 31 < i)%nat →
         handles (handle_table st') !! i = handles (handle_table st) !! i).
Proof.
  intros Hreach Hcode Hclosed Hroot Hflat.
  destruct (reachable_invariants st Hreach) as [_ Hreset].
  specialize (Hreset Hclosed).
  unfold fs_open_close_session.
  destruct (decide _) as [_|Hne]; [|contradiction]. rewrite Hclosed.
  unfold fs_handletable_regenerate, fs_assign_new_handle.
  cbn [disk handle_self_inc handle_table set_is_session_opened].
  rewrite Hreset, Hroot. change (to_uint32 (0 + 1)) with 1. change (to_int32 1) with 1.
  destruct (regenerate_root_flat (disk st) items
              {| w_handles := handles (handle_table st); w_inc := 1; w_ii := 1 |} 1)
    as (ex & w' & Hrun & Hii & Hinc & Hnew & Hold).
  { split; cbn; [reflexivity|unfold MTP_HANDLE_TABLE_SIZE; lia]. }
  { reflexivity. }
  { exact Hflat. }
  rewrite Hrun. cbn [mbind outcome_bind].
  eexists. split; [reflexivity|].
  cbn [w_ii w_inc w_handles] in *. change (32 - 1)%nat with 31%nat in *.
  split_and!; cbn.
  - rewrite Hii. rewrite to_uint32_small; lia.
  - rewrite Hinc, Hii. lia.
  - intros k item Hk Hitem.
    assert (k < length items)%nat by (apply lookup_lt_is_Some; eauto).
    apply (Hnew k item); [lia|exact Hitem].
  - intros i Hi. apply Hold. lia.
Qed.

(** The inner walk, slot by slot. *)
Lemma regenerate_subdir_slots (parent : Z) (items : list dirent) (w : walk) (a : nat) :
  walk_in_table w → w_ii w = Z.of_nat a → 0 ≤ parent < 4294967296 →
  ∃ ex w', regenerate_subdir parent items w = Done (ex, w')
    ∧ w_ii w' = Z.of_nat (a + Nat.min (length items) (32 - a))
    ∧ w_inc w' = w_ii w'
    ∧ (ex = WalkCleanup → w_ii w' = 32)
    ∧ (∀ k item, (k < Nat.min (length items) (32 - a))%nat → items !! k = Some item →
         w_handles w' !! (a + k)%nat
         = child_store parent item <$> w_handles w !! (a + k)%nat)
    ∧ (∀ i, (i < a ∨ a + Nat.min (length items) (32 - a) ≤ i)%nat →
         w_handles w' !! i = w_handles w !! i).
Proof.
  intros Hw Ha Hparent. revert w a Hw Ha.
  induction items as [|item rest IH]; intros w a Hw Ha; cbn [regenerate_subdir].
  - exists WalkNext, w. destruct Hw as [Heq Hrange]. cbn [length].
    rewrite Nat.min_0_l, Nat.add_0_r. split_and!; first [done | intros; lia].
  - rewrite write_slot_in_table by exact Hw.
    unfold fs_assign_new_handle. cbn [w_ii w_inc w_handles].
    destruct (walk_in_table_next w Hw) as [Hinc Hii]. rewrite Hii, Hinc.
    destruct Hw as [Heq Hrange]. unfold MTP_HANDLE_TABLE_SIZE in *.
    rewrite (to_uint32_small parent) by exact Hparent.
    change (fun e => {| handle := handle e; parent_handle := parent;
                        is_dir := bool_decide (d_type item = DT_DIR);
                        name := strncpy (d_name item) MTP_FILENAME_LENGTH |})
      with (child_store parent item).
    rewrite Ha, Nat2Z.id.
    destruct (decide (Z.of_nat a + 1 >= 32)) as [Hfull|Hroom].
    + eexists WalkCleanup, _. split; [reflexivity|]. cbn [w_ii w_inc w_handles length].
      assert (Hm : Nat.min (S (length rest)) (32 - a) = 1%nat) by lia. rewrite Hm.
      split_and!; try done; try lia.
      * intros k item' Hk Hitem. assert (k = 0%nat) as -> by lia.
        injection Hitem as <-. rewrite Nat.add_0_r. apply list_lookup_alter_eq.
      * intros i Hi. apply list_lookup_alter_ne. lia.
    + destruct (IH {| w_handles := alter (child_store parent item) a (w_handles w);
                      w_inc := Z.of_nat a + 1; w_ii := Z.of_nat a + 1 |} (S a))
        as (ex & w' & Hrun & Hii' & Hinc' & Hclean & Hnew & Hold).
      { unfold walk_in_table, MTP_HANDLE_TABLE_SIZE. cbn [w_ii w_inc]. lia. }
      { cbn [w_ii]. lia. }
      exists ex, w'. cbn [w_ii w_inc w_handles length] in *.
      assert (Hm : Nat.min (S (length rest)) (32 - a)
                   = S (Nat.min (length rest) (32 - S a))) by lia.
      rewrite Hm. split; [exact Hrun|]. split_and!; try done.
      * rewrite Hii'. f_equal. lia.
      * intros [|k] item' Hk Hitem.
        -- injection Hitem as <-. rewrite Nat.add_0_r.
           rewrite Hold by lia. apply list_lookup_alter_eq.
        -- cbn in Hitem. replace (a + S k)%nat with (S a + k)%nat by lia.
           rewrite (Hnew k item') by (done || lia).
           now rewrite list_lookup_alter_ne by lia.
      * intros i Hi. rewrite Hold by lia. apply list_lookup_alter_ne. lia.
Qed.

(** The outer walk on a root whose first entry is a directory. *)
Lemma regenerate_root_directory (d : fs) (dir : dirent) (rest subitems : list dirent)
    (w : walk) (a : nat) :
  walk_in_table w → w_ii w = Z.of_nat a →
  (a + 1 + length subitems < 32)%nat →
  d_type dir = DT_DIR →
  Forall (fun item => d_type item = DT_DIR →
                      (10 + String.length (d_name item) < PATH_BUF_LEN)%nat) (dir :: rest) →
  opendir d ("/littlefs/" +:+ d_name dir) = Some subitems →
  ∃ ex w', regenerate_root d (dir :: rest) w = Done (ex, w')
    ∧ w_ii w' = w_inc w'
    ∧ Z.of_nat (a + 1 + length subitems) ≤ w_ii w' ≤ MTP_HANDLE_TABLE_SIZE
    ∧ w_handles w' !! a = root_store (Z.of_nat a) dir <$> w_handles w !! a
    ∧ (∀ k child, subitems !! k = Some child →
         w_handles w' !! (a + 1 + k)%nat
         = child_store (Z.of_nat (a + 1)) child <$> w_handles w !! (a + 1 + k)%nat)
    ∧ (∀ i, (i < a)%nat → w_handles w' !! i = w_handles w !! i).
Proof.
  intros Hw Ha Hroom Hdir Hnames Hsub.
  apply Forall_cons in Hnames as [Hname Hnames]. specialize (Hname Hdir).
  cbn [regenerate_root].
  rewrite write_slot_in_table by exact Hw.
  unfold fs_assign_new_handle. cbn [w_ii w_inc w_handles].
  destruct (walk_in_table_next w Hw) as [Hinc Hii]. rewrite Hii, Hinc.
  destruct Hw as [Heq Hrange]. unfold MTP_HANDLE_TABLE_SIZE in *.
  rewrite (to_uint32_small (w_ii w)) by lia.
  change (fun e => {| handle := w_ii w; parent_handle := 0; is_dir := is_dir e;
                      name := strncpy (d_name dir) MTP_FILENAME_LENGTH |})
    with (root_store (w_ii w) dir).
  rewrite Ha, Nat2Z.id.
  destruct (decide (Z.of_nat a + 1 >= 32)) as [Hfull|_]; [lia|].
  destruct (decide (d_type dir = DT_DIR)) as [_|Hno]; [|contradiction].
  set (hs := alter (root_store (Z.of_nat a) dir) a (w_handles w)).
  rewrite (write_slot_in_table {| w_handles := hs; w_inc := Z.of_nat a + 1;
                                  w_ii := Z.of_nat a + 1 |})
    by (unfold walk_in_table, MTP_HANDLE_TABLE_SIZE; cbn [w_ii w_inc]; lia).
  cbn [w_ii w_inc w_handles].
  replace (Z.to_nat (Z.of_nat a + 1)) with (S a) by lia.
  set (hs2 := alter _ (S a) hs).
  destruct (decide (PATH_BUF_LEN ≤ 10 + String.length (d_name dir))%nat) as [Hlong|_];
    [lia|].
  rewrite Hsub.
  destruct (regenerate_subdir_slots (Z.of_nat a + 1) subitems
              {| w_handles := hs2; w_inc := Z.of_nat a + 1; w_ii := Z.of_nat a + 1 |} (S a))
    as (ex & w3 & Hrun3 & Hii3 & Hinc3 & Hclean3 & Hnew3 & Hold3).
  { unfold walk_in_table, MTP_HANDLE_TABLE_SIZE. cbn [w_ii w_inc]. lia. }
  { cbn [w_ii]. lia. }
  { lia. }
  rewrite Hrun3. cbn [w_ii w_inc w_handles] in *.
  assert (Hm : Nat.min (length subitems) (32 - S a) = length subitems) by lia.
  rewrite Hm in *.
  destruct ex; [|specialize (Hclean3 eq_refl); lia].
  destruct (regenerate_root_in_table d rest w3) as (ex & w' & Hrun & Heq' & Hle & Hframe).
  { unfold walk_in_table, MTP_HANDLE_TABLE_SIZE. lia. }
  { exact Hnames. }
  exists ex, w'. split; [exact Hrun|]. unfold MTP_HANDLE_TABLE_SIZE in *.
  split_and!; try done; try lia.
  - rewrite Hframe by lia. rewrite Hold3 by lia.
    unfold hs2. rewrite list_lookup_alter_ne by lia.
    unfold hs. apply list_lookup_alter_eq.
  - intros k child Hchild.
    assert (Hk : (k < length subitems)%nat) by (apply lookup_lt_is_Some; eauto).
    rewrite Hframe by lia.
    replace (a + 1 + k)%nat with (S a + k)%nat by lia.
    rewrite (Hnew3 k child Hk Hchild).
    replace (Z.of_nat (a + 1)) with (Z.of_nat a + 1) by lia.
    unfold hs2. destruct k as [|k].
    + rewrite Nat.add_0_r, list_lookup_alter_eq.
      unfold hs. rewrite list_lookup_alter_ne by lia.
      now destruct (w_handles w !! S a).
    + rewrite list_lookup_alter_ne by lia.
      unfold hs. now rewrite list_lookup_alter_ne by lia.
  - intros i Hi. rewrite Hframe by lia. rewrite Hold3 by lia.
    unfold hs2. rewrite list_lookup_alter_ne by lia.
    unfold hs. now rewrite list_lookup_alter_ne by lia.
Qed.

(** X3.  The children of a directory point one past the directory.  When
    the first entry of the root is a directory whose content fits the
    table, OpenSession stores the directory in slot 1 under the handle 1
    and leaves its directory flag as the slot had it.  Each of its
    entries is stored in the slots that follow with the parent handle 2,
    not 1, and the [handle] field of those slots is not written: after
    boot it is 0, and the flag of slot 1 is unset. *)
Theorem open_session_directory_children (cb : tud_mtp_cb_data_t) (st : mtp_state fs)
    (dir : dirent) (rest subitems : list dirent) :
  reachable st →
  cmd_code cb = MTP_OP_OPEN_SESSION →
  is_session_opened st = false →
  opendir (disk st) "/littlefs" = Some (dir :: rest) →
  d_type dir = DT_DIR →
  Forall (fun item => d_type item = DT_DIR →
                      (10 + String.length (d_name item) < PATH_BUF_LEN)%nat) (dir :: rest) →
  opendir (disk st) ("/littlefs/" +:+ d_name dir) = Some subitems →
  (length subitems < 30)%nat →
  ∃ st', fs_open_close_session cb st = Done (respond MTP_RESP_OK NoIO st')
    ∧ handles (handle_table st') !! 1%nat
      = root_store 1 dir <$> handles (handle_table st) !! 1%nat
    ∧ (∀ k child, subitems !! k = Some child →
         handles (handle_table st') !! (2 + k)%nat
         = child_store 2 child <$> handles (handle_table st) !! (2 + k)%nat)
    ∧ (handle_table st = initial_table →
       handles (handle_table st') !! 1%nat
       = Some {| handle := 1; parent_handle := 0; is_dir := false;
                 name := strncpy (d_name dir) MTP_FILENAME_LENGTH |}
       ∧ ∀ k child, subitems !! k = Some child →
           handles (handle_table st') !! (2 + k)%nat
           = Some {| handle := 0; parent_handle := 2;
                     is_dir := bool_decide (d_type child = DT_DIR);
                     name := strncpy (d_name child) MTP_FILENAME_LENGTH |}).
Proof.
  intros Hreach Hcode Hclosed Hroot Hdir Hnames Hsub Hcount.
  destruct (reachable_invariants st Hreach) as [_ Hreset].
  specialize (Hreset Hclosed).
  unfold fs_open_close_session.
  destruct (decide _) as [_|Hne]; [|contradiction]. rewrite Hclosed.
  unfold fs_handletable_regenerate, fs_assign_new_handle.
  cbn [disk handle_self_inc handle_table set_is_session_opened].
  rewrite Hreset, Hroot. change (to_uint32 (0 + 1)) with 1. change (to_int32 1) with 1.
  destruct (regenerate_root_directory (disk st) dir rest subitems
              {| w_handles := handles (handle_table st); w_inc := 1; w_ii := 1 |} 1)
    as (ex & w' & Hrun & _ & _ & Hslot & Hchildren & _); try assumption.
  { split; cbn; [reflexivity|unfold MTP_HANDLE_TABLE_SIZE; lia]. }
  { reflexivity. }
  { lia. }
  rewrite Hrun. cbn [mbind outcome_bind].
  eexists. split; [reflexivity|].
  cbn [w_ii w_inc w_handles handle_table handles set_handle_self_inc set_handle_table] in *.
  split_and!.
  - exact Hslot.
  - exact Hchildren.
  - intros Hboot. rewrite Hboot in *.
    change (handles initial_table) with (replicate 32 empty_entry) in *. split.
    + rewrite Hslot. now rewrite lookup_replicate_2 by lia.
    + intros k child Hchild.
      assert (Hk : (k < length subitems)%nat) by (apply lookup_lt_is_Some; eauto).
      pose proof (Hchildren k child Hchild) as Hstored.
      change (1 + 1 + k)%nat with (2 + k)%nat in Hstored. rewrite Hstored.
      now rewrite lookup_replicate_2 by lia.
Qed.

Lemma filter_all {A : Type} (P : A → Prop) `{∀ x, Decision (P x)} (l : list A) :
  Forall P l → filter P l = l.
Proof.
  induction 1 as [|x l Hx _ IH]; [reflexivity|].
  rewrite filter_cons_True by exact Hx. now rewrite IH.
Qed.

Lemma imap_handles (items : list dirent) (a : nat) :
  handle <$> imap (fun k item => {| handle := Z.of_nat (a + k); parent_handle := 0;
                                    is_dir := false; name := d_name item |}) items
  = Z.of_nat <$> seq a (length items).
Proof.
  revert a. induction items as [|item rest IH]; intros a; [reflexivity|].
  cbn [imap fmap list_fmap length seq handle]. rewrite Nat.add_0_r. f_equal.
  rewrite <- (IH (S a)). f_equal. apply imap_ext. intros k x _. cbn.
  do 2 f_equal. lia.
Qed.

(** The table after the first OpenSession on a root of at most 31 files
    with terminated names: slot 0 empty, one slot per file, the rest
    empty. *)
Lemma first_open_flat_table (cb : tud_mtp_cb_data_t) (d : fs) (items : list dirent) :
  cmd_code cb = MTP_OP_OPEN_SESSION →
  opendir d "/littlefs" = Some items →
  (length items ≤ 31)%nat →
  Forall (fun item => d_type item ≠ DT_DIR
                      ∧ (1 ≤ String.length (d_name item) < MTP_FILENAME_LENGTH)%nat) items →
  ∃ st', fs_open_close_session cb (initial_state d) = Done (respond MTP_RESP_OK NoIO st')
    ∧ handles (handle_table st')
      = empty_entry
        :: imap (fun k item => {| handle := Z.of_nat (1 + k); parent_handle := 0;
                                  is_dir := false; name := d_name item |}) items
        ++ replicate (31 - length items) empty_entry
    ∧ handles_used (handle_table st') = Z.of_nat (length items) + 1
    ∧ handle_self_inc st' = Z.of_nat (length items) + 1
    ∧ disk st' = d.
Proof.
  intros Hcode Hroot Hcount Hitems.
  unfold fs_open_close_session.
  destruct (decide _) as [_|Hne]; [|contradiction].
  cbn [is_session_opened initial_state].
  unfold fs_handletable_regenerate, fs_assign_new_handle.
  cbn [disk handle_self_inc handle_table set_is_session_opened initial_state].
  rewrite Hroot. change (to_uint32 (0 + 1)) with 1. change (to_int32 1) with 1.
  destruct (regenerate_root_flat d items
              {| w_handles := handles initial_table; w_inc := 1; w_ii := 1 |} 1)
    as (ex & w' & Hrun & Hii & Hinc & Hnew & Hold).
  { split; cbn; [reflexivity|unfold MTP_HANDLE_TABLE_SIZE; lia]. }
  { reflexivity. }
  { eapply Forall_impl; [exact Hitems|]. now intros item [Hfile _]. }
  rewrite Hrun. cbn [mbind outcome_bind].
  eexists. split; [reflexivity|].
  cbn [w_ii w_inc w_handles] in *. change (32 - 1)%nat with 31%nat in *.
  assert (Hmin : Nat.min (length items) 31 = length items) by lia.
  rewrite Hmin in *.
  cbn [handle_table handles handles_used handle_self_inc disk set_handle_self_inc
       set_handle_table set_is_session_opened initial_state].
  split_and!.
  - apply list_eq. intros [|i].
    + rewrite Hold by lia. reflexivity.
    + rewrite lookup_cons. destruct (decide (i < length items)%nat) as [Hin|Hout].
      * destruct (lookup_lt_is_Some_2 items i Hin) as [item Hitem].
        pose proof (Hnew i item Hin Hitem) as Hstored.
        change (1 + i)%nat with (S i) in Hstored. rewrite Hstored.
        rewrite lookup_app_l by (rewrite length_imap; exact Hin).
        rewrite list_lookup_imap, Hitem.
        change (handles initial_table) with (replicate 32 empty_entry).
        rewrite lookup_replicate_2 by lia. cbn [fmap option_fmap option_map].
        unfold root_store, strncpy. f_equal.
        rewrite Forall_forall in Hitems.
        destruct (Hitems item) as [_ Hlen]; [eapply list_elem_of_lookup_2; exact Hitem|].
        rewrite strtake_all by lia. reflexivity.
      * rewrite Hold by lia.
        rewrite lookup_app_r by (rewrite length_imap; lia). rewrite length_imap.
        change (handles initial_table) with (replicate 32 empty_entry).
        destruct (decide (S i < 32)%nat) as [Hslot|Hpast].
        -- rewrite !lookup_replicate_2 by lia. reflexivity.
        -- assert (replicate 32 empty_entry !! S i = None) as ->
             by (apply lookup_replicate_None; lia).
           symmetry. apply lookup_replicate_None. lia.
  - rewrite Hii. rewrite to_uint32_small; lia.
  - rewrite Hinc, Hii. lia.
  - reflexivity.
Qed.

(** X4.  The first session on a root of files.  When the responder is
    booted on a volume whose root holds at most 31 entries, none of them a
    directory, with names of 1 to 62 characters, OpenSession gives the
    [k]-th entry the handle [k]: each of these handles resolves to the path
    of its file, no other handle is valid, and GetObjectHandles on the
    root lists exactly the handles 1 to the number of files, in order. *)
Theorem first_session_flat_root (cb listing : tud_mtp_cb_data_t) (d : fs)
    (items : list dirent) :
  cmd_code cb = MTP_OP_OPEN_SESSION →
  opendir d "/littlefs" = Some items →
  (length items ≤ 31)%nat →
  Forall (fun item => d_type item ≠ DT_DIR
                      ∧ (1 ≤ String.length (d_name item) < MTP_FILENAME_LENGTH)%nat) items →
  (param0 listing = 4294967295 ∨ param0 listing = SUPPORTED_STORAGE_ID) →
  (param2 listing = 4294967295 ∨ param2 listing = 0) →
  ∃ st', fs_open_close_session cb (initial_state d) = Done (respond MTP_RESP_OK NoIO st')
    ∧ (∀ k item, items !! k = Some item →
         fs_path_from_handle (handle_table st') (Z.of_nat (S k)) PATH_BUF_LEN
         = Done (Some ("/littlefs/" +:+ d_name item)))
    ∧ (∀ h, fs_handle_valid (handle_table st') h = true
            ↔ 1 ≤ h ≤ Z.of_nat (length items))
    ∧ fs_get_object_handles listing st'
      = respond 0 (DataSendHandles (Z.of_nat <$> seq 1 (length items))) st'.
Proof.
  intros Hcode Hroot Hcount Hitems Hstorage Hparent.
  destruct (first_open_flat_table cb d items Hcode Hroot Hcount Hitems)
    as (st' & Hrun & Htable & _ & _ & _).
  exists st'. split; [exact Hrun|].
  assert (Hslot : ∀ k item, items !! k = Some item →
            handles (handle_table st') !! S k
            = Some {| handle := Z.of_nat (1 + k); parent_handle := 0;
                      is_dir := false; name := d_name item |}).
  { intros k item Hitem. rewrite Htable, lookup_cons.
    rewrite lookup_app_l by (rewrite length_imap; apply lookup_lt_is_Some; eauto).
    now rewrite list_lookup_imap, Hitem. }
  assert (Hlive : ∀ e, e ∈ handles (handle_table st') → name e ≠ "" →
            ∃ k item, items !! k = Some item
              ∧ e = {| handle := Z.of_nat (1 + k); parent_handle := 0;
                       is_dir := false; name := d_name item |}).
  { intros e He Hname. rewrite Htable in He.
    apply elem_of_cons in He as [->|He]; [done|].
    apply elem_of_app in He as [He|He].
    - apply list_elem_of_lookup in He as [k Hk].
      rewrite list_lookup_imap in Hk.
      destruct (items !! k) as [item|] eqn:Hitem; [|discriminate].
      injection Hk as <-. eauto.
    - apply elem_of_replicate in He as [-> _]. done. }
  assert (Hnonempty : ∀ k item, items !! k = Some item → d_name item ≠ "").
  { intros k item Hitem. rewrite Forall_forall in Hitems.
    destruct (Hitems item) as [_ Hlen]; [eapply list_elem_of_lookup_2; exact Hitem|].
    intros Hempty. rewrite Hempty in Hlen. cbn in Hlen. lia. }
  split_and!.
  - intros k item Hitem.
    assert (Hvalid : fs_handle_valid (handle_table st') (Z.of_nat (S k)) = true).
    { apply fs_handle_valid_true. eexists. split; [|split].
      - eapply list_elem_of_lookup_2. apply (Hslot k item Hitem).
      - reflexivity.
      - cbn. eapply Hnonempty. exact Hitem. }
    assert (Hfind : fs_get_handle_entry (handle_table st') (Z.of_nat (S k))
                    = Some (S k, {| handle := Z.of_nat (1 + k); parent_handle := 0;
                                    is_dir := false; name := d_name item |})).
    { unfold fs_get_handle_entry. apply list_find_Some. split_and!.
      - apply (Hslot k item Hitem).
      - reflexivity.
      - intros j y Hy Hj. rewrite Htable in Hy. destruct j as [|j].
        + injection Hy as <-. cbn. lia.
        + rewrite lookup_cons in Hy.
          rewrite lookup_app_l in Hy
            by (rewrite length_imap;
                assert (k < length items)%nat by (apply lookup_lt_is_Some; eauto); lia).
          rewrite list_lookup_imap in Hy.
          destruct (items !! j); [|discriminate]. injection Hy as <-. cbn. lia. }
    unfold fs_path_from_handle. rewrite Hvalid, Hfind. cbn [negb parent_handle name].
    destruct (decide (0 ≠ 0)) as [Hne|_]; [contradiction|].
    rewrite path_top_level; [reflexivity|].
    rewrite Forall_forall in Hitems.
    destruct (Hitems item) as [_ Hlen]; [eapply list_elem_of_lookup_2; exact Hitem|]. lia.
  - intros h. rewrite fs_handle_valid_true. split.
    + intros (e & He & Hh & Hname).
      destruct (Hlive e He Hname) as (k & item & Hitem & ->). cbn in Hh. subst h.
      assert (k < length items)%nat by (apply lookup_lt_is_Some; eauto). lia.
    + intros Hh.
      destruct (lookup_lt_is_Some_2 items (Z.to_nat (h - 1))) as [item Hitem]; [lia|].
      eexists. split; [|split].
      * eapply list_elem_of_lookup_2. apply (Hslot _ item Hitem).
      * cbn. lia.
      * cbn. eapply Hnonempty. exact Hitem.
  - unfold fs_get_object_handles.
    destruct (decide _) as [[Hall Hsup]|_]; [destruct Hstorage; contradiction|].
    assert (Hroot_handle : (if decide (param2 listing = 4294967295) then 0
                            else param2 listing) = 0)
      by (destruct (decide _); [reflexivity|destruct Hparent; [contradiction|assumption]]).
    rewrite Hroot_handle, Htable. do 3 f_equal.
    rewrite filter_cons_False by (cbn; intros [_ Hname]; done).
    rewrite filter_app.
    rewrite (filter_none _ (replicate _ _))
      by (intros e [-> _]%elem_of_replicate [_ Hname]; done).
    rewrite app_nil_r. rewrite filter_all.
    + apply (imap_handles items 1).
    + apply Forall_forall. intros e [k Hk]%list_elem_of_lookup.
      rewrite list_lookup_imap in Hk.
      destruct (items !! k) as [item|] eqn:Hitem; [|discriminate].
      injection Hk as <-. cbn. split; [reflexivity|]. eapply Hnonempty. exact Hitem.
Qed.

(** The path of an object of the root found in the first slot that carries
    its handle. *)
Lemma fs_path_from_handle_root_slot (tbl : fs_handletable) (h : Z) (i : nat)
    (e : fs_handletable_entry_t) :
  handles tbl !! i = Some e → handle e = h → name e ≠ "" → parent_handle e = 0 →
  (String.length (name e) ≤ MTP_FILENAME_LENGTH)%nat →
  (∀ j y, handles tbl !! j = Some y → (j < i)%nat → handle y ≠ h) →
  fs_get_handle_entry tbl h = Some (i, e)
  ∧ fs_path_from_handle tbl h PATH_BUF_LEN = Done (Some ("/littlefs/" +:+ name e)).
Proof.
  intros Hi Hh Hname Hparent Hlen Hfirst.
  assert (Hfind : fs_get_handle_entry tbl h = Some (i, e)).
  { unfold fs_get_handle_entry. apply list_find_Some. split_and!; [done|done|].
    intros j y Hy Hj. now apply (Hfirst j y). }
  split; [exact Hfind|].
  assert (Hvalid : fs_handle_valid tbl h = true).
  { apply fs_handle_valid_true. exists e. split_and!; try done.
    eapply list_elem_of_lookup_2. exact Hi. }
  unfold fs_path_from_handle. rewrite Hvalid, Hfind. cbn [negb]. rewrite Hparent.
  destruct (decide (0 ≠ 0)) as [Hne|_]; [contradiction|].
  now rewrite path_top_level by exact Hlen.
Qed.

(** X5.  A directory of the root is announced as a plain file.  In the
    first session after boot on a volume whose root starts with a
    directory (name of 1 to 62 characters, content that fits the table),
    handle 1 denotes that directory, and GetObjectInfo on it reports the
    size that [stat] gives, parent 0 and the name of the directory, with
    the association type Undefined: the walk has set the directory flag
    of slot 2, not of the directory's own slot 1. *)
Theorem first_directory_is_announced_as_a_file (cb info : tud_mtp_cb_data_t) (d : fs)
    (dir : dirent) (rest subitems : list dirent) (sb : stat_t) :
  cmd_code cb = MTP_OP_OPEN_SESSION →
  opendir d "/littlefs" = Some (dir :: rest) →
  d_type dir = DT_DIR →
  (1 ≤ String.length (d_name dir) < MTP_FILENAME_LENGTH)%nat →
  Forall (fun item => d_type item = DT_DIR →
                      (10 + String.length (d_name item) < PATH_BUF_LEN)%nat) rest →
  opendir d ("/littlefs/" +:+ d_name dir) = Some subitems →
  (length subitems < 30)%nat →
  stat d ("/littlefs/" +:+ d_name dir) = Some sb →
  param0 info = 1 →
  ∃ st', fs_open_close_session cb (initial_state d) = Done (respond MTP_RESP_OK NoIO st')
    ∧ fs_handle_valid (handle_table st') 1 = true
    ∧ fs_get_object_info info st'
      = Done (respond 0
                (DataSendObjectInfo 0 MTP_ASSOCIATION_UNDEFINED (st_size sb) (d_name dir))
                st').
Proof.
  intros Hcode Hroot Hdir Hlen Hnames Hsub Hcount Hstat Hinfo.
  unfold MTP_FILENAME_LENGTH in Hlen.
  unfold fs_open_close_session.
  destruct (decide _) as [_|Hne]; [|contradiction].
  cbn [is_session_opened initial_state].
  unfold fs_handletable_regenerate, fs_assign_new_handle.
  cbn [disk handle_self_inc handle_table set_is_session_opened initial_state].
  rewrite Hroot. change (to_uint32 (0 + 1)) with 1. change (to_int32 1) with 1.
  destruct (regenerate_root_directory d dir rest subitems
              {| w_handles := handles initial_table; w_inc := 1; w_ii := 1 |} 1)
    as (ex & w' & Hrun & _ & _ & Hslot & _ & Hframe); try assumption.
  { split; cbn; [reflexivity|unfold MTP_HANDLE_TABLE_SIZE; lia]. }
  { reflexivity. }
  { lia. }
  { apply Forall_cons. split; [|exact Hnames]. intros _. unfold PATH_BUF_LEN. lia. }
  rewrite Hrun. cbn [mbind outcome_bind].
  eexists. split; [reflexivity|].
  cbn [w_ii w_inc w_handles] in *.
  change (handles initial_table) with (replicate 32 empty_entry) in *.
  rewrite lookup_replicate_2 in Hslot by lia. cbn [fmap option_fmap option_map] in Hslot.
  assert (Hcopy : strncpy (d_name dir) MTP_FILENAME_LENGTH = d_name dir)
    by (unfold strncpy, MTP_FILENAME_LENGTH; apply strtake_all; lia).
  unfold root_store in Hslot. rewrite Hcopy in Hslot. cbn [is_dir empty_entry] in Hslot.
  set (tbl' := {| handles := w_handles w'; handles_used := to_uint32 (w_ii w') |}).
  destruct (fs_path_from_handle_root_slot tbl' 1 1
              {| handle := 1; parent_handle := 0; is_dir := false; name := d_name dir |})
    as [Hfind Hpath]; try done.
  { cbn [name]. intros Hempty. rewrite Hempty in Hlen. cbn in Hlen. lia. }
  { cbn [name]. unfold MTP_FILENAME_LENGTH. lia. }
  { intros j y Hy Hj. assert (j = 0%nat) as -> by lia.
    cbn [handles tbl'] in Hy. rewrite Hframe in Hy by lia.
    rewrite lookup_replicate_2 in Hy by lia. injection Hy as <-. discriminate. }
  cbn [name] in Hpath. split.
  - apply fs_handle_valid_true.
    exists {| handle := 1; parent_handle := 0; is_dir := false; name := d_name dir |}.
    split_and!; try done.
    + eapply list_elem_of_lookup_2. exact Hslot.
    + cbn [name]. intros Hempty. rewrite Hempty in Hlen. cbn in Hlen. lia.
  - unfold fs_get_object_info, fs_stat_handle. rewrite Hinfo.
    cbn [handle_table disk set_handle_self_inc set_handle_table set_is_session_opened
         initial_state].
    fold tbl'. rewrite Hpath. cbn [mbind outcome_bind]. rewrite Hstat, Hfind.
    reflexivity.
Qed.

End SessionOpen.

(** * The allocator inside a session *)
Section Allocation.

Context {fs : Type} `{FileSystem fs} `{Platform}.




























End Allocation.

(** * The life of an object: creation, transfer, deletion *)
Section Objects.

Context {fs : Type} `{FileSystem fs} `{Platform}.

(** ** Deleting a handle *)

Lemma fs_handle_valid_handles (tbl tbl' : fs_handletable) (h : Z) :
  handles tbl' = handles tbl → fs_handle_valid tbl' h = fs_handle_valid tbl h.
Proof. unfold fs_handle_valid. now intros ->. Qed.

Lemma filter_length_insert {A : Type} (P : A → Prop) `{∀ x, Decision (P x)}
    (l : list A) (ii : nat) (x y : A) :
  l !! ii = Some x → P x → ¬ P y →
  (length (filter P (<[ii := y]> l)) + 1 = length (filter P l))%nat.
Proof.
  intros Hi HP HnP.
  rewrite insert_take_drop by (eapply lookup_lt_Some; exact Hi).
  assert (Hl : filter P l = filter P (take ii l ++ x :: drop (S ii) l))
    by (now rewrite take_drop_middle).
  rewrite Hl, !filter_app, !length_app.
  rewrite filter_cons_False by exact HnP.
  rewrite filter_cons_True by exact HP. cbn [length]. lia.
Qed.

Lemma fs_delete_handle_invalid (tbl : fs_handletable) (h : Z) :
  fs_handle_valid tbl h = false → fs_delete_handle tbl h = (- ENOENT, tbl).
Proof.
  intros Hv. unfold fs_delete_handle.
  destruct (list_find _ _) as [[ii e]|] eqn:Hf; [|reflexivity].
  apply list_find_Some in Hf as (Hi & [Hh Hn] & _).
  assert (Hvalid : fs_handle_valid tbl h = true).
  { apply fs_handle_valid_true. exists e. split_and!; try done.
    eapply list_elem_of_lookup_2. exact Hi. }
  congruence.
Qed.

Lemma fs_delete_handle_valid (tbl : fs_handletable) (h : Z) :
  fs_handle_valid tbl h = true →
  ∃ ii e, handles tbl !! ii = Some e ∧ handle e = h ∧ name e ≠ ""
    ∧ fs_delete_handle tbl h
      = (0, {| handles := <[ii := clear_name e]> (handles tbl);
               handles_used := to_uint32 (handles_used tbl - 1) |}).
Proof.
  intros [[ii e] Hf]%fs_handle_valid_live_slot.
  exists ii, e. unfold fs_delete_handle. rewrite Hf.
  apply list_find_Some in Hf as (Hi & [Hh Hn] & _). done.
Qed.

Lemma fs_handle_valid_clear_other (l : list fs_handletable_entry_t) (u u' : Z)
    (ii : nat) (e : fs_handletable_entry_t) (h' : Z) :
  l !! ii = Some e → handle e ≠ h' →
  fs_handle_valid {| handles := <[ii := clear_name e]> l; handles_used := u |} h'
  = fs_handle_valid {| handles := l; handles_used := u' |} h'.
Proof.
  intros Hi Hne. apply eq_true_iff_eq. rewrite !fs_handle_valid_true. cbn [handles].
  split; intros (x & [j Hj]%list_elem_of_lookup & Hh & Hn); exists x.
  - split_and!; try done. destruct (decide (ii = j)) as [<-|Hij].
    + rewrite list_lookup_insert_eq in Hj by (eapply lookup_lt_Some; exact Hi).
      injection Hj as <-. done.
    + rewrite list_lookup_insert_ne in Hj by exact Hij.
      eapply list_elem_of_lookup_2. exact Hj.
  - split_and!; try done. apply list_elem_of_lookup. exists j.
    rewrite list_lookup_insert_ne; [exact Hj|].
    intros ->. rewrite Hi in Hj. injection Hj as <-. contradiction.
Qed.

Lemma fs_handle_valid_clear_unique (l : list fs_handletable_entry_t) (u : Z)
    (ii : nat) (e : fs_handletable_entry_t) :
  l !! ii = Some e → name e ≠ "" →
  length (filter (fun x => handle x = handle e ∧ name x ≠ "") l) = 1%nat →
  fs_handle_valid {| handles := <[ii := clear_name e]> l; handles_used := u |} (handle e)
  = false.
Proof.
  intros Hi Hn Hone.
  pose proof (filter_length_insert (fun x => handle x = handle e ∧ name x ≠ "")
                l ii e (clear_name e) Hi (conj eq_refl Hn)) as Hcount.
  rewrite Hone in Hcount.
  destruct (fs_handle_valid _ _) eqn:Hv; [|reflexivity].
  apply fs_handle_valid_true in Hv as (x & Hx & Hh & Hname). cbn [handles] in Hx.
  assert (Hin : x ∈ filter (fun x => handle x = handle e ∧ name x ≠ "")
                       (<[ii := clear_name e]> l))
    by (apply list_elem_of_filter; done).
  destruct (filter _ (<[ii := clear_name e]> l)) as [|y rest] eqn:Hf.
  - now apply elem_of_nil in Hin.
  - exfalso. assert (Hgoal : ¬ (handle (clear_name e) = handle e ∧ name (clear_name e) ≠ ""))
      by (cbn; intros [_ Hbad]; done).
    specialize (Hcount Hgoal). cbn [length] in Hcount. lia.
Qed.

(** X6.  [fs_delete_handle] succeeds exactly on valid handles.  On a
    handle that no in-use slot carries it returns [-ENOENT] and leaves the
    table as it was.  On a valid handle it returns 0, frees exactly one
    in-use slot, decrements [handles_used] (in [uint32_t]), keeps the
    number of slots, and changes the validity of no other handle; the
    handle itself stops being valid when only one in-use slot carried
    it. *)
Theorem fs_delete_handle_frees_one_slot (tbl : fs_handletable) (h : Z) :
  (fs_handle_valid tbl h = false → fs_delete_handle tbl h = (- ENOENT, tbl))
  ∧ (fs_handle_valid tbl h = true →
     ∃ tbl', fs_delete_handle tbl h = (0, tbl')
       ∧ length (handles tbl') = length (handles tbl)
       ∧ handles_used tbl' = to_uint32 (handles_used tbl - 1)
       ∧ (length (live_entries tbl') + 1 = length (live_entries tbl))%nat
       ∧ (∀ h', h' ≠ h → fs_handle_valid tbl' h' = fs_handle_valid tbl h')
       ∧ (length (filter (fun e => handle e = h ∧ name e ≠ "") (handles tbl)) = 1%nat →
          fs_handle_valid tbl' h = false)).
Proof.
  split; [apply fs_delete_handle_invalid|].
  intros (ii & e & Hi & Hh & Hn & Hdel)%fs_delete_handle_valid.
  eexists. split; [exact Hdel|]. cbn [handles handles_used]. split_and!.
  - apply length_insert.
  - reflexivity.
  - unfold live_entries. cbn [handles].
    apply (filter_length_insert (fun x => name x ≠ "") _ ii e); [exact Hi|exact Hn|].
    cbn. intros Hbad. done.
  - intros h' Hne. destruct tbl as [l u]. cbn [handles handles_used] in *.
    apply fs_handle_valid_clear_other; [exact Hi|congruence].
  - intros Hone. subst h. apply fs_handle_valid_clear_unique; assumption.
Qed.

(** ** Deleting an object *)

Lemma fs_delete_object_ok_inv (cb : tud_mtp_cb_data_t) (st : mtp_state fs) (r : reply fs) :
  fs_delete_object cb st = Done r → r_code r = MTP_RESP_OK →
  is_session_opened st = true
  ∧ fs_handle_valid (handle_table st) (param0 cb) = true
  ∧ ∃ d', r_state r
          = set_handle_table (set_disk st d')
              (fs_delete_handle (handle_table st) (param0 cb)).2.
Proof.
  unfold fs_delete_object.
  destruct (is_session_opened st); cbn [negb];
    [|intros Hrun; injection Hrun as <-; discriminate].
  destruct (fs_path_from_handle _ _ _) as [[pathbuf|]| |] eqn:Hpath;
    cbn [mbind outcome_bind]; try discriminate;
    [|intros Hrun; injection Hrun as <-; discriminate].
  apply fs_path_from_handle_valid in Hpath.
  destruct (fs_stat_handle _ _ _) as [[retval|sb entry]| |]; cbn [mbind outcome_bind];
    try discriminate; [intros Hrun; injection Hrun as <-; discriminate|].
  destruct (st_is_dir sb); [intros Hrun; injection Hrun as <-; discriminate|].
  destruct (fs_delete_handle _ _) as [rc tbl'].
  intros Hrun _. injection Hrun as <-. split_and!; try done.
  eexists. reflexivity.
Qed.

(** X7.  A deleted object is gone for the rest of the session.  After
    DeleteObject has answered OK for a handle that one in-use slot
    carried, the handle is no longer valid: a second DeleteObject and
    GetObjectInfo on it answer InvalidObjectHandle and leave the state as
    it is, and no listing by GetObjectHandles contains it. *)
Theorem deleted_object_is_gone (cb : tud_mtp_cb_data_t) (st : mtp_state fs) (r : reply fs) :
  fs_delete_object cb st = Done r →
  r_code r = MTP_RESP_OK →
  length (filter (fun e => handle e = param0 cb ∧ name e ≠ "")
            (handles (handle_table st))) = 1%nat →
  fs_handle_valid (handle_table (r_state r)) (param0 cb) = false
  ∧ fs_delete_object cb (r_state r)
    = Done (respond MTP_RESP_INVALID_OBJECT_HANDLE NoIO (r_state r))
  ∧ (∀ info, param0 info = param0 cb →
       fs_get_object_info info (r_state r)
       = Done (respond MTP_RESP_INVALID_OBJECT_HANDLE NoIO (r_state r)))
  ∧ (∀ listing hs,
       r_io (fs_get_object_handles listing (r_state r)) = DataSendHandles hs →
       param0 cb ∉ hs).
Proof.
  intros Hrun Hcode Hone.
  destruct (fs_delete_object_ok_inv cb st r Hrun Hcode) as (Hopen & Hvalid & d' & Hstate).
  destruct (fs_delete_handle_valid _ _ Hvalid) as (ii & e & Hi & Hh & Hn & Hdel).
  rewrite Hdel in Hstate. cbn [snd] in Hstate.
  assert (Hgone : fs_handle_valid (handle_table (r_state r)) (param0 cb) = false).
  { rewrite Hstate. cbn [handle_table set_handle_table]. rewrite <- Hh.
    apply fs_handle_valid_clear_unique; [exact Hi|exact Hn|]. now rewrite Hh. }
  assert (Hopen' : is_session_opened (r_state r) = true) by (now rewrite Hstate).
  split_and!.
  - exact Hgone.
  - unfold fs_delete_object. rewrite Hopen'. cbn [negb].
    now rewrite fs_path_from_handle_invalid by exact Hgone.
  - intros info Hsame. unfold fs_get_object_info, fs_stat_handle. rewrite Hsame.
    now rewrite fs_path_from_handle_invalid by exact Hgone.
  - intros listing hs. unfold fs_get_object_handles.
    destruct (decide _); cbn [r_io respond]; [discriminate|].
    intros Hio. injection Hio as <-.
    intros (x & Hx & [[_ Hname] Hin]%list_elem_of_filter)%list_elem_of_fmap.
    assert (Hv : fs_handle_valid (handle_table (r_state r)) (param0 cb) = true)
      by (apply fs_handle_valid_true; exists x; done).
    congruence.
Qed.

(** ** Creating a file *)

(** The creation of a file under a handle that no slot carries yet. *)
Lemma fs_create_file_fresh (st : mtp_state fs) (parent : Z) (nm : string)
    (slot : nat) (e : fs_handletable_entry_t) (d' : fs) :
  (1 ≤ String.length nm < MTP_FILENAME_LENGTH)%nat →
  (parent ≠ 0 → ∃ i p, fs_get_handle_entry (handle_table st) parent = Some (i, p)
                       ∧ name p ≠ "") →
  fs_handletable_find_empty_entry (handle_table st) = Some (slot, e) →
  fs_get_handle_entry (handle_table st) (to_uint32 (handle_self_inc st + 1)) = None →
  fopen_w (disk st) (fs_path_create (handle_table st) parent nm PATH_BUF_LEN).2 = Some d' →
  ∃ st', fs_create_file st parent nm = (to_uint32 (handle_self_inc st + 1), st')
    ∧ handles (handle_table st')
      = <[slot := {| handle := to_uint32 (handle_self_inc st + 1);
                     parent_handle := parent; is_dir := is_dir e; name := nm |}]>
          (handles (handle_table st))
    ∧ handles_used (handle_table st') = to_uint32 (handles_used (handle_table st) + 1)
    ∧ handle_self_inc st' = to_uint32 (handle_self_inc st + 1)
    ∧ current_handle st' = to_uint32 (handle_self_inc st + 1)
    ∧ current_file st'
      = Some {| f_path := (fs_path_create (handle_table st) parent nm PATH_BUF_LEN).2;
                f_write := true; f_pos := 0 |}
    ∧ disk st' = d'
    ∧ is_session_opened st' = is_session_opened st
    ∧ current_file_size st' = current_file_size st
    ∧ fs_handle_valid (handle_table st') (to_uint32 (handle_self_inc st + 1)) = true
    ∧ fs_get_handle_entry (handle_table st') (to_uint32 (handle_self_inc st + 1))
      = Some (slot, {| handle := to_uint32 (handle_self_inc st + 1);
                       parent_handle := parent; is_dir := is_dir e; name := nm |})
    ∧ fs_path_from_handle (handle_table st') (to_uint32 (handle_self_inc st + 1))
        PATH_BUF_LEN
      = Done (Some (fs_path_create (handle_table st) parent nm PATH_BUF_LEN).2).
Proof.
  intros Hlen Hparent Hslot Hfresh Hopen.
  set (h := to_uint32 (handle_self_inc st + 1)) in *.
  assert (Hcopy : strlcpy nm MTP_FILENAME_LENGTH = nm).
  { unfold strlcpy. apply strtake_all. unfold MTP_FILENAME_LENGTH in *. lia. }
  assert (Hnm : nm ≠ "") by (intros ->; cbn in Hlen; lia).
  assert (Hpath : fs_path_create (handle_table st) parent nm PATH_BUF_LEN
                  = (0, (fs_path_create (handle_table st) parent nm PATH_BUF_LEN).2)).
  { unfold fs_path_create. destruct (decide (parent ≠ 0)) as [Hne|_]; [|reflexivity].
    destruct (Hparent Hne) as (i & p & -> & _). reflexivity. }
  set (pathbuf := (fs_path_create (handle_table st) parent nm PATH_BUF_LEN).2) in *.
  pose proof Hslot as Hslot'.
  apply list_find_Some in Hslot' as (Hi & Hempty & _).
  assert (Hbound : (slot < length (handles (handle_table st)))%nat)
    by (eapply lookup_lt_Some; exact Hi).
  pose proof Hfresh as Hfresh'. apply list_find_None in Hfresh'.
  rewrite Forall_forall in Hfresh'.
  set (entry := {| handle := h; parent_handle := parent; is_dir := is_dir e; name := nm |}).
  set (hs' := <[slot := entry]> (handles (handle_table st))).
  assert (Hcreate : fs_create_file st parent nm
                    = (h, set_handle_table
                            (set_current_handle
                               (set_current_file
                                  (set_disk (set_handle_self_inc st h) d')
                                  (Some {| f_path := pathbuf; f_write := true; f_pos := 0 |}))
                               h)
                            {| handles := hs';
                               handles_used :=
                                 to_uint32 (handles_used (handle_table st) + 1) |})).
  { unfold fs_create_file. rewrite Hpath.
    destruct (decide (0 ≠ 0)) as [Hne|_]; [contradiction|].
    rewrite Hslot. unfold fs_assign_new_handle. fold h.
    rewrite Hopen, Hcopy. reflexivity. }
  eexists. split; [exact Hcreate|].
  cbn [handle_table handles handles_used handle_self_inc current_handle current_file disk
       is_session_opened current_file_size
       set_handle_table set_current_handle set_current_file set_disk set_handle_self_inc].
  assert (Hvalid : fs_handle_valid {| handles := hs';
                     handles_used := to_uint32 (handles_used (handle_table st) + 1) |} h
                   = true).
  { apply fs_handle_valid_true. exists entry. split_and!; try done.
    eapply list_elem_of_lookup_2. apply list_lookup_insert_eq. exact Hbound. }
  assert (Hfind : fs_get_handle_entry {| handles := hs';
                    handles_used := to_uint32 (handles_used (handle_table st) + 1) |} h
                  = Some (slot, entry)).
  { unfold fs_get_handle_entry. apply list_find_Some. cbn [handles]. split_and!.
    - apply list_lookup_insert_eq. exact Hbound.
    - reflexivity.
    - intros j y Hy Hj. unfold hs' in Hy.
      rewrite list_lookup_insert_ne in Hy by lia.
      apply Hfresh'. eapply list_elem_of_lookup_2. exact Hy. }
  split_and!; try reflexivity; try assumption.
  unfold fs_path_from_handle. rewrite Hvalid, Hfind. cbn [negb parent_handle name entry].
  unfold pathbuf, fs_path_create.
  destruct (decide (parent ≠ 0)) as [Hne|_]; [|reflexivity].
  destruct (Hparent Hne) as (i & p & Hp & Hpname).
  assert (Hp' : fs_get_handle_entry {| handles := hs';
                    handles_used := to_uint32 (handles_used (handle_table st) + 1) |} parent
                = Some (i, p)).
  { pose proof Hp as Hp0. apply list_find_Some in Hp0 as (Hpi & Hph & Hpmin).
    assert (Hislot : i ≠ slot).
    { intros ->. rewrite Hi in Hpi. injection Hpi as ->. contradiction. }
    unfold fs_get_handle_entry. apply list_find_Some. cbn [handles]. split_and!.
    - unfold hs'. rewrite list_lookup_insert_ne by congruence. exact Hpi.
    - exact Hph.
    - intros j y Hy Hj. unfold hs' in Hy. destruct (decide (slot = j)) as [<-|Hsj].
      + rewrite list_lookup_insert_eq in Hy by exact Hbound. injection Hy as <-.
        cbn [handle entry]. intros Hbad.
        apply (Hfresh' p); [eapply list_elem_of_lookup_2; exact Hpi|congruence].
      + rewrite list_lookup_insert_ne in Hy by exact Hsj. eapply Hpmin; eassumption. }
  rewrite Hp', Hp. reflexivity.
Qed.


(** X9.  A failed creation leaves no trace in the table.  Unless the
    allocator is one step before [0xFFFFFFFF] (where a successful creation
    returns the value of [FS_INVALID_HANDLE]), a call of [fs_create_file]
    that returns [FS_INVALID_HANDLE] has changed neither the table nor the
    volume nor the current handle.  Either the whole state is as it was
    (the parent has no slot, or no slot is free), or [fopen] failed: then
    the allocator has moved on by one handle and [current_file] is null. *)
Theorem fs_create_file_failure (st : mtp_state fs) (parent : Z) (nm : string) :
  to_uint32 (handle_self_inc st + 1) ≠ FS_INVALID_HANDLE →
  (fs_create_file st parent nm).1 = FS_INVALID_HANDLE →
  handle_table (fs_create_file st parent nm).2 = handle_table st
  ∧ disk (fs_create_file st parent nm).2 = disk st
  ∧ current_handle (fs_create_file st parent nm).2 = current_handle st
  ∧ ((fs_create_file st parent nm).2 = st
     ∨ (fopen_w (disk st) (fs_path_create (handle_table st) parent nm PATH_BUF_LEN).2 = None
        ∧ (fs_create_file st parent nm).2
          = set_current_file
              (set_handle_self_inc st (to_uint32 (handle_self_inc st + 1))) None)).
Proof.
  intros Hnext. unfold fs_create_file.
  destruct (fs_path_create _ _ _ _) as [retval pathbuf].
  destruct (decide (retval ≠ 0)); [intros _; split_and!; try reflexivity; now left|].
  destruct (fs_handletable_find_empty_entry _) as [[slot e]|];
    [|intros _; split_and!; try reflexivity; now left].
  unfold fs_assign_new_handle. cbn [snd].
  destruct (fopen_w (disk st) pathbuf) as [d'|] eqn:Hopen.
  - cbn [fst]. intros Hbad. contradiction.
  - intros _. split_and!; try reflexivity. right. split; reflexivity.
Qed.

(** ** SendObjectInfo and the response that follows it *)

(** A SendObjectInfo data phase for a plain file that passes every check
    returns 0 with the state that [fs_create_file] leaves, whatever
    [fs_create_file] returned, and the announced size. *)
Lemma fs_send_object_info_creates (cb : tud_mtp_cb_data_t) (st : mtp_state fs) :
  is_session_opened st = true →
  (param0 cb = 4294967295 ∨ param0 cb = SUPPORTED_STORAGE_ID) →
  phase cb = MTP_PHASE_DATA →
  (oi_storage_id (payload_obj_info cb) = 0
   ∨ oi_storage_id (payload_obj_info cb) = SUPPORTED_STORAGE_ID) →
  (object_info_parent (payload_obj_info cb) = 0
   ∨ ∃ sb entry,
       fs_stat_handle (handle_table st) (disk st)
         (object_info_parent (payload_obj_info cb)) = Done (StatHandleOk sb entry)
       ∧ st_is_dir sb = true) →
  oi_association_type (payload_obj_info cb) = MTP_ASSOCIATION_UNDEFINED →
  fs_can_create_file (handle_table st) (disk st)
    (oi_object_compressed_size (payload_obj_info cb)) = true →
  fs_send_object_info cb st
  = Done (respond 0 NoIO
            (set_current_file_size
               (fs_create_file st (object_info_parent (payload_obj_info cb))
                  (utf16_to_utf8 (payload_filename cb) MTP_FILENAME_LENGTH)).2
               (oi_object_compressed_size (payload_obj_info cb)))).
Proof.
  intros Hopen Hsid Hphase Hoid Hparent Hassoc Hroom.
  unfold fs_send_object_info. rewrite Hopen. cbn [negb].
  rewrite (guard_passes _ _ _ _ Hsid), Hphase, (guard_passes _ _ _ _ Hoid).
  assert (Hok : (if decide (object_info_parent (payload_obj_info cb) ≠ 0) then
                   r ← fs_stat_handle (handle_table st) (disk st)
                         (object_info_parent (payload_obj_info cb));
                   match r with
                   | StatHandleFail _ => Done false
                   | StatHandleOk sb _ => Done (st_is_dir sb)
                   end
                 else Done true) = Done true).
  { destruct (decide (object_info_parent (payload_obj_info cb) ≠ 0)) as [Hne|_];
      [|reflexivity].
    destruct Hparent as [Hzero|(sb & entry & Hstat & Hdir)]; [contradiction|].
    rewrite Hstat. cbn. now rewrite Hdir. }
  rewrite Hok. cbn [mbind outcome_bind negb].
  destruct (decide (oi_association_type (payload_obj_info cb) = MTP_ASSOCIATION_UNDEFINED))
    as [_|Hne]; [|contradiction].
  rewrite Hroom. cbn [negb].
  destruct (fs_create_file _ _ _) as [hnew st1]. reflexivity.
Qed.

(** X10.  SendObjectInfo for a file and its response.  A data phase that
    passes the session, storage, parent and capacity checks, with a name
    of 1 to 62 characters, a free slot, a next handle that no slot carries
    and a successful [fopen], returns 0 without sending anything; the
    state then holds the announced size for SendObject, and
    [tud_mtp_data_complete_cb] answers OK with the three parameters
    storage id, parent handle and the new handle, which is valid. *)
Theorem send_object_info_then_complete (cb : tud_mtp_cb_data_t) (st : mtp_state fs)
    (xfer_result : xfer_result_t) (slot : nat) (e : fs_handletable_entry_t) (d' : fs) :
  is_session_opened st = true →
  cmd_code cb = MTP_OP_SEND_OBJECT_INFO →
  (param0 cb = 4294967295 ∨ param0 cb = SUPPORTED_STORAGE_ID) →
  phase cb = MTP_PHASE_DATA →
  (oi_storage_id (payload_obj_info cb) = 0
   ∨ oi_storage_id (payload_obj_info cb) = SUPPORTED_STORAGE_ID) →
  (object_info_parent (payload_obj_info cb) = 0
   ∨ ∃ sb entry,
       fs_stat_handle (handle_table st) (disk st)
         (object_info_parent (payload_obj_info cb)) = Done (StatHandleOk sb entry)
       ∧ st_is_dir sb = true) →
  oi_association_type (payload_obj_info cb) = MTP_ASSOCIATION_UNDEFINED →
  fs_can_create_file (handle_table st) (disk st)
    (oi_object_compressed_size (payload_obj_info cb)) = true →
  (1 ≤ String.length (utf16_to_utf8 (payload_filename cb) MTP_FILENAME_LENGTH)
   < MTP_FILENAME_LENGTH)%nat →
  (object_info_parent (payload_obj_info cb) ≠ 0 →
   ∃ i p, fs_get_handle_entry (handle_table st) (object_info_parent (payload_obj_info cb))
          = Some (i, p) ∧ name p ≠ "") →
  fs_handletable_find_empty_entry (handle_table st) = Some (slot, e) →
  fs_get_handle_entry (handle_table st) (to_uint32 (handle_self_inc st + 1)) = None →
  fopen_w (disk st)
    (fs_path_create (handle_table st) (object_info_parent (payload_obj_info cb))
       (utf16_to_utf8 (payload_filename cb) MTP_FILENAME_LENGTH) PATH_BUF_LEN).2
  = Some d' →
  ∃ st', fs_send_object_info cb st = Done (respond 0 NoIO st')
    ∧ tud_mtp_data_complete_cb cb xfer_result st'
      = (MTP_RESP_OK, [SUPPORTED_STORAGE_ID; object_info_parent (payload_obj_info cb);
                       to_uint32 (handle_self_inc st + 1)])
    ∧ fs_handle_valid (handle_table st') (to_uint32 (handle_self_inc st + 1)) = true
    ∧ current_file_size st' = oi_object_compressed_size (payload_obj_info cb)
    ∧ is_Some (current_file st')
    ∧ disk st' = d'.
Proof.
  intros Hopen Hcode Hsid Hphase Hoid Hparent Hassoc Hroom Hlen Hfirst Hslot Hfresh Hfopen.
  destruct (fs_create_file_fresh st _ _ slot e d' Hlen Hfirst Hslot Hfresh Hfopen)
    as (st1 & Hcreate & _ & _ & _ & Hcur & Hfile & Hdisk & _ & _ & Hvalid & Hfind & _).
  eexists. split.
  { rewrite (fs_send_object_info_creates cb st Hopen Hsid Hphase Hoid Hparent Hassoc Hroom).
    rewrite Hcreate. reflexivity. }
  cbn [snd]. split_and!.
  - unfold tud_mtp_data_complete_cb.
    destruct (decide (cmd_code cb = MTP_OP_SEND_OBJECT_INFO)) as [_|Hne]; [|contradiction].
    cbn [handle_table current_handle set_current_file_size].
    rewrite Hcur, Hfind. reflexivity.
  - exact Hvalid.
  - reflexivity.
  - cbn [current_file set_current_file_size]. rewrite Hfile. eexists. reflexivity.
  - exact Hdisk.
Qed.

(** X11.  The response after a folder is created does not name the folder.
    A SendObjectInfo data phase that creates a folder below the root
    changes only the volume, so [tud_mtp_data_complete_cb] answers as it
    would have before the request: from [current_handle].  When no
    transfer is in progress ([current_handle] is [FS_INVALID_HANDLE] and
    no slot carries that value) the response is InvalidObjectHandle,
    without parameters, although [mkdir] has been called. *)
Theorem folder_creation_then_complete (cb : tud_mtp_cb_data_t) (st : mtp_state fs)
    (xfer_result : xfer_result_t) :
  is_session_opened st = true →
  cmd_code cb = MTP_OP_SEND_OBJECT_INFO →
  (param0 cb = 4294967295 ∨ param0 cb = SUPPORTED_STORAGE_ID) →
  phase cb = MTP_PHASE_DATA →
  (oi_storage_id (payload_obj_info cb) = 0
   ∨ oi_storage_id (payload_obj_info cb) = SUPPORTED_STORAGE_ID) →
  oi_association_type (payload_obj_info cb) = MTP_ASSOCIATION_GENERIC_FOLDER →
  object_info_parent (payload_obj_info cb) = 0 →
  ∃ st', fs_send_object_info cb st = Done (respond 0 NoIO st')
    ∧ disk st'
      = mkdir (disk st) ("/littlefs/" +:+ utf16_to_utf8 (payload_filename cb) (100 - 10 - 1))
    ∧ handle_table st' = handle_table st
    ∧ tud_mtp_data_complete_cb cb xfer_result st'
      = tud_mtp_data_complete_cb cb xfer_result st
    ∧ (current_handle st = FS_INVALID_HANDLE →
       fs_get_handle_entry (handle_table st) FS_INVALID_HANDLE = None →
       tud_mtp_data_complete_cb cb xfer_result st' = (MTP_RESP_INVALID_OBJECT_HANDLE, [])).
Proof.
  intros Hopen Hcode Hsid Hphase Hoid Hassoc Hroot.
  eexists. split.
  { unfold fs_send_object_info. rewrite Hopen. cbn [negb].
    rewrite (guard_passes _ _ _ _ Hsid), Hphase, (guard_passes _ _ _ _ Hoid), Hroot.
    destruct (decide (0 ≠ 0)) as [Hne|_]; [contradiction|].
    cbn [mbind outcome_bind negb]. rewrite Hassoc.
    destruct (decide (MTP_ASSOCIATION_GENERIC_FOLDER = MTP_ASSOCIATION_UNDEFINED))
      as [Heq|_]; [discriminate|].
    destruct (decide (MTP_ASSOCIATION_GENERIC_FOLDER = MTP_ASSOCIATION_GENERIC_FOLDER))
      as [_|Hne]; [|contradiction].
    reflexivity. }
  split_and!; try reflexivity.
  intros Hidle Hnone. unfold tud_mtp_data_complete_cb.
  destruct (decide (cmd_code cb = MTP_OP_SEND_OBJECT_INFO)) as [_|Hne]; [|contradiction].
  cbn [handle_table current_handle set_disk]. rewrite Hidle, Hnone. reflexivity.
Qed.

(** ** Cancelling a transfer *)

(** X12.  Cancel drops the stream and nothing else.  With a stream open,
    [tud_mtp_request_cancel_cb] closes it and resets [current_handle];
    the table, the allocator, the session flag and the volume are as
    before, so an object created by SendObjectInfo stays in the table and
    on the volume.  A SendObject that follows is refused with
    InvalidObjectHandle. *)
Theorem cancel_drops_the_stream_only (cb : tud_mtp_cb_data_t) (st : mtp_state fs)
    (f : FILE) :
  current_file st = Some f →
  ∃ st', tud_mtp_request_cancel_cb st = Done st'
    ∧ current_file st' = None
    ∧ current_handle st' = FS_INVALID_HANDLE
    ∧ handle_table st' = handle_table st
    ∧ handle_self_inc st' = handle_self_inc st
    ∧ is_session_opened st' = is_session_opened st
    ∧ disk st' = disk st
    ∧ fs_send_object cb st' = Done (respond MTP_RESP_INVALID_OBJECT_HANDLE NoIO st').
Proof.
  intros Hfile. unfold tud_mtp_request_cancel_cb, fs_close_handle.
  destruct (decide _) as [[Hbad|Hbad]|_]; try contradiction.
  rewrite Hfile. eexists. split; [reflexivity|].
  split_and!; reflexivity.
Qed.

End Objects.

(** * Moving the bytes of an object *)
Section Transfers.

Context {fs : Type} `{FileSystem fs} `{Platform}.

Lemma take_take_min {A : Type} (n m : nat) (l : list A) :
  (n ≤ m ∨ length l ≤ m)%nat → take n (take m l) = take n l.
Proof.
  intros Hnm. rewrite take_take. destruct Hnm as [Hle|Hlen].
  - now rewrite Nat.min_l by exact Hle.
  - destruct (decide (n ≤ m)%nat); [now rewrite Nat.min_l by lia|].
    rewrite Nat.min_r by lia. rewrite !take_ge by lia. reflexivity.
Qed.

(** The first packet of GetObject. *)
Lemma fs_get_object_first_packet (fuel : nat) (cb : tud_mtp_cb_data_t) (st : mtp_state fs)
    (path : string) (content : list byte) :
  phase cb = MTP_PHASE_COMMAND →
  current_file st = None →
  fs_path_from_handle (handle_table st) (param0 cb) PATH_BUF_LEN = Done (Some path) →
  fopen_r (disk st) path = Some content →
  Z.of_nat (length content) < 4294967296 →
  0 ≤ mtp_container_header_size ≤ CFG_TUD_MTP_EP_BUFSIZE →
  ∃ st', fs_get_object fuel cb st
         = Done (respond 0
                   (DataSendObject (Z.of_nat (length content))
                      (take (Z.to_nat (CFG_TUD_MTP_EP_BUFSIZE - mtp_container_header_size))
                         content))
                   st')
    ∧ current_file st'
      = Some {| f_path := path; f_write := false;
                f_pos := Z.min CFG_TUD_MTP_EP_BUFSIZE (Z.of_nat (length content)) |}
    ∧ current_handle st' = param0 cb
    ∧ current_file_size st' = Z.of_nat (length content)
    ∧ handle_table st' = handle_table st
    ∧ disk st' = disk st.
Proof.
  intros Hphase Hidle Hpath Hopen Hsize Hbuf.
  unfold fs_get_object, fs_open_handle. rewrite Hidle.
  cbn [bool_decide andb]. rewrite bool_decide_eq_false_2 by (intros Hne; now apply Hne).
  cbn [andb]. rewrite Hpath. cbn [mbind outcome_bind]. rewrite Hopen.
  cbn [mbind outcome_bind]. rewrite Hphase.
  unfold fread.
  cbn [disk current_file_size f_path f_pos f_write
       set_current_file_size set_current_file set_current_handle].
  rewrite Hopen. cbn [default]. rewrite to_uint32_small by lia.
  change (Z.to_nat 0) with 0%nat. rewrite drop_0. unfold id. rewrite tu_min32_min.
  set (want := if decide (CFG_TUD_MTP_EP_BUFSIZE < Z.of_nat (length content))
               then CFG_TUD_MTP_EP_BUFSIZE else Z.of_nat (length content)).
  assert (Hwant : want = Z.min CFG_TUD_MTP_EP_BUFSIZE (Z.of_nat (length content)))
    by (unfold want; destruct (decide _); lia).
  eexists. split; [|split_and!].
  - do 2 f_equal. f_equal.
    rewrite take_take_min by lia.
    destruct (decide (length content
                      ≤ Z.to_nat (CFG_TUD_MTP_EP_BUFSIZE - mtp_container_header_size))%nat).
    + rewrite !take_ge by lia. reflexivity.
    + f_equal. lia.
  - cbn [current_file set_current_file]. do 2 f_equal.
    rewrite length_take. lia.
  - reflexivity.
  - reflexivity.
  - reflexivity.
  - reflexivity.
Qed.

(** X13.  The command phase of GetObject.  With no stream open, a handle
    that resolves to a path and a file that [fopen] finds there, the
    handler returns 0 and announces the whole size of the file with its
    first bytes, as many as fit in the endpoint buffer behind the
    container header.  It records the handle and the size, and leaves the
    stream open, advanced by what was read: a whole buffer, or the file if
    it is shorter.  The table and the volume are as before. *)
Theorem get_object_command_phase (fuel : nat) (cb : tud_mtp_cb_data_t) (st : mtp_state fs)
    (path : string) (content : list byte) :
  phase cb = MTP_PHASE_COMMAND →
  current_file st = None →
  fs_path_from_handle (handle_table st) (param0 cb) PATH_BUF_LEN = Done (Some path) →
  fopen_r (disk st) path = Some content →
  Z.of_nat (length content) < 4294967296 →
  0 ≤ mtp_container_header_size ≤ CFG_TUD_MTP_EP_BUFSIZE →
  ∃ st', fs_get_object fuel cb st
         = Done (respond 0
                   (DataSendObject (Z.of_nat (length content))
                      (take (Z.to_nat (CFG_TUD_MTP_EP_BUFSIZE - mtp_container_header_size))
                         content))
                   st')
    ∧ current_file st'
      = Some {| f_path := path; f_write := false;
                f_pos := Z.min CFG_TUD_MTP_EP_BUFSIZE (Z.of_nat (length content)) |}
    ∧ current_handle st' = param0 cb
    ∧ current_file_size st' = Z.of_nat (length content)
    ∧ handle_table st' = handle_table st
    ∧ disk st' = disk st.
Proof.
  intros Hphase Hidle Hpath Hopen Hsize Hbuf.
  destruct (fs_get_object_first_packet fuel cb st path content Hphase Hidle Hpath Hopen
              Hsize Hbuf) as (st' & Hrun & Hfile & Hhandle & Hlen & Htable & Hdisk).
  exists st'. split_and!; assumption.
Qed.

(** X14.  The data phase of SendObject.  With a stream open under a
    current handle, each data phase hands the received bytes to [fwrite]
    on the stream.  Through a stream opened for writing (the one left by
    SendObjectInfo) the bytes are written at the position of the stream,
    which advances by the chunk; through a stream opened for reading (the
    one left by GetObject) [fwrite] fails, nothing is written and the
    position stays, and the handler goes on all the same.  While the bytes
    transferred so far (without the header) are fewer than the size
    announced by SendObjectInfo, it asks for more and keeps the stream
    open.  Otherwise it closes the stream and resets the current handle,
    so that any further SendObject is refused with InvalidObjectHandle.
    The table is never touched. *)
Theorem send_object_data_phase (cb : tud_mtp_cb_data_t) (st : mtp_state fs) (file : FILE) :
  current_file st = Some file →
  current_handle st ≠ FS_INVALID_HANDLE →
  phase cb = MTP_PHASE_DATA →
  let chunk := take (Z.to_nat (payload_bytes cb)) (payload_data cb) in
  let written := (fwrite_stream (disk st) file chunk).1 in
  let stream := (fwrite_stream (disk st) file chunk).2 in
  (f_write file = true →
   written = fwrite (disk st) (f_path file) (f_pos file) chunk
   ∧ stream = {| f_path := f_path file; f_write := true;
                 f_pos := f_pos file + Z.of_nat (length chunk) |})
  ∧ (f_write file = false → written = disk st ∧ stream = file)
  ∧ (to_uint32 (total_xferred_bytes cb - mtp_container_header_size) < current_file_size st →
     fs_send_object cb st
     = Done (respond 0 DataReceive (set_current_file (set_disk st written) (Some stream))))
  ∧ (¬ to_uint32 (total_xferred_bytes cb - mtp_container_header_size)
       < current_file_size st →
     ∃ st', fs_send_object cb st = Done (respond 0 NoIO st')
       ∧ disk st' = written
       ∧ current_file st' = None
       ∧ current_handle st' = FS_INVALID_HANDLE
       ∧ handle_table st' = handle_table st
       ∧ ∀ next, fs_send_object next st'
                 = Done (respond MTP_RESP_INVALID_OBJECT_HANDLE NoIO st')).
Proof.
  intros Hfile Hhandle Hphase chunk written stream. split_and!.
  - intros Hmode. subst written stream. unfold fwrite_stream. rewrite Hmode.
    split; reflexivity.
  - intros Hmode. subst written stream. unfold fwrite_stream. rewrite Hmode.
    split; reflexivity.
  - intros Hmore. unfold fs_send_object. rewrite Hfile.
    destruct (decide (current_handle st = FS_INVALID_HANDLE)); [contradiction|].
    rewrite Hphase. subst written stream. fold chunk.
    destruct (fwrite_stream (disk st) file chunk) as [d' file'].
    destruct (decide _) as [_|Hno]; [reflexivity|contradiction].
  - intros Hmore. unfold fs_send_object at 1. rewrite Hfile.
    destruct (decide (current_handle st = FS_INVALID_HANDLE)); [contradiction|].
    rewrite Hphase. subst written stream. fold chunk.
    destruct (fwrite_stream (disk st) file chunk) as [d' file'].
    destruct (decide _) as [Hyes|_]; [contradiction|].
    unfold fs_close_handle.
    destruct (decide _) as [[Hbad|Hbad]|_]; try contradiction.
    cbn [current_file set_current_file mbind outcome_bind].
    eexists. split; [reflexivity|]. split_and!; reflexivity.
Qed.



End Transfers.

(** * The dispatch of operations *)
Section Dispatch.

Context {fs : Type} `{FileSystem fs} `{Platform}.

Lemma find_handler_unknown (code : Z) :
  code ∉ fs_op_handler_dict.*1 → find_handler code = None.
Proof.
  intros Hcode. unfold find_handler.
  destruct (list_find _ _) as [[i [code' handler]]|] eqn:Hfind; [|reflexivity].
  apply list_find_Some in Hfind as (Hi & Heq & _). cbn in Heq. subst code'.
  exfalso. apply Hcode. apply list_elem_of_fmap. exists (code, handler).
  split; [reflexivity|]. eapply list_elem_of_lookup_2. exact Hi.
Qed.

(** X16.  An operation without a handler is not answered.  For a command
    whose code is none of the thirteen codes of [fs_op_handler_dict],
    [tud_mtp_command_received_cb] returns OperationNotSupported to TinyUSB
    and [tud_mtp_data_xfer_cb] returns 0; neither sends a response or
    data, and the state is as before. *)
Theorem unknown_operation_gets_no_response (mac stack : list Z) (fuel : nat)
    (cb : tud_mtp_cb_data_t) (st : mtp_state fs) :
  cmd_code cb ∉ fs_op_handler_dict.*1 →
  tud_mtp_command_received_cb mac stack fuel cb st
  = Done {| d_return := MTP_RESP_OPERATION_NOT_SUPPORTED; d_data := HandlerIO NoIO;
            d_response := None; d_state := st |}
  ∧ tud_mtp_data_xfer_cb mac stack fuel cb st
    = Done {| d_return := 0; d_data := HandlerIO NoIO;
              d_response := None; d_state := st |}.
Proof.
  intros Hcode. unfold tud_mtp_command_received_cb, tud_mtp_data_xfer_cb.
  rewrite (find_handler_unknown _ Hcode). split; reflexivity.
Qed.

Lemma fs_open_close_session_returns (cb : tud_mtp_cb_data_t) (st : mtp_state fs)
    (r : reply fs) :
  fs_open_close_session cb st = Done r → r_code r ∈ handler_return_values.
Proof. unfold fs_open_close_session. follow_handler; known_value. Qed.

Lemma fs_get_object_info_returns (cb : tud_mtp_cb_data_t) (st : mtp_state fs)
    (r : reply fs) :
  fs_get_object_info cb st = Done r → r_code r ∈ handler_return_values.
Proof. unfold fs_get_object_info. follow_handler; known_value. Qed.

Lemma fs_get_object_returns (fuel : nat) (cb : tud_mtp_cb_data_t) (st : mtp_state fs)
    (r : reply fs) :
  fs_get_object fuel cb st = Done r → r_code r ∈ handler_return_values.
Proof. unfold fs_get_object. follow_handler; known_value. Qed.

Lemma fs_send_object_info_returns (cb : tud_mtp_cb_data_t) (st : mtp_state fs)
    (r : reply fs) :
  fs_send_object_info cb st = Done r → r_code r ∈ handler_return_values.
Proof. unfold fs_send_object_info. follow_handler; known_value. Qed.

Lemma fs_send_object_returns (cb : tud_mtp_cb_data_t) (st : mtp_state fs) (r : reply fs) :
  fs_send_object cb st = Done r → r_code r ∈ handler_return_values.
Proof. unfold fs_send_object. follow_handler; known_value. Qed.

Lemma fs_delete_object_returns (cb : tud_mtp_cb_data_t) (st : mtp_state fs) (r : reply fs) :
  fs_delete_object cb st = Done r → r_code r ∈ handler_return_values.
Proof. unfold fs_delete_object. follow_handler; known_value. Qed.

Lemma call_handler_returns (mac stack : list Z) (fuel : nat) (handler : fs_op_handler_t)
    (cb : tud_mtp_cb_data_t) (st st' : mtp_state fs) (code : Z) (data : data_submitted) :
  call_handler mac stack fuel handler cb st = Done (code, data, st') →
  code ∈ handler_return_values.
Proof.
  destruct handler; cbn [call_handler].
  - intros Hrun. injection Hrun as <- _ _. known_value.
  - destruct (fs_open_close_session cb st) as [r| |] eqn:Hr; cbn; try discriminate.
    intros Hrun. injection Hrun as <- _ _. eapply fs_open_close_session_returns, Hr.
  - intros Hrun. injection Hrun as <- _ _. known_value.
  - cbn. intros Hrun. injection Hrun as <- _ _.
    unfold fs_get_storage_info. follow_handler; known_value.
  - unfold fs_get_device_properties.
    destruct (decide _); destruct (decide _);
      intros Hrun; injection Hrun as <- _ _; known_value.
  - cbn. intros Hrun. injection Hrun as <- _ _.
    unfold fs_get_object_handles. follow_handler; known_value.
  - destruct (fs_get_object_info cb st) as [r| |] eqn:Hr; cbn; try discriminate.
    intros Hrun. injection Hrun as <- _ _. eapply fs_get_object_info_returns, Hr.
  - destruct (fs_get_object fuel cb st) as [r| |] eqn:Hr; cbn; try discriminate.
    intros Hrun. injection Hrun as <- _ _. eapply fs_get_object_returns, Hr.
  - destruct (fs_delete_object cb st) as [r| |] eqn:Hr; cbn; try discriminate.
    intros Hrun. injection Hrun as <- _ _. eapply fs_delete_object_returns, Hr.
  - destruct (fs_send_object_info cb st) as [r| |] eqn:Hr; cbn; try discriminate.
    intros Hrun. injection Hrun as <- _ _. eapply fs_send_object_info_returns, Hr.
  - destruct (fs_send_object cb st) as [r| |] eqn:Hr; cbn; try discriminate.
    intros Hrun. injection Hrun as <- _ _. eapply fs_send_object_returns, Hr.
Qed.

Lemma response_sent_known (code : Z) :
  code ∈ handler_return_values →
  response_sent code = if decide (code > 0) then Some code else None.
Proof.
  unfold handler_return_values. rewrite !elem_of_cons, elem_of_nil.
  intros Hcode. repeat (destruct Hcode as [->|Hcode]; [reflexivity|]). contradiction.
Qed.

(** X17.  The response on the wire is the value the handler returned.
    Whenever [tud_mtp_command_received_cb] returns, the value it returns
    is 0, -1 or one of eleven response codes.  A response is sent only
    when a handler exists and returned a positive value, and its code is
    then that value, unchanged by the cast to [uint16_t]; for 0 and -1
    nothing is sent.  [tud_mtp_data_xfer_cb] does the same with the same
    state and returns 0. *)
Theorem dispatch_sends_what_the_handler_returns (mac stack : list Z) (fuel : nat)
    (cb : tud_mtp_cb_data_t) (st : mtp_state fs) (d : dispatched fs) :
  tud_mtp_command_received_cb mac stack fuel cb st = Done d →
  d_return d ∈ handler_return_values
  ∧ d_response d
    = (if decide (is_Some (find_handler (cmd_code cb)) ∧ d_return d > 0)
       then Some (d_return d) else None)
  ∧ tud_mtp_data_xfer_cb mac stack fuel cb st
    = Done {| d_return := 0; d_data := d_data d;
              d_response := d_response d; d_state := d_state d |}.
Proof.
  unfold tud_mtp_command_received_cb, tud_mtp_data_xfer_cb.
  destruct (find_handler (cmd_code cb)) as [handler|].
  - destruct (call_handler mac stack fuel handler cb st) as [[[code data] st']| |] eqn:Hcall;
      cbn [mbind outcome_bind]; try discriminate.
    intros Hrun. injection Hrun as <-. cbn [d_return d_response d_data d_state].
    pose proof (call_handler_returns _ _ _ _ _ _ _ _ _ Hcall) as Hcode.
    split_and!; [exact Hcode| |reflexivity].
    rewrite (response_sent_known code Hcode).
    destruct (decide (code > 0)) as [Hpos|Hneg].
    + destruct (decide _) as [_|Hno]; [reflexivity|]. exfalso. apply Hno. split; [eauto|lia].
    + destruct (decide _) as [[_ Hpos]|_]; [contradiction|reflexivity].
  - intros Hrun. injection Hrun as <-. cbn [d_return d_response d_data d_state].
    split_and!; [known_value| |reflexivity].
    destruct (decide _) as [[Hsome _]|_]; [|reflexivity].
    now apply is_Some_None in Hsome.
Qed.

End Dispatch.

(** * What the states of the responder have in common *)
Section States.

Context {fs : Type} `{FileSystem fs} `{Platform}.

(** X18.  The shape of every state.  Whatever requests have been served
    since boot, the table has its 32 slots, every name fits the 63 bytes
    of its slot, and while no session is open the allocator stands at
    0. *)
Theorem reachable_state_shape (st : mtp_state fs) :
  reachable st →
  length (handles (handle_table st)) = Z.to_nat MTP_HANDLE_TABLE_SIZE
  ∧ Forall (fun e => (String.length (name e) ≤ MTP_FILENAME_LENGTH)%nat)
      (handles (handle_table st))
  ∧ (is_session_opened st = false → handle_self_inc st = 0).
Proof.
  intros Hreach. destruct (reachable_invariants st Hreach) as [Htable Hreset].
  apply table_ok_slots in Htable as [Hlen Hnames]. split_and!; assumption.
Qed.

Lemma fs_close_handle_disk (st st' : mtp_state fs) (h : Z) (file : option FILE) :
  fs_close_handle st h file = Done st' → disk st' = disk st.
Proof.
  unfold fs_close_handle.
  destruct (decide _) as [_|_]; [intros Hrun; now injection Hrun as <-|].
  destruct file; [|discriminate]. intros Hrun. now injection Hrun as <-.
Qed.

Lemma fs_open_handle_read_disk (st st1 : mtp_state fs) (h : Z) (f : option FILE) :
  fs_open_handle st h false = Done (f, st1) → disk st1 = disk st.
Proof.
  unfold fs_open_handle.
  destruct (_ && _); [intros Hrun; now injection Hrun as _ <-|].
  destruct (fs_path_from_handle _ _ _) as [[path_buf|]| |]; cbn [mbind outcome_bind];
    try discriminate; [|intros Hrun; now injection Hrun as _ <-].
  destruct (fopen_r _ _); [|discriminate].
  intros Hrun. now injection Hrun as _ <-.
Qed.

Lemma fs_get_object_disk (fuel : nat) (cb : tud_mtp_cb_data_t) (st : mtp_state fs)
    (r : reply fs) :
  fs_get_object fuel cb st = Done r → disk (r_state r) = disk st.
Proof.
  unfold fs_get_object.
  destruct (fs_open_handle st (param0 cb) false) as [[f st1]| |] eqn:Hopen;
    cbn [mbind outcome_bind]; try discriminate.
  apply fs_open_handle_read_disk in Hopen.
  destruct f as [file|]; [|intros Hrun; injection Hrun as <-; exact Hopen].
  destruct (phase cb); try (intros Hrun; injection Hrun as <-; exact Hopen).
  destruct (decide (get_object_xact_len cb st1 > 0)) as [_|_].
  - destruct (fread_loop _ _ _ _ _) as [[payload file']| |];
      cbn [mbind outcome_bind]; try discriminate.
    destruct (decide _) as [_|_]; [|intros Hrun; injection Hrun as <-; exact Hopen].
    destruct (fs_close_handle _ _ _) as [st3| |] eqn:Hclose;
      cbn [mbind outcome_bind]; try discriminate.
    apply fs_close_handle_disk in Hclose.
    intros Hrun. injection Hrun as <-. cbn [r_state respond]. now rewrite Hclose.
  - cbn [mbind outcome_bind].
    destruct (decide _) as [_|_]; [|intros Hrun; injection Hrun as <-; exact Hopen].
    destruct (fs_close_handle _ _ _) as [st3| |] eqn:Hclose;
      cbn [mbind outcome_bind]; try discriminate.
    apply fs_close_handle_disk in Hclose.
    intros Hrun. injection Hrun as <-. cbn [r_state respond]. now rewrite Hclose.
Qed.

(** X19.  Reading changes nothing that is stored.  GetStorageInfo,
    GetObjectHandles, GetObjectInfo and GetObject, in any phase and
    whatever they return, leave the handle table, the allocator, the
    session flag and the volume as they were. *)
Theorem read_requests_keep_table_and_volume (rq : request) (st : mtp_state fs)
    (r : reply fs) :
  reads_only rq = true →
  serve rq st = Done r →
  handle_table (r_state r) = handle_table st
  ∧ handle_self_inc (r_state r) = handle_self_inc st
  ∧ is_session_opened (r_state r) = is_session_opened st
  ∧ disk (r_state r) = disk st.
Proof.
  destruct rq as [cb|cb|cb|cb|fuel cb|cb|cb|cb|]; try discriminate; intros _; cbn [serve].
  - intros Hrun. injection Hrun as <-.
    destruct (fs_get_storage_info_control cb st) as (Hs & Hi & Ht).
    split_and!; try assumption.
    unfold fs_get_storage_info. destruct (decide _); [|reflexivity].
    destruct (esp_littlefs_info _). reflexivity.
  - intros Hrun. injection Hrun as <-.
    rewrite fs_get_object_handles_control. split_and!; reflexivity.
  - intros Hrun. apply fs_get_object_info_control in Hrun. rewrite Hrun.
    split_and!; reflexivity.
  - intros Hrun. destruct (fs_get_object_control fuel cb st r Hrun) as (Hs & Hi & Ht).
    split_and!; try assumption. eapply fs_get_object_disk. exact Hrun.
Qed.

End States.

(** * The serial number of the device *)

Lemma mac_octet_units_hex (b : Z) :
  0 ≤ b < 256 →
  ∃ hi lo, mac_octet_units b = [hi; lo]
    ∧ hi ≠ 0 ∧ lo ≠ 0 ∧ hi ∈ hexLut ∧ lo ∈ hexLut
    ∧ hex_value hi = Some (b / 16) ∧ hex_value lo = Some (b mod 16).
Proof.
  intros Hb.
  assert (Hall : forallb (fun n : nat =>
                   let b := Z.of_nat n in
                   match mac_octet_units b with
                   | [hi; lo] =>
                       bool_decide (hi ≠ 0 ∧ lo ≠ 0 ∧ hi ∈ hexLut ∧ lo ∈ hexLut
                                    ∧ hex_value hi = Some (b / 16)
                                    ∧ hex_value lo = Some (b mod 16))
                   | _ => false
                   end) (seq 0 256) = true) by (vm_compute; reflexivity).
  rewrite forallb_forall in Hall.
  specialize (Hall (Z.to_nat b)). rewrite Z2Nat.id in Hall by lia.
  cbn zeta in Hall.
  assert (Hin : In (Z.to_nat b) (seq 0 256)) by (apply in_seq; lia).
  specialize (Hall Hin).
  unfold mac_octet_units in *.
  apply bool_decide_eq_true in Hall. eauto.
Qed.

Lemma utf16_cstring_terminated (units rest : list Z) :
  Forall (fun u => u ≠ 0) units → utf16_cstring (units ++ 0 :: rest) = units.
Proof.
  induction 1 as [|u units Hu _ IH]; cbn [app utf16_cstring].
  - reflexivity.
  - destruct (decide (u = 0)); [contradiction|]. now rewrite IH.
Qed.

Lemma utilGetMacAddress_hex (mac : list Z) :
  length mac = 6%nat → Forall (fun b => 0 ≤ b < 256) mac →
  length (utilGetMacAddressNoDelimiterUtf16le mac) = 12%nat
  ∧ Forall (fun u => u ≠ 0) (utilGetMacAddressNoDelimiterUtf16le mac)
  ∧ Forall (fun u => u ∈ hexLut) (utilGetMacAddressNoDelimiterUtf16le mac)
  ∧ octets_of_hex (utilGetMacAddressNoDelimiterUtf16le mac) = Some (reverse mac).
Proof.
  intros Hlen Hrange.
  destruct mac as [|m0 [|m1 [|m2 [|m3 [|m4 [|m5 [|]]]]]]]; try discriminate.
  repeat (apply Forall_cons in Hrange as [? Hrange]).
  unfold utilGetMacAddressNoDelimiterUtf16le.
  cbn [flat_map seq nth Nat.sub app].
  destruct (mac_octet_units_hex m0) as (a0 & b0 & -> & ? & ? & ? & ? & Ha0 & Hb0); [done|].
  destruct (mac_octet_units_hex m1) as (a1 & b1 & -> & ? & ? & ? & ? & Ha1 & Hb1); [done|].
  destruct (mac_octet_units_hex m2) as (a2 & b2 & -> & ? & ? & ? & ? & Ha2 & Hb2); [done|].
  destruct (mac_octet_units_hex m3) as (a3 & b3 & -> & ? & ? & ? & ? & Ha3 & Hb3); [done|].
  destruct (mac_octet_units_hex m4) as (a4 & b4 & -> & ? & ? & ? & ? & Ha4 & Hb4); [done|].
  destruct (mac_octet_units_hex m5) as (a5 & b5 & -> & ? & ? & ? & ? & Ha5 & Hb5); [done|].
  cbn [app]. split_and!.
  - reflexivity.
  - repeat (apply Forall_cons; split; [assumption|]). apply Forall_nil_2.
  - repeat (apply Forall_cons; split; [assumption|]). apply Forall_nil_2.
  - cbn [octets_of_hex].
    rewrite Ha0, Hb0, Ha1, Hb1, Ha2, Hb2, Ha3, Hb3, Ha4, Hb4, Ha5, Hb5.
    cbn [reverse rev_append].
    rewrite <- (Z.div_mod m0 16), <- (Z.div_mod m1 16), <- (Z.div_mod m2 16),
      <- (Z.div_mod m3 16), <- (Z.div_mod m4 16), <- (Z.div_mod m5 16) by lia.
    reflexivity.
Qed.

(** X20.  The serial number spells the MAC address.  For a MAC address of
    six octets, [fs_get_device_info] returns 0 and sends the three fixed
    strings and a serial number of exactly twelve units, whatever the
    buffer held before: each unit is an upper-case hexadecimal digit, and
    read two digits per octet they give the octets of the address in
    reverse order, so that two devices with different addresses report
    different serial numbers. *)
Theorem device_serial_spells_the_mac (mac stack : list Z) :
  length mac = 6%nat →
  Forall (fun b => 0 ≤ b < 256) mac →
  length stack = 21%nat →
  ∃ serial,
    fs_get_device_info mac stack
    = (0, DeviceInfoStrings "TinyUSB" "MTP Example" "1.0" serial)
    ∧ serial = utilGetMacAddressNoDelimiterUtf16le mac
    ∧ length serial = 12%nat
    ∧ Forall (fun u => u ∈ hexLut) serial
    ∧ octets_of_hex serial = Some (reverse mac).
Proof.
  intros Hlen Hrange Hstack.
  destruct (utilGetMacAddress_hex mac Hlen Hrange) as (Hunits & Hnonzero & Hhex & Hoctets).
  exists (utilGetMacAddressNoDelimiterUtf16le mac). split_and!; try assumption; try reflexivity.
  unfold fs_get_device_info. do 2 f_equal.
  change (Z.to_nat (tu_min32 12 32)) with 12%nat.
  destruct stack as [|s0 stack']; [discriminate|].
  rewrite insert_app_r_alt by lia. rewrite Hunits.
  change (12 - 12)%nat with 0%nat. cbn [insert list_insert].
  apply utf16_cstring_terminated. exact Hnonzero.
Qed.


(** * The responder on concrete volumes *)

#[local] Existing Instance Lfs.board.

Lemma session_state_reachable (v : Lfs.volume) (rqs : list request) (codes : list Z) :
  session_codes v rqs = Some codes → reachable (session_state v rqs).
Proof. apply run_state_reachable, reachable_boot. Qed.

(** C1 (the code departs from the claim).  Three files a, b, c; the host
    opens a session (handles 1, 2, 3), deletes objects 1 and 2, closes the
    session and opens a new one; every request returns OK.  The new session
    numbers the only file left as handle 1, and the allocator stands at 2.
    Slot 3 still holds the entry written by the first session: handle 3 is
    valid, resolves to /littlefs/c and is answered by GetObjectInfo, and the
    table has two in-use slots for the one object of the listing. *)
Theorem C1_stale_handle_survives_reopen :
  let st1 := session_state vol_three_files just_open in
  let st2 := session_state vol_three_files reopen_after_deletes in
  fs_handle_valid (handle_table st1) 3 = true
  ∧ session_codes vol_three_files reopen_after_deletes
    = Some [MTP_RESP_OK; MTP_RESP_OK; MTP_RESP_OK; MTP_RESP_OK; MTP_RESP_OK]
  ∧ reachable st2
  ∧ is_session_opened st2 = true
  ∧ handle_self_inc st2 = 2
  ∧ opendir (disk st2) "/littlefs" = Some [{| d_name := "c"; d_type := DT_REG |}]
  ∧ fs_handle_valid (handle_table st2) 3 = true
  ∧ fs_path_from_handle (handle_table st2) 3 PATH_BUF_LEN = Done (Some "/littlefs/c")
  ∧ code_after (fs_get_object_info (get_object_info 3) st2) = Some 0
  ∧ name <$> live_entries (handle_table st2) = ["c"; "c"].
Proof.
  intros st1 st2.
  assert (Hcodes : session_codes vol_three_files reopen_after_deletes
                   = Some [MTP_RESP_OK; MTP_RESP_OK; MTP_RESP_OK; MTP_RESP_OK; MTP_RESP_OK])
    by (vm_compute; reflexivity).
  split_and!; try (vm_compute; reflexivity).
  exact (session_state_reachable _ _ _ Hcodes).
Qed.

(** C2 (the code departs from the claim).  A volume with one directory d
    holding one file f; OpenSession on the freshly booted responder returns
    OK.  In the state reached the entry of f is in use with parent handle
    2, its own slot index, and no slot carries handle 2; the entry of d has
    its directory flag clear. *)
Theorem C2_child_parent_is_not_an_entry :
  let st := session_state vol_dir_with_file just_open in
  session_codes vol_dir_with_file just_open = Some [MTP_RESP_OK]
  ∧ reachable st
  ∧ handles (handle_table st) !! 1%nat
    = Some {| handle := 1; parent_handle := 0; is_dir := false; name := "d" |}
  ∧ handles (handle_table st) !! 2%nat
    = Some {| handle := 0; parent_handle := 2; is_dir := false; name := "f" |}
  ∧ fs_get_handle_entry (handle_table st) 2 = None
  ∧ fs_handle_valid (handle_table st) 2 = false
  ∧ parents_are_live_dirs (handle_table st) = false.
Proof.
  intros st.
  assert (Hcodes : session_codes vol_dir_with_file just_open = Some [MTP_RESP_OK])
    by (vm_compute; reflexivity).
  split_and!; try (vm_compute; reflexivity).
  exact (session_state_reachable _ _ _ Hcodes).
Qed.




(** C5, handle 0 and the depth.  After OpenSession on two files no in-use
    slot carries handle 0 and [fs_path_from_handle] fails on it.  On the
    empty volume the host creates the folders d and d/sub and announces the
    file d/sub/x below the root: the new object 2 is a top-level entry, and
    its path, on which the volume holds the file, is three segments below
    the root. *)
Lemma C5_counterexample_root_and_depth :
  (session_codes vol_two_files just_open = Some [MTP_RESP_OK]
   ∧ fs_path_from_handle (handle_table (session_state vol_two_files just_open))
       0 PATH_BUF_LEN
     = Done None)
  ∧ (let st := session_state vol_empty nested_by_name in
     session_codes vol_empty nested_by_name = Some [MTP_RESP_OK; 0; 0; 0]
     ∧ reachable st
     ∧ fs_handle_valid (handle_table st) 2 = true
     ∧ names_terminated (handle_table st) = true
     ∧ handles (handle_table st) !! 0%nat
       = Some {| handle := 2; parent_handle := 0; is_dir := false; name := "d/sub/x" |}
     ∧ fs_path_from_handle (handle_table st) 2 PATH_BUF_LEN
       = Done (Some "/littlefs/d/sub/x")
     ∧ stat (disk st) "/littlefs/d/sub/x" = Some {| st_is_dir := false; st_size := 0 |}
     ∧ segments_below_root "/littlefs/d/sub/x" = 3%nat).
Proof.
  split; [split; vm_compute; reflexivity|].
  intros st.
  assert (Hcodes : session_codes vol_empty nested_by_name = Some [MTP_RESP_OK; 0; 0; 0])
    by (vm_compute; reflexivity).
  split_and!; try (vm_compute; reflexivity).
  exact (session_state_reachable _ _ _ Hcodes).
Qed.

(** C5 on a concrete input: handle 1 after OpenSession on two files. *)
Lemma C5_witness :
  fs_path_from_handle (handle_table (session_state vol_two_files just_open))
    1 PATH_BUF_LEN
  = Done (Some (path_below_root ["a"])).
Proof.
  refine (proj1 (proj2 (C5_resolve_path _ 1 _)) 1%nat
            {| handle := 1; parent_handle := 0; is_dir := false; name := "a" |} _ _ _);
    vm_compute; reflexivity.
Defined.

(** C6, the return value: a storage id other than the supported one gives
    -1, not the InvalidStorageID code, and no response is sent for it. *)
Lemma C6_counterexample_storage_id :
  session_codes vol_two_files [OpenCloseSession open_session; GetStorageInfo (get_storage_info 0)]
  = Some [MTP_RESP_OK; -1]
  ∧ -1 ≠ MTP_RESP_INVALID_STORAGE_ID
  ∧ response_sent (-1) = None.
Proof. split_and!; [vm_compute; reflexivity | discriminate | reflexivity]. Qed.

(** The free-object count follows the counter, not the slots: after
    OpenSession on an empty volume no slot is in use and 31 is reported. *)
Lemma storage_info_on_empty_volume :
  let st := session_state vol_empty just_open in
  session_codes vol_empty just_open = Some [MTP_RESP_OK]
  ∧ live_entries (handle_table st) = []
  ∧ free_space_in_objects
      (storage_info
         (r_state (fs_get_storage_info (get_storage_info SUPPORTED_STORAGE_ID) st)))
    = 31.
Proof. intros st. split_and!; vm_compute; reflexivity. Qed.

(** C6 on a concrete input: the supported storage id after OpenSession on
    two files. *)
Lemma C6_witness :
  free_space_in_objects
    (storage_info
       (r_state
          (fs_get_storage_info (get_storage_info SUPPORTED_STORAGE_ID)
             (session_state vol_two_files just_open))))
  = 29.
Proof.
  refine (proj1 (proj2 (proj2 (proj2
            (proj2 (C6_get_storage_info (get_storage_info SUPPORTED_STORAGE_ID)
                      (session_state vol_two_files just_open)) _)))) _).
  - reflexivity.
  - vm_compute. split; discriminate.
Defined.

(** C7 (the code departs from the claim).  A volume with 31 files; the
    host opens a session, deletes object 1, uploads a file x, deletes
    object 2, closes the session and opens a new one; every request
    succeeds.  The walk of the new session rewrites the slots 1 to 30 for
    the 30 files of the listing and stores 31 in [handles_used]; slot 0
    still holds the entry of x and slot 31 the entry of f31 from the first
    session.  All 32 slots are in use and none is free, yet the capacity
    check passes: SendObjectInfo for a file of one byte returns 0, not
    StoreFull.  [fs_create_file] found no slot; its result is not looked
    at.  No file was created and no stream is open, and the completion
    callback answers InvalidObjectHandle. *)
Theorem C7_full_table_is_not_refused :
  let st := session_state vol_31_files fill_every_slot in
  let cb := send_object_info_data 4294967295 MTP_ASSOCIATION_UNDEFINED 1 "y" in
  session_codes vol_31_files fill_every_slot
  = Some [MTP_RESP_OK; MTP_RESP_OK; 0; 0; MTP_RESP_OK; MTP_RESP_OK; MTP_RESP_OK]
  ∧ reachable st
  ∧ is_session_opened st = true
  ∧ length (handles (handle_table st)) = 32%nat
  ∧ length (live_entries (handle_table st)) = 32%nat
  ∧ fs_handletable_find_empty_entry (handle_table st) = None
  ∧ handles_used (handle_table st) = 31
  ∧ fs_can_create_file (handle_table st) (disk st) 1 = true
  ∧ fs_create_file st 0 "y" = (FS_INVALID_HANDLE, st)
  ∧ fs_send_object_info cb st = Done (respond 0 NoIO (set_current_file_size st 1))
  ∧ current_file st = None
  ∧ stat (disk st) "/littlefs/y" = None
  ∧ tud_mtp_data_complete_cb cb XFER_RESULT_SUCCESS (set_current_file_size st 1)
    = (MTP_RESP_INVALID_OBJECT_HANDLE, []).
Proof.
  intros st cb.
  assert (Hcodes : session_codes vol_31_files fill_every_slot
                   = Some [MTP_RESP_OK; MTP_RESP_OK; 0; 0;
                           MTP_RESP_OK; MTP_RESP_OK; MTP_RESP_OK])
    by (vm_compute; reflexivity).
  split_and!; try (vm_compute; reflexivity).
  exact (session_state_reachable _ _ _ Hcodes).
Qed.

(** The counter refuses in the other direction too: right after OpenSession
    on the 31 files [handles_used] is 32 while slot 0 is free, and
    SendObjectInfo returns StoreFull. *)
Lemma store_full_with_a_free_slot :
  let st := session_state vol_31_files just_open in
  handles_used (handle_table st) = 32
  ∧ fs_handletable_find_empty_entry (handle_table st) = Some (0%nat, empty_entry)
  ∧ fs_send_object_info
      (send_object_info_data 4294967295 MTP_ASSOCIATION_UNDEFINED 1 "y") st
    = Done (respond MTP_RESP_STORE_FULL NoIO st).
Proof. intros st. split_and!; vm_compute; reflexivity. Qed.

(** The capacity check on a concrete input: 5000 bytes announced on a
    volume of 4096. *)
Lemma fs_send_object_info_refuses_example :
  ∃ r : reply Lfs.volume,
    fs_send_object_info (send_object_info_data 4294967295 0 5000 "big.bin")
      (session_state vol_two_files just_open) = Done r
    ∧ r_code r = MTP_RESP_STORE_FULL
    ∧ r_state r = session_state vol_two_files just_open.
Proof.
  destruct (fs_send_object_info_refuses
              (send_object_info_data 4294967295 0 5000 "big.bin")
              (session_state vol_two_files just_open))
    as (r & Hrun & Hcode & Hstate & _).
  - vm_compute; reflexivity.
  - right; reflexivity.
  - reflexivity.
  - right; reflexivity.
  - left; vm_compute; reflexivity.
  - reflexivity.
  - right. vm_compute. repeat split; discriminate.
  - exists r. split_and!; assumption.
Qed.

(** C8 (the code departs from the claim).  A volume with the directory d
    holding c1, and the file z; the host opens a session, uploads c2 into
    object 1, deletes object 3 (the file z), closes the session and opens a
    new one; every request succeeds.  The walk of the new session stores
    the entry of c2 in slot 3 with parent handle 2 and leaves the [handle]
    field 3 that the slot held: handle 3 is valid, and no slot carries its
    parent handle 2.  [fs_path_from_handle] reads the name of the parent
    through the null pointer that [fs_get_handle_entry] returned, so a
    SendObjectInfo for a folder below object 3 has no defined behaviour
    where the claim has InvalidParentObject.  Below the root the result of
    [mkdir] is not looked at: the folder a, a name taken by a file, is
    answered with 0 while the volume stays as it was. *)
Theorem C8_folder_below_orphan_faults :
  let st := session_state vol_dir_and_file orphan_child in
  let st2 := session_state vol_two_files just_open in
  session_codes vol_dir_and_file orphan_child
  = Some [MTP_RESP_OK; 0; 0; MTP_RESP_OK; MTP_RESP_OK; MTP_RESP_OK]
  ∧ reachable st
  ∧ is_session_opened st = true
  ∧ handles (handle_table st) !! 3%nat
    = Some {| handle := 3; parent_handle := 2; is_dir := false; name := "c2" |}
  ∧ fs_handle_valid (handle_table st) 3 = true
  ∧ fs_get_handle_entry (handle_table st) 2 = None
  ∧ fs_path_from_handle (handle_table st) 3 PATH_BUF_LEN = Undefined
  ∧ fs_send_object_info
      (send_object_info_data 3 MTP_ASSOCIATION_GENERIC_FOLDER 0 "docs") st
    = Undefined
  ∧ stat (disk st2) "/littlefs/a" = Some {| st_is_dir := false; st_size := 3 |}
  ∧ fs_send_object_info
      (send_object_info_data 4294967295 MTP_ASSOCIATION_GENERIC_FOLDER 0 "a") st2
    = Done (respond 0 NoIO st2).
Proof.
  intros st st2.
  assert (Hcodes : session_codes vol_dir_and_file orphan_child
                   = Some [MTP_RESP_OK; 0; 0; MTP_RESP_OK; MTP_RESP_OK; MTP_RESP_OK])
    by (vm_compute; reflexivity).
  split_and!; try (vm_compute; reflexivity).
  exact (session_state_reachable _ _ _ Hcodes).
Qed.

(** Folders on concrete inputs: a folder below object 1, and a folder below
    the root. *)
Lemma fs_send_object_info_folder_example :
  (fs_send_object_info (send_object_info_data 1 1 0 "docs")
     (session_state vol_two_files just_open)
   = Done (respond MTP_RESP_INVALID_PARENT_OBJECT NoIO
             (session_state vol_two_files just_open)))
  ∧ ∃ r : reply Lfs.volume,
      fs_send_object_info (send_object_info_data 4294967295 1 0 "docs")
        (session_state vol_two_files just_open) = Done r
      ∧ r_code r = 0
      ∧ stat (disk (r_state r)) "/littlefs/docs" = Some {| st_is_dir := true; st_size := 0 |}
      ∧ handle_table (r_state r) = handle_table (session_state vol_two_files just_open).
Proof.
  split.
  - refine (proj1 (fs_send_object_info_folder (send_object_info_data 1 1 0 "docs")
                     (session_state vol_two_files just_open) _ _ _ _ _) _
              (StatHandleOk {| st_is_dir := false; st_size := 3 |}
                 (Some (1%nat, {| handle := 1; parent_handle := 0;
                                  is_dir := false; name := "a" |}))) _).
    + vm_compute; reflexivity.
    + right; reflexivity.
    + reflexivity.
    + right; reflexivity.
    + reflexivity.
    + vm_compute; discriminate.
    + vm_compute; reflexivity.
  - destruct (proj2 (fs_send_object_info_folder
                       (send_object_info_data 4294967295 1 0 "docs")
                       (session_state vol_two_files just_open)
                       ltac:(vm_compute; reflexivity) ltac:(right; reflexivity) eq_refl
                       ltac:(right; reflexivity) eq_refl)
                ltac:(vm_compute; reflexivity))
      as (r & Hrun & Hcode & Hdisk & Htable & _).
    exists r. split_and!; try assumption.
    rewrite Hdisk. vm_compute. reflexivity.
Qed.

(** The folder gets its entry at the next OpenSession, not before. *)
Lemma folder_entry_appears_at_reopen :
  session_codes vol_two_files create_folder_then_reopen
  = Some [MTP_RESP_OK; 0; MTP_RESP_OK; MTP_RESP_OK]
  ∧ name <$> live_entries (handle_table (session_state vol_two_files create_folder))
    = ["a"; "b"]
  ∧ name <$> live_entries
               (handle_table (session_state vol_two_files create_folder_then_reopen))
    = ["a"; "b"; "docs"].
Proof. split_and!; vm_compute; reflexivity. Qed.

(** C9, a path on which [stat] fails: in the second session of
    [reopen_after_deletes] the host deletes object 1 (the file c), then asks
    to delete object 3, the entry left by the first session.  In the state
    reached the handle resolves to /littlefs/c, [stat] fails on that path,
    and DeleteObject returns GeneralError with the entry still in place. *)
Lemma C9_counterexample_stat_failure :
  let st := session_state vol_three_files reopen_then_delete in
  session_codes vol_three_files reopen_then_delete
  = Some [MTP_RESP_OK; MTP_RESP_OK; MTP_RESP_OK; MTP_RESP_OK; MTP_RESP_OK; MTP_RESP_OK]
  ∧ reachable st
  ∧ is_session_opened st = true
  ∧ fs_handle_valid (handle_table st) 3 = true
  ∧ fs_path_from_handle (handle_table st) 3 PATH_BUF_LEN = Done (Some "/littlefs/c")
  ∧ stat (disk st) "/littlefs/c" = None
  ∧ fs_delete_object (delete_object 3) st = Done (respond MTP_RESP_GENERAL_ERROR NoIO st).
Proof.
  intros st.
  assert (Hcodes : session_codes vol_three_files reopen_then_delete
                   = Some [MTP_RESP_OK; MTP_RESP_OK; MTP_RESP_OK;
                           MTP_RESP_OK; MTP_RESP_OK; MTP_RESP_OK])
    by (vm_compute; reflexivity).
  split_and!; try (vm_compute; reflexivity).
  exact (session_state_reachable _ _ _ Hcodes).
Qed.

(** C9 on a concrete input: deleting object 1 after OpenSession on two
    files. *)
Lemma C9_witness :
  ∃ i e,
    fs_delete_object (delete_object 1) (session_state vol_two_files just_open)
    = Done (respond MTP_RESP_OK NoIO
              (set_handle_table
                 (set_disk (session_state vol_two_files just_open)
                    (unlink (disk (session_state vol_two_files just_open)) "/littlefs/a"))
                 {| handles :=
                      <[i := clear_name e]>
                        (handles (handle_table (session_state vol_two_files just_open)));
                    handles_used := 2 |})).
Proof.
  destruct (proj2 (proj2 (proj2
              (C9_delete_object (delete_object 1) (session_state vol_two_files just_open)
                 ltac:(vm_compute; reflexivity))))
              "/littlefs/a" {| st_is_dir := false; st_size := 3 |}
              ltac:(vm_compute; reflexivity) ltac:(vm_compute; reflexivity) eq_refl)
    as (i & e & _ & Hrun).
  exists i, e. exact Hrun.
Defined.

(** C10 (the code departs from the claim).  A volume with one directory d
    holding one file f; OpenSession on the freshly booted responder.  The
    listing of the root is the handle 1 of d, and the listing under that
    handle is empty.  No slot carries handle 2, which is neither valid nor
    known to GetObjectInfo, yet GetObjectHandles under parent 2 returns 0
    with one handle, the 0 left in the [handle] field of the slot of f:
    the walk stored 2, the index of that slot, as the parent handle of f.
    The session flag is not consulted. *)
Theorem C10_unissued_parent_lists_an_entry :
  let st := session_state vol_dir_with_file just_open in
  session_codes vol_dir_with_file just_open = Some [MTP_RESP_OK]
  ∧ reachable st
  ∧ fs_get_object_handles (get_object_handles 4294967295 4294967295) st
    = respond 0 (DataSendHandles [1]) st
  ∧ fs_get_object_handles (get_object_handles 4294967295 1) st
    = respond 0 (DataSendHandles []) st
  ∧ fs_handle_valid (handle_table st) 2 = false
  ∧ fs_get_handle_entry (handle_table st) 2 = None
  ∧ code_after (fs_get_object_info (get_object_info 2) st)
    = Some MTP_RESP_INVALID_OBJECT_HANDLE
  ∧ fs_get_object_handles (get_object_handles 4294967295 2) st
    = respond 0 (DataSendHandles [0]) st
  ∧ fs_get_object_handles (get_object_handles 4294967295 2)
      (set_is_session_opened st false)
    = respond 0 (DataSendHandles [0]) (set_is_session_opened st false).
Proof.
  intros st.
  assert (Hcodes : session_codes vol_dir_with_file just_open = Some [MTP_RESP_OK])
    by (vm_compute; reflexivity).
  split_and!; try (vm_compute; reflexivity).
  exact (session_state_reachable _ _ _ Hcodes).
Qed.

(** Listings on concrete inputs: a parent that no slot names, and the root
    before any session. *)
Lemma fs_get_object_handles_lists_example :
  fs_get_object_handles (get_object_handles SUPPORTED_STORAGE_ID 7)
    (session_state vol_two_files just_open)
  = respond 0 (DataSendHandles []) (session_state vol_two_files just_open)
  ∧ fs_get_object_handles (get_object_handles 4294967295 4294967295)
      (initial_state vol_two_files)
    = respond 0 (DataSendHandles []) (initial_state vol_two_files).
Proof.
  split.
  - pose proof (fs_get_object_handles_lists (get_object_handles SUPPORTED_STORAGE_ID 7)
                  (session_state vol_two_files just_open)
                  ltac:(right; reflexivity)) as (Hrun & _ & _ & Hdead).
    rewrite Hrun, Hdead;
      [reflexivity | vm_compute; discriminate | vm_compute; reflexivity
      | vm_compute; reflexivity].
  - exact (proj1 (fs_get_object_handles_lists (get_object_handles 4294967295 4294967295)
                    (initial_state vol_two_files) ltac:(left; reflexivity))).
Qed.

(** * The remaining code on concrete volumes *)

(** X1 on a concrete input: OpenSession after boot on the volume with the
    directory d. *)
Lemma open_session_stays_in_table_witness :
  ∃ st', fs_open_close_session open_session (initial_state vol_dir_with_file)
         = Done (respond MTP_RESP_OK NoIO st')
    ∧ 1 ≤ handle_self_inc st' ≤ MTP_HANDLE_TABLE_SIZE.
Proof.
  destruct (open_session_stays_in_table open_session (initial_state vol_dir_with_file))
    as (st' & Hrun & _ & _ & _ & _ & Hinc & _).
  - apply reachable_boot.
  - reflexivity.
  - reflexivity.
  - intros items Hitems. vm_compute in Hitems. injection Hitems as <-.
    apply Forall_cons. split; [intros _; unfold PATH_BUF_LEN; cbn; lia|apply Forall_nil_2].
  - exists st'. split; assumption.
Defined.

(** X2 on a concrete input: OpenSession after boot on the volume with the
    files a and b. *)
Lemma open_session_flat_root_witness :
  ∃ st', fs_open_close_session open_session (initial_state vol_two_files)
         = Done (respond MTP_RESP_OK NoIO st')
    ∧ handles_used (handle_table st') = 3.
Proof.
  destruct (open_session_flat_root open_session (initial_state vol_two_files)
              [{| d_name := "a"; d_type := DT_REG |}; {| d_name := "b"; d_type := DT_REG |}])
    as (st' & Hrun & Hused & _).
  - apply reachable_boot.
  - reflexivity.
  - reflexivity.
  - vm_compute. reflexivity.
  - repeat constructor; discriminate.
  - exists st'. split; [exact Hrun|exact Hused].
Defined.

(** X3 on a concrete input: the directory d with its file f. *)
Lemma open_session_directory_children_witness :
  ∃ st', fs_open_close_session open_session (initial_state vol_dir_with_file)
         = Done (respond MTP_RESP_OK NoIO st')
    ∧ handles (handle_table st') !! 2%nat
      = Some {| handle := 0; parent_handle := 2; is_dir := false; name := "f" |}.
Proof.
  destruct (open_session_directory_children open_session (initial_state vol_dir_with_file)
              {| d_name := "d"; d_type := DT_DIR |} []
              [{| d_name := "f"; d_type := DT_REG |}])
    as (st' & Hrun & _ & _ & Hboot).
  - apply reachable_boot.
  - reflexivity.
  - reflexivity.
  - vm_compute. reflexivity.
  - reflexivity.
  - apply Forall_cons. split; [intros _; unfold PATH_BUF_LEN; cbn; lia|apply Forall_nil_2].
  - vm_compute. reflexivity.
  - cbn. lia.
  - exists st'. split; [exact Hrun|].
    exact (proj2 (Hboot eq_refl) 0%nat {| d_name := "f"; d_type := DT_REG |} eq_refl).
Defined.

(** X4 on a concrete input: the files a and b after boot, listed. *)
Lemma first_session_flat_root_witness :
  ∃ st', fs_open_close_session open_session (initial_state vol_two_files)
         = Done (respond MTP_RESP_OK NoIO st')
    ∧ fs_path_from_handle (handle_table st') 2 PATH_BUF_LEN = Done (Some "/littlefs/b")
    ∧ fs_get_object_handles (get_object_handles 4294967295 4294967295) st'
      = respond 0 (DataSendHandles [1; 2]) st'.
Proof.
  destruct (first_session_flat_root open_session
              (get_object_handles 4294967295 4294967295) vol_two_files
              [{| d_name := "a"; d_type := DT_REG |}; {| d_name := "b"; d_type := DT_REG |}])
    as (st' & Hrun & Hpath & _ & Hlist).
  - reflexivity.
  - vm_compute. reflexivity.
  - unfold MTP_FILENAME_LENGTH; cbn; lia.
  - repeat constructor; try discriminate; unfold MTP_FILENAME_LENGTH; cbn; lia.
  - left. reflexivity.
  - left. reflexivity.
  - exists st'. split_and!; [exact Hrun| |exact Hlist].
    exact (Hpath 1%nat {| d_name := "b"; d_type := DT_REG |} eq_refl).
Defined.

(** X5 on a concrete input: GetObjectInfo on the directory d. *)
Lemma first_directory_is_announced_as_a_file_witness :
  ∃ st', fs_open_close_session open_session (initial_state vol_dir_with_file)
         = Done (respond MTP_RESP_OK NoIO st')
    ∧ fs_get_object_info (get_object_info 1) st'
      = Done (respond 0 (DataSendObjectInfo 0 MTP_ASSOCIATION_UNDEFINED 0 "d") st').
Proof.
  destruct (first_directory_is_announced_as_a_file open_session (get_object_info 1)
              vol_dir_with_file {| d_name := "d"; d_type := DT_DIR |} []
              [{| d_name := "f"; d_type := DT_REG |}]
              {| st_is_dir := true; st_size := 0 |})
    as (st' & Hrun & _ & Hinfo).
  - reflexivity.
  - vm_compute. reflexivity.
  - reflexivity.
  - unfold MTP_FILENAME_LENGTH. cbn. lia.
  - apply Forall_nil_2.
  - vm_compute. reflexivity.
  - cbn. lia.
  - vm_compute. reflexivity.
  - reflexivity.
  - exists st'. split; [exact Hrun|exact Hinfo].
Defined.

(** X6 on a concrete input: handle 1 of the two files. *)
Lemma fs_delete_handle_frees_one_slot_witness :
  ∃ tbl', fs_delete_handle (handle_table (session_state vol_two_files just_open)) 1
          = (0, tbl')
    ∧ fs_handle_valid tbl' 1 = false
    ∧ fs_handle_valid tbl' 2 = true.
Proof.
  destruct (proj2 (fs_delete_handle_frees_one_slot
                     (handle_table (session_state vol_two_files just_open)) 1))
    as (tbl' & Hdel & _ & _ & _ & Hother & Hgone).
  - vm_compute. reflexivity.
  - exists tbl'. split_and!; [exact Hdel| |].
    + apply Hgone. vm_compute. reflexivity.
    + rewrite (Hother 2) by discriminate. vm_compute. reflexivity.
Defined.

(** X7 on a concrete input: DeleteObject on handle 1 of the two files. *)
Lemma deleted_object_is_gone_witness :
  let st := session_state vol_two_files just_open in
  let r := returned (fs_delete_object (delete_object 1) st) (respond 0 NoIO st) in
  fs_delete_object (delete_object 1) (r_state r)
  = Done (respond MTP_RESP_INVALID_OBJECT_HANDLE NoIO (r_state r)).
Proof.
  intros st r.
  refine (proj1 (proj2 (deleted_object_is_gone (delete_object 1) st r _ _ _))).
  - vm_compute. reflexivity.
  - vm_compute. reflexivity.
  - vm_compute. reflexivity.
Defined.


(** X9 on a concrete input: a file named like the directory d, which
    [fopen] refuses. *)
Lemma fs_create_file_failure_witness :
  let st := session_state vol_dir_with_file just_open in
  handle_table (fs_create_file st 0 "d").2 = handle_table st
  ∧ handle_self_inc (fs_create_file st 0 "d").2 = handle_self_inc st + 1.
Proof.
  intros st.
  destruct (fs_create_file_failure st 0 "d") as (Htable & _ & _ & Hcase).
  - vm_compute. discriminate.
  - vm_compute. reflexivity.
  - split; [exact Htable|]. vm_compute. reflexivity.
Defined.

(** X10 on a concrete input: the file c of four bytes announced below the
    root. *)
Lemma send_object_info_then_complete_witness :
  let st := session_state vol_two_files just_open in
  let cb := send_object_info_data 4294967295 MTP_ASSOCIATION_UNDEFINED 4 "c" in
  ∃ st', fs_send_object_info cb st = Done (respond 0 NoIO st')
    ∧ tud_mtp_data_complete_cb cb XFER_RESULT_SUCCESS st'
      = (MTP_RESP_OK, [SUPPORTED_STORAGE_ID; 0; 4]).
Proof.
  intros st cb.
  destruct (send_object_info_then_complete cb st XFER_RESULT_SUCCESS 0 empty_entry
              (default vol_empty (fopen_w (disk st) "/littlefs/c")))
    as (st' & Hrun & Hdone & _).
  - reflexivity.
  - reflexivity.
  - right. reflexivity.
  - reflexivity.
  - right. reflexivity.
  - left. reflexivity.
  - reflexivity.
  - vm_compute. reflexivity.
  - vm_compute. lia.
  - intros Hne. exfalso. apply Hne. reflexivity.
  - vm_compute. reflexivity.
  - vm_compute. reflexivity.
  - vm_compute. reflexivity.
  - assert (Hnext : to_uint32 (handle_self_inc st + 1) = 4) by (vm_compute; reflexivity).
    rewrite Hnext in Hdone.
    exists st'. split; [exact Hrun|exact Hdone].
Defined.

(** X11 on a concrete input: the folder docs created on the empty volume. *)
Lemma folder_creation_then_complete_witness :
  let st := session_state vol_empty just_open in
  let cb := send_object_info_data 4294967295 MTP_ASSOCIATION_GENERIC_FOLDER 0 "docs" in
  ∃ st', fs_send_object_info cb st = Done (respond 0 NoIO st')
    ∧ stat (disk st') "/littlefs/docs" = Some {| st_is_dir := true; st_size := 0 |}
    ∧ tud_mtp_data_complete_cb cb XFER_RESULT_SUCCESS st'
      = (MTP_RESP_INVALID_OBJECT_HANDLE, []).
Proof.
  intros st cb.
  destruct (folder_creation_then_complete cb st XFER_RESULT_SUCCESS)
    as (st' & Hrun & Hdisk & _ & _ & Hidle).
  - reflexivity.
  - reflexivity.
  - right. reflexivity.
  - reflexivity.
  - right. reflexivity.
  - reflexivity.
  - reflexivity.
  - exists st'. split_and!; [exact Hrun| |].
    + rewrite Hdisk. vm_compute. reflexivity.
    + apply Hidle; vm_compute; reflexivity.
Defined.

(** X12 on a concrete input: Cancel while object 1 is being read. *)
Lemma cancel_drops_the_stream_only_witness :
  let st := session_state vol_two_files start_transfer in
  ∃ st', tud_mtp_request_cancel_cb st = Done st'
    ∧ current_file st' = None
    ∧ handle_table st' = handle_table st.
Proof.
  intros st.
  destruct (cancel_drops_the_stream_only (send_object_data 0 []) st
              {| f_path := "/littlefs/a"; f_write := false; f_pos := 3 |})
    as (st' & Hrun & Hfile & _ & Htable & _).
  - vm_compute. reflexivity.
  - exists st'. split_and!; assumption.
Defined.

(** X13 on a concrete input: GetObject on the three-byte file a. *)
Lemma get_object_command_phase_witness :
  ∃ st', fs_get_object 1 (command 4105 1 0 0) (session_state vol_two_files just_open)
         = Done (respond 0 (DataSendObject 3 [x01; x02; x03]) st')
    ∧ current_handle st' = 1.
Proof.
  destruct (get_object_command_phase 1 (command 4105 1 0 0)
              (session_state vol_two_files just_open) "/littlefs/a" [x01; x02; x03])
    as (st' & Hrun & _ & Hhandle & _).
  - reflexivity.
  - vm_compute. reflexivity.
  - vm_compute. reflexivity.
  - vm_compute. reflexivity.
  - vm_compute. reflexivity.
  - vm_compute. split; discriminate.
  - exists st'. split; [exact Hrun|exact Hhandle].
Defined.

(** X14 on concrete inputs: the four bytes of the announced file c arrive
    in one chunk and are written; three bytes sent while the stream that
    GetObject opened on the file a is still open are not, and the file a
    keeps its content. *)
Lemma send_object_data_phase_witness :
  (let st := session_state vol_two_files announce_file in
   let cb := send_object_data 4 [x0a; x0b; x0c; x0d] in
   ∃ st', fs_send_object cb st = Done (respond 0 NoIO st')
     ∧ fopen_r (disk st') "/littlefs/c" = Some [x0a; x0b; x0c; x0d]
     ∧ current_file st' = None)
  ∧ (let st := session_state vol_two_files start_transfer in
     let cb := send_object_data 3 [x0a; x0b; x0c] in
     ∃ st', fs_send_object cb st = Done (respond 0 NoIO st')
       ∧ disk st' = disk st
       ∧ fopen_r (disk st') "/littlefs/a" = Some [x01; x02; x03]
       ∧ current_file st' = None).
Proof.
  split; intros st cb.
  - destruct (send_object_data_phase cb st
                {| f_path := "/littlefs/c"; f_write := true; f_pos := 0 |}
                ltac:(vm_compute; reflexivity) ltac:(vm_compute; discriminate)
                eq_refl)
      as (Hwrite & _ & _ & Hlast).
    destruct (Hwrite eq_refl) as [Hwritten _].
    destruct Hlast as (st' & Hrun & Hdisk & Hfile & _).
    + vm_compute. discriminate.
    + exists st'. split_and!; [exact Hrun| |exact Hfile].
      rewrite Hdisk, Hwritten. vm_compute. reflexivity.
  - destruct (send_object_data_phase cb st
                {| f_path := "/littlefs/a"; f_write := false; f_pos := 3 |}
                ltac:(vm_compute; reflexivity) ltac:(vm_compute; discriminate)
                eq_refl)
      as (_ & Hread & _ & Hlast).
    destruct (Hread eq_refl) as [Hkept _].
    destruct Hlast as (st' & Hrun & Hdisk & Hfile & _).
    + vm_compute. discriminate.
    + exists st'. rewrite Hdisk, Hkept.
      split_and!; [exact Hrun|reflexivity|vm_compute; reflexivity|exact Hfile].
Defined.


(** X16 on a concrete input: MoveObject. *)
Lemma unknown_operation_gets_no_response_witness :
  tud_mtp_command_received_cb sample_mac stale_stack 0 move_object
    (initial_state vol_empty)
  = Done {| d_return := MTP_RESP_OPERATION_NOT_SUPPORTED; d_data := HandlerIO NoIO;
            d_response := None; d_state := initial_state vol_empty |}.
Proof.
  refine (proj1 (unknown_operation_gets_no_response sample_mac stale_stack 0 move_object
                   (initial_state vol_empty) _)).
  apply (bool_decide_unpack _). vm_compute. exact I.
Defined.

(** X17 on a concrete input: DeleteObject on handle 1 through the
    dispatcher. *)
Lemma dispatch_sends_what_the_handler_returns_witness :
  let st := session_state vol_two_files just_open in
  let d := returned (tud_mtp_command_received_cb sample_mac stale_stack 0
                       (delete_object 1) st)
             {| d_return := 0; d_data := HandlerIO NoIO; d_response := None;
                d_state := st |} in
  d_return d = MTP_RESP_OK ∧ d_response d = Some MTP_RESP_OK.
Proof.
  intros st d.
  destruct (dispatch_sends_what_the_handler_returns sample_mac stale_stack 0
              (delete_object 1) st d) as (_ & Hsent & _).
  - vm_compute. reflexivity.
  - split; [vm_compute; reflexivity|]. rewrite Hsent. vm_compute. reflexivity.
Defined.

(** X18 on a concrete input: the state after two sessions on three
    files. *)
Lemma reachable_state_shape_witness :
  length (handles (handle_table (session_state vol_three_files reopen_after_deletes)))
  = 32%nat.
Proof.
  refine (proj1 (reachable_state_shape
                   (session_state vol_three_files reopen_after_deletes) _)).
  apply (session_state_reachable _ _ [8193; 8193; 8193; 8193; 8193]).
  vm_compute. reflexivity.
Defined.

(** X19 on a concrete input: the command phase of GetObject on object 1. *)
Lemma read_requests_keep_table_and_volume_witness :
  let st := session_state vol_two_files just_open in
  let r := returned (serve (GetObject 1 (command 4105 1 0 0)) st) (respond 0 NoIO st) in
  handle_table (r_state r) = handle_table st ∧ disk (r_state r) = disk st.
Proof.
  intros st r.
  destruct (read_requests_keep_table_and_volume (GetObject 1 (command 4105 1 0 0)) st r)
    as (Htable & _ & _ & Hdisk).
  - reflexivity.
  - vm_compute. reflexivity.
  - split; assumption.
Defined.

(** X20 on a concrete input: the address 24:6F:28:AB:CD:EF gives the
    serial number EFCDAB286F24. *)
Lemma device_serial_spells_the_mac_witness :
  ∃ serial,
    fs_get_device_info sample_mac stale_stack
    = (0, DeviceInfoStrings "TinyUSB" "MTP Example" "1.0" serial)
    ∧ octets_of_hex serial = Some [239; 205; 171; 40; 111; 36].
Proof.
  destruct (device_serial_spells_the_mac sample_mac stale_stack)
    as (serial & Hinfo & _ & _ & _ & Hoctets).
  - reflexivity.
  - repeat constructor; lia.
  - reflexivity.
  - exists serial. split; [exact Hinfo|exact Hoctets].
Defined.
